(** * Technical indicator and composite scoring engine

    A shallow embedding of the numeric core of the MCP gateway: the class
    [CryptoGodEngine] of the simplified engine (moving averages, RSI,
    Bollinger Bands, volatility, support/resistance levels, the composite
    prediction and the WebSocket request handler around them) and the
    methods of the class of the same name in [src/mcp-gateway.js] that
    differ from it ([generateGodPrediction], [calculateSupportResistance],
    [marketStructureAnalysis], [elliottWaveAnalysis]).

    Conventions of the model.
    - A JavaScript number is modelled twice.  The modules [Engine] and
      [Gateway] take it as an exact real ([R]); they carry the statements
      about comparisons, counts, orderings and ranges.  The module
      [Binary64] repeats the composite scorer and the Bollinger Bands over
      IEEE-754 binary64 numbers (primitive floats), the arithmetic the
      program runs on; it carries the statements that rounding decides:
      the score at the thresholds of the output mapping and the exact
      values of the bands.
    - An array is a [list]; [arr.slice(a, b)] with [0 <= a] is [slice a b],
      [arr.slice(-k)] is [sliceLast k], [arr.reduce((a, b) => a + b, 0)] is
      [sum], [arr[arr.length - 1]] is [lastElement] ([None] for
      [undefined]).
    - A [for] loop that pushes one value per iteration is a [map] over the
      list of its indices; a loop with [break] is a recursive scan of its
      indices.
    - [null] and [undefined] are [None] where the code treats them alike;
      the share of up-votes, which one engine compares with numbers as it
      comes, keeps them apart ([Votes]).  String-valued enumerations stay
      strings.
    - Loop counters and window sizes are natural numbers; the callers pass
      the positive periods 14, 20 and 50. *)

From Stdlib Require Import PrimFloat.
From Stdlib Require Import String Ascii.
From Stdlib Require Import Reals Lra Lia List Arith Bool Classical.
From Stdlib Require Uint63.
Import ListNotations.

Set Warnings "-inexact-float".

Local Open Scope R_scope.

(** ** JavaScript primitives *)

Module JS.

(** [x < y], [x <= y], [x > y], [x >= y] and [x === y] on numbers. *)
Definition ltb (x y : R) : bool := if Rlt_dec x y then true else false.
Definition leb (x y : R) : bool := if Rle_dec x y then true else false.
Definition gtb (x y : R) : bool := ltb y x.
Definition geb (x y : R) : bool := leb y x.
Definition eqb (x y : R) : bool := if Req_dec_T x y then true else false.

(** Truthiness of a number: every number but zero. *)
Definition truthy (x : R) : bool := negb (eqb x 0).

(** [l.slice(start, stop)] for non-negative indices; [stop] is clamped to
    the length as in JavaScript. *)
Definition slice {A : Type} (start stop : nat) (l : list A) : list A :=
  firstn (stop - start) (skipn start l).

(** [l.slice(-k)]: the last [k] elements, or all of them. *)
Definition sliceLast {A : Type} (k : nat) (l : list A) : list A :=
  skipn (length l - k) l.

(** [l.reduce((a, b) => a + b, 0)]. *)
Definition sum (l : list R) : R := fold_left Rplus l 0.

(** [l[l.length - 1]]. *)
Definition lastElement {A : Type} (l : list A) : option A :=
  nth_error l (length l - 1).

(** [Math.pow(x, 2)]. *)
Definition pow2 (x : R) : R := x * x.

End JS.

Import JS.

(** ** Data *)

(** [{ type, price, strength }] of a support or resistance level. *)
Record Level : Type := mkLevel {
  type : string;
  price : R;
  strength : string
}.

(** [{ upper, middle, lower }] of one Bollinger window. *)
Record Band : Type := mkBand {
  upper : R;
  middle : R;
  lower : R
}.

(** A number or a string, for a field that holds either. *)
Inductive Value : Type :=
| VNum (x : R)
| VStr (s : string).

(** A JSON value as far as request arguments need it, and an object as the
    list of its properties. *)
#[warnings="-register-all"] Inductive Json : Type :=
| JNum (x : R)
| JStr (s : string)
| JObj (properties : list (string * Json)).

Definition Object : Type := list (string * Json).

(** [o[key]]; [None] for [undefined]. *)
Fixpoint getProperty (key : string) (o : Object) : option Json :=
  match o with
  | [] => None
  | (k, v) :: rest => if String.eqb k key then Some v else getProperty key rest
  end.

(** The share of up-votes of the fetched data: a number, [null] (the
    provider has no votes) or [undefined] (the field is missing). *)
Inductive Votes : Type :=
| Percentage (v : R)
| NullVotes
| NoVotes.

(** The fetched market data, reduced to the fields the engine reads:
    [coin.market_data.current_price.usd], [coin.market_data.market_cap.usd],
    [coin.market_data.total_volume.usd], [coin.market_data.market_cap_rank],
    [coin.market_data.price_change_percentage_24h],
    [coin.sentiment_votes_up_percentage] and [historical.prices], whose
    entries are the pairs [[timestamp, price]]. *)
Record MarketData : Type := mkMarketData {
  current_price_usd : R;
  market_cap_usd : R;
  total_volume_usd : R;
  market_cap_rank : R;
  price_change_percentage_24h : R;
  sentiment_votes_up_percentage : Votes;
  historical_prices : list (R * R)
}.

(** The object returned by [marketStructureAnalysis]. *)
Record MarketStructure : Type := mkMarketStructure {
  marketCapRank : R;
  liquidityScore : R;
  volatilityRating : string;
  institutionalInterest : string;
  retailSentiment : string
}.

(** The object returned by [getNewsSentiment]. *)
Record Sentiment : Type := mkSentiment {
  overall_sentiment : string;
  score : R;
  major_news : list string
}.

Record PriceTargets : Type := mkPriceTargets {
  support : Value;
  resistance : Value
}.

(** The object returned by [generateGodPrediction]. *)
Record Prediction : Type := mkPrediction {
  direction : string;
  confidence : R;
  timeframe : string;
  price_targets : PriceTargets;
  risk_level : string
}.

(** The local constant [weights] of [generateGodPrediction]. *)
Record Weights : Type := mkWeights {
  w_technical : R;
  w_fundamental : R;
  w_sentiment : R;
  w_market_structure : R
}.

(** What a call does: return a value or throw an [Error]. *)
Inductive Outcome (A : Type) : Type :=
| Return (a : A)
| Throw (message : string).

Arguments Return {A} a.
Arguments Throw {A} message.

(** [s.toUpperCase()] on ASCII letters. *)
Definition upperAscii (c : ascii) : ascii :=
  let n := nat_of_ascii c in
  if ((97 <=? n) && (n <=? 122))%nat then ascii_of_nat (n - 32) else c.

Fixpoint toUpperCase (s : string) : string :=
  match s with
  | EmptyString => EmptyString
  | String c rest => String (upperAscii c) (toUpperCase rest)
  end.

(** ** The simplified engine *)

Module Engine.

(** [calculateSMA(prices, period)] *)
Definition calculateSMA (prices : list R) (period : nat) : list R :=
  map (fun i => sum (slice (i + 1 - period) (i + 1) prices) / INR period)
      (seq (period - 1) (length prices - (period - 1))).

(** First loop of [calculateRSI]: the successive price changes. *)
Definition priceChanges (prices : list R) : list R :=
  map (fun i => nth i prices 0 - nth (i - 1) prices 0)
      (seq 1 (length prices - 1)).

(** The window of changes of iteration [i] of the second loop. *)
Definition rsiWindow (changes : list R) (period i : nat) : list R :=
  slice (i - period) i changes.

Definition avgGain (changes : list R) (period i : nat) : R :=
  let gains := filter (fun c => gtb c 0) (rsiWindow changes period i) in
  if (0 <? length gains)%nat then sum gains / INR period else 0.

Definition avgLoss (changes : list R) (period i : nat) : R :=
  let losses :=
    map Rabs (filter (fun c => ltb c 0) (rsiWindow changes period i)) in
  if (0 <? length losses)%nat then sum losses / INR period else 0.

(** Body of the second loop of [calculateRSI]. *)
Definition rsiAt (changes : list R) (period i : nat) : R :=
  let rs :=
    if eqb (avgLoss changes period i) 0 then 100
    else avgGain changes period i / avgLoss changes period i in
  100 - (100 / (1 + rs)).

(** [calculateRSI(prices, period = 14)] *)
Definition calculateRSI (prices : list R) (period : nat) : list R :=
  let changes := priceChanges prices in
  map (rsiAt changes period) (seq period (length changes - period)).

(** The window [prices.slice(dataIndex - period + 1, dataIndex + 1)] of
    iteration [i] of [calculateBollingerBands], with
    [dataIndex = i + period - 1]; the addition comes first because the
    subtraction of natural numbers stops at 0. *)
Definition bbSubset (prices : list R) (period i : nat) : list R :=
  slice (i + period - 1 + 1 - period) (i + period - 1 + 1) prices.

Definition bbVariance (prices : list R) (period i : nat) (mean : R) : R :=
  fold_left (fun acc p => acc + pow2 (p - mean)) (bbSubset prices period i) 0
  / INR period.

Definition bbStdDev (prices : list R) (period i : nat) (mean : R) : R :=
  sqrt (bbVariance prices period i mean).

(** [calculateBollingerBands(prices, period = 20, multiplier = 2)] *)
Definition calculateBollingerBands
    (prices : list R) (period : nat) (multiplier : R) : list Band :=
  let sma := calculateSMA prices period in
  map (fun i =>
         let mean := nth i sma 0 in
         let stdDev := bbStdDev prices period i mean in
         {| upper := mean + (stdDev * multiplier);
            middle := mean;
            lower := mean - (stdDev * multiplier) |})
      (seq 0 (length sma)).

(** [calculateVolatility(prices)] *)
Definition calculateVolatility (prices : list R) : R :=
  let returns :=
    map (fun i => (nth i prices 0 - nth (i - 1) prices 0) / nth (i - 1) prices 0)
        (seq 1 (length prices - 1)) in
  let mean := sum returns / INR (length returns) in
  let variance :=
    fold_left (fun acc ret => acc + pow2 (ret - mean)) returns 0
    / INR (length returns) in
  sqrt variance * 100.

Definition lookback : nat := 10.

(** The first inner loop of [calculateSupportResistance]: [js] are the
    values of [j] still to visit. *)
Fixpoint supportScan
    (prices : list R) (i : nat) (current : R) (js : list nat) : list Level :=
  match js with
  | [] => []
  | j :: rest =>
      if negb (j =? i)%nat && leb (nth j prices 0) current then []
      else if (j =? i + lookback)%nat
           then mkLevel "support" current "medium"
                :: supportScan prices i current rest
           else supportScan prices i current rest
  end.

(** The second inner loop. *)
Fixpoint resistanceScan
    (prices : list R) (i : nat) (current : R) (js : list nat) : list Level :=
  match js with
  | [] => []
  | j :: rest =>
      if negb (j =? i)%nat && geb (nth j prices 0) current then []
      else if (j =? i + lookback)%nat
           then mkLevel "resistance" current "medium"
                :: resistanceScan prices i current rest
           else resistanceScan prices i current rest
  end.

(** The values of [j] of both inner loops: [i - lookback .. i + lookback]. *)
Definition scanIndices (i : nat) : list nat :=
  seq (i - lookback) (i + lookback + 1 - (i - lookback)).

(** The levels pushed by iteration [i] of the outer loop. *)
Definition levelsAt (prices : list R) (i : nat) : list Level :=
  let current := nth i prices 0 in
  supportScan prices i current (scanIndices i)
  ++ resistanceScan prices i current (scanIndices i).

(** All levels pushed by the outer loop, before the final [slice(-10)]. *)
Definition allLevels (prices : list R) : list Level :=
  flat_map (levelsAt prices)
           (seq lookback (length prices - lookback - lookback)).

(** [calculateSupportResistance(prices)] *)
Definition calculateSupportResistance (prices : list R) : list Level :=
  sliceLast 10 (allLevels prices).

(** The object returned by [calculateSimpleTechnicals]; a field is
    [None] when the code stores [undefined] in it. *)
Record Technicals : Type := mkTechnicals {
  sma_20 : option R;
  sma_50 : option R;
  rsi : option R;
  bollinger_bands : option Band;
  support_resistance : list Level;
  price_change_24h : R;
  volatility : R
}.

(** [calculateSimpleTechnicals(prices)]; [None] is [null]. *)
Definition calculateSimpleTechnicals
    (prices : list (R * R)) : option Technicals :=
  let closePrices := map snd prices in
  let length := length closePrices in
  if (length <? 20)%nat then None
  else
    let sma_20 := calculateSMA closePrices 20 in
    let sma_50 := calculateSMA closePrices 50 in
    let rsi := calculateRSI closePrices 14 in
    let bb := calculateBollingerBands closePrices 20 2 in
    let supportResistance := calculateSupportResistance closePrices in
    Some {| sma_20 := lastElement sma_20;
            sma_50 := lastElement sma_50;
            rsi := lastElement rsi;
            bollinger_bands := lastElement bb;
            support_resistance := supportResistance;
            price_change_24h :=
              ((nth (length - 1) closePrices 0
                - nth (length - 2) closePrices 0)
               / nth (length - 2) closePrices 0) * 100;
            volatility := calculateVolatility closePrices |}.

(** [calculateSentiment(upPercentage)] *)
Definition calculateSentiment (upPercentage : R) : string :=
  if gtb upPercentage 60 then "bullish"
  else if ltb upPercentage 40 then "bearish" else "neutral".

(** [marketStructureAnalysis(data)] *)
Definition marketStructureAnalysis (data : MarketData) : MarketStructure :=
  let marketCap := market_cap_usd data in
  let volume := total_volume_usd data in
  {| marketCapRank := market_cap_rank data;
     liquidityScore := volume / marketCap;
     volatilityRating :=
       if gtb (Rabs (price_change_percentage_24h data)) 10
       then "high" else "normal";
     institutionalInterest :=
       if gtb marketCap 1000000000 then "high" else "medium";
     retailSentiment :=
       calculateSentiment
         match sentiment_votes_up_percentage data with
         | Percentage v => if truthy v then v else 50
         | NullVotes => 50
         | NoVotes => 50
         end |}.

Definition weights : Weights :=
  {| w_technical := 0.4;
     w_fundamental := 0.3;
     w_sentiment := 0.2;
     w_market_structure := 0.1 |}.

(** [technicalScore]: 0.5 unless [technicals && technicals.rsi]. *)
Definition technicalScore (technicals : option Technicals) : R :=
  match technicals with
  | Some t =>
      match rsi t with
      | Some r =>
          if truthy r
          then if ltb r 30 then 0.8 else if gtb r 70 then 0.2 else 0.5
          else 0.5
      | None => 0.5
      end
  | None => 0.5
  end.

Definition fundamentalScore (marketStructure : MarketStructure) : R :=
  if gtb (liquidityScore marketStructure) 0.1 then 0.7 else 0.4.

Definition sentimentScore (sentiment : Sentiment) : R :=
  if gtb (score sentiment) 0 then 0.7 else 0.3.

Definition structureScore (marketStructure : MarketStructure) : R :=
  if String.eqb (institutionalInterest marketStructure) "high"
  then 0.8 else 0.5.

Definition finalScore
    (technicals : option Technicals) (sentiment : Sentiment)
    (marketStructure : MarketStructure) : R :=
  technicalScore technicals * w_technical weights
  + fundamentalScore marketStructure * w_fundamental weights
  + sentimentScore sentiment * w_sentiment weights
  + structureScore marketStructure * w_market_structure weights.

(** [technicals?.bollinger_bands?.<side> || 'N/A'] *)
Definition priceTarget
    (technicals : option Technicals) (side : Band -> R) : Value :=
  match technicals with
  | Some t =>
      match bollinger_bands t with
      | Some b => if truthy (side b) then VNum (side b) else VStr "N/A"
      | None => VStr "N/A"
      end
  | None => VStr "N/A"
  end.

(** [generateGodPrediction(technicals, fundamentals, sentiment,
    marketStructure)] *)
Definition generateGodPrediction
    (technicals : option Technicals) (fundamentals : MarketData)
    (sentiment : Sentiment) (marketStructure : MarketStructure)
    : Prediction :=
  let finalScore := finalScore technicals sentiment marketStructure in
  {| direction :=
       if gtb finalScore 0.6 then "BULLISH"
       else if ltb finalScore 0.4 then "BEARISH" else "NEUTRAL";
     confidence := Rabs (finalScore - 0.5) * 200;
     timeframe := "24h-7d";
     price_targets :=
       {| support := priceTarget technicals lower;
          resistance := priceTarget technicals upper |};
     risk_level :=
       if gtb finalScore 0.7 || ltb finalScore 0.3
       then "HIGH" else "MEDIUM" |}.

(** The [params] of a request: [params.name] and [params.arguments].  The
    requests of this model carry [params] with a string [name]; for a
    request without [params] the read of [params.name] throws a
    [TypeError] in the 'tools/call' branch, which is outside the model. *)
Record Params : Type := mkParams {
  name : string;
  arguments : option Object
}.

Record Request : Type := mkRequest {
  method : string;
  params : Params
}.

(** What the awaited calls of the [god_analysis] branch deliver:
    [getMarketData], [getNewsSentiment] and [getFearGreedIndex]. *)
Record Fetched : Type := mkFetched {
  marketData : MarketData;
  newsSentiment : Sentiment;
  fearGreed : Json
}.

(** The object the [god_analysis] branch serialises ([timestamp], the
    clock, left out); [technical_indicators = None] is the empty object
    of [technicals || {}]. *)
Record Report : Type := mkReport {
  symbol : string;
  current_price : R;
  technical_indicators : option Technicals;
  market_structure : MarketStructure;
  sentiment_analysis : Sentiment;
  fear_greed_index : Json;
  god_prediction : Prediction
}.

(** The [result] of a response; the two constant payloads are not
    spelled out, and [NoResult] is the [undefined] returned after
    [break]. *)
Inductive Result : Type :=
| InitializeResult
| ToolsListResult
| AnalysisResult (report : Report)
| NoResult.

(** [handleMCPRequest(request)], given what its awaited calls deliver.
    [toolParams.symbol.toUpperCase()] throws a [TypeError] unless
    [symbol] is a string. *)
Definition handleMCPRequest
    (request : Request) (fetched : Fetched) : Outcome Result :=
  if String.eqb (method request) "initialize" then Return InitializeResult
  else if String.eqb (method request) "tools/list" then Return ToolsListResult
  else if String.eqb (method request) "tools/call" then
    let toolName := name (params request) in
    let toolParams :=
      match arguments (params request) with
      | Some o => o
      | None => []
      end in
    if String.eqb toolName "god_analysis" then
      let marketData := marketData fetched in
      let technicals :=
        calculateSimpleTechnicals (historical_prices marketData) in
      let sentiment := newsSentiment fetched in
      let marketStructure := marketStructureAnalysis marketData in
      let prediction :=
        generateGodPrediction technicals marketData sentiment
                              marketStructure in
      match getProperty "symbol" toolParams with
      | Some (JStr symbol) =>
          Return (AnalysisResult
                    {| symbol := toUpperCase symbol;
                       current_price := current_price_usd marketData;
                       technical_indicators := technicals;
                       market_structure := marketStructure;
                       sentiment_analysis := sentiment;
                       fear_greed_index := fearGreed fetched;
                       god_prediction := prediction |})
      | _ => Throw "TypeError"
      end
    else Return NoResult
  else Throw ("Unknown method: " ++ method request).

(** The object returned by [analyzeElliottWave]. *)
Record ElliottWave : Type := mkElliottWave {
  trend : string;
  waves : list string;
  confidence : R
}.

(** The relative changes of [analyzeElliottWave]:
    [(recentPrices[i][1] - recentPrices[i-1][1]) / recentPrices[i-1][1]]. *)
Definition relativeChanges (recentPrices : list (R * R)) : list R :=
  map (fun i =>
         (snd (nth i recentPrices (0, 0)) - snd (nth (i - 1) recentPrices (0, 0)))
         / snd (nth (i - 1) recentPrices (0, 0)))
      (seq 1 (length recentPrices - 1)).

(** [analyzeElliottWave(prices)]; [random] is the value of the call of
    [Math.random()]. *)
Definition analyzeElliottWave (prices : list (R * R)) (random : R)
    : ElliottWave :=
  let recentPrices := sliceLast 20 prices in
  let changes := relativeChanges recentPrices in
  let upMoves := length (filter (fun c => gtb c 0) changes) in
  let downMoves := length (filter (fun c => ltb c 0) changes) in
  let confidence := random * 100 in
  let trend : string :=
    (if gtb (INR upMoves) (INR downMoves * 1.5) then "bullish_impulse"
     else if gtb (INR downMoves) (INR upMoves * 1.5) then "bearish_impulse"
          else "unknown")%string in
  {| trend := trend;
     waves := if negb (String.eqb trend "unknown")
              then [(trend ++ " detected")%string] else [];
     confidence := confidence |}.

(** The object returned by [analyzeWyckoff]. *)
Record Wyckoff : Type := mkWyckoff {
  phase : string;
  volumeAnalysis : string;
  priceVolumeRelationship : string
}.

(** [analyzeWyckoff(prices, volume)].  Without a price [Math.max()] is
    [-Infinity] and the average is [NaN]; both comparisons are then false
    and the phase stays 'consolidation'. *)
Definition analyzeWyckoff (prices : list (R * R)) (volume : list R) : Wyckoff :=
  let recentPrices := sliceLast 20 prices in
  let phase : string :=
    match map snd recentPrices with
    | [] => "consolidation"%string
    | p :: rest =>
        let priceRange := fold_left Rmax rest p - fold_left Rmin rest p in
        let avgPrice :=
          fold_left (fun sum p => sum + snd p) recentPrices 0
          / INR (length recentPrices) in
        (if gtb priceRange (avgPrice * 0.1) then "markup_markdown"
         else if ltb priceRange (avgPrice * 0.02)
              then "accumulation_distribution" else "consolidation")%string
    end in
  {| phase := phase;
     volumeAnalysis := "medium";
     priceVolumeRelationship := "neutral" |}.

(** [getNewsSentiment(symbol)]; [random] is the value of the call of
    [Math.random()]. *)
Definition getNewsSentiment (symbol : string) (random : R) : Sentiment :=
  let sentimentScore := (random - 0.5) * 2 in
  {| overall_sentiment :=
       if gtb sentimentScore 0.3 then "bullish"
       else if ltb sentimentScore (-0.3) then "bearish" else "neutral";
     score := sentimentScore;
     major_news :=
       ["Market sentiment remains mixed"%string;
        "Technical indicators show consolidation"%string;
        "Volume patterns suggest cautious optimism"%string] |}.

End Engine.

(** ** The engine of [src/mcp-gateway.js] *)

Module Gateway.

(** The fields of the object of [calculateTechnicalIndicators] that
    [generateGodPrediction] reads. *)
Record Technicals : Type := mkTechnicals {
  rsi : list R;
  bb : list Band
}.

Definition weights : Weights :=
  {| w_technical := 0.4;
     w_fundamental := 0.3;
     w_sentiment := 0.2;
     w_market_structure := 0.1 |}.

(** [technicals.rsi[technicals.rsi.length - 1] || 50] *)
Definition latestRSI (technicals : Technicals) : R :=
  match lastElement (rsi technicals) with
  | Some r => if truthy r then r else 50
  | None => 50
  end.

Definition technicalScore (technicals : Technicals) : R :=
  if ltb (latestRSI technicals) 30 then 0.8
  else if gtb (latestRSI technicals) 70 then 0.2 else 0.5.

Definition fundamentalScore (marketStructure : MarketStructure) : R :=
  if gtb (liquidityScore marketStructure) 0.1 then 0.7 else 0.4.

Definition sentimentScore (sentiment : Sentiment) : R :=
  if gtb (score sentiment) 0 then 0.7 else 0.3.

Definition structureScore (marketStructure : MarketStructure) : R :=
  if String.eqb (institutionalInterest marketStructure) "high"
  then 0.8 else 0.5.

Definition finalScore
    (technicals : Technicals) (sentiment : Sentiment)
    (marketStructure : MarketStructure) : R :=
  technicalScore technicals * w_technical weights
  + fundamentalScore marketStructure * w_fundamental weights
  + sentimentScore sentiment * w_sentiment weights
  + structureScore marketStructure * w_market_structure weights.

(** [technicals.bb[technicals.bb.length - 1]?.<side> || 'N/A'] *)
Definition priceTarget (technicals : Technicals) (side : Band -> R) : Value :=
  match lastElement (bb technicals) with
  | Some b => if truthy (side b) then VNum (side b) else VStr "N/A"
  | None => VStr "N/A"
  end.

(** [generateGodPrediction(technicals, fundamentals, sentiment,
    marketStructure)] *)
Definition generateGodPrediction
    (technicals : Technicals) (fundamentals : MarketData)
    (sentiment : Sentiment) (marketStructure : MarketStructure)
    : Prediction :=
  let finalScore := finalScore technicals sentiment marketStructure in
  {| direction :=
       if gtb finalScore 0.6 then "BULLISH"
       else if ltb finalScore 0.4 then "BEARISH" else "NEUTRAL";
     confidence := Rabs (finalScore - 0.5) * 200;
     timeframe := "24h-7d";
     price_targets :=
       {| support := priceTarget technicals lower;
          resistance := priceTarget technicals upper |};
     risk_level :=
       if gtb finalScore 0.7 || ltb finalScore 0.3
       then "HIGH" else "MEDIUM" |}.

Definition lookback : nat := 20.

(** [prices.slice(i - lookback, i + lookback)] *)
Definition subset (prices : list R) (i : nat) : list R :=
  slice (i - lookback) (i + lookback) prices.

Definition isSupport (prices : list R) (i : nat) : bool :=
  Nat.leb (length (filter (fun p => ltb p (nth i prices 0)) (subset prices i))) 2.

Definition isResistance (prices : list R) (i : nat) : bool :=
  Nat.leb (length (filter (fun p => gtb p (nth i prices 0)) (subset prices i))) 2.

(** The levels pushed by iteration [i] of the loop. *)
Definition levelsAt (prices : list R) (i : nat) : list Level :=
  let current := nth i prices 0 in
  (if isSupport prices i then [mkLevel "support" current "medium"] else [])
  ++ (if isResistance prices i
      then [mkLevel "resistance" current "medium"] else []).

(** All levels pushed by the loop, before the final [slice(-10)]. *)
Definition allLevels (prices : list R) : list Level :=
  flat_map (levelsAt prices)
           (seq lookback (length prices - lookback - lookback)).

(** [calculateSupportResistance(prices)] *)
Definition calculateSupportResistance (prices : list R) : list Level :=
  sliceLast 10 (allLevels prices).

(** [calculateSentiment(upPercentage)]; the argument comes as fetched.
    A comparison converts [null] to 0 and [undefined] to NaN, so [null] is
    rated as the number 0 and both comparisons with [undefined] are
    false. *)
Definition calculateSentiment (upPercentage : Votes) : string :=
  match upPercentage with
  | Percentage v =>
      if gtb v 60 then "bullish"
      else if ltb v 40 then "bearish" else "neutral"
  | NullVotes =>
      if gtb 0 60 then "bullish"
      else if ltb 0 40 then "bearish" else "neutral"
  | NoVotes => "neutral"
  end.

(** [marketStructureAnalysis(data)] *)
Definition marketStructureAnalysis (data : MarketData) : MarketStructure :=
  let marketCap := market_cap_usd data in
  let volume := total_volume_usd data in
  {| marketCapRank := market_cap_rank data;
     liquidityScore := volume / marketCap;
     volatilityRating :=
       if gtb (price_change_percentage_24h data) 10
       then "high" else "normal";
     institutionalInterest :=
       if gtb marketCap 1000000000 then "high" else "medium";
     retailSentiment :=
       calculateSentiment (sentiment_votes_up_percentage data) |}.

(** [getNewsSentiment(symbol)]; [random] is the value of the call of
    [Math.random()].  Nothing in the [try] block throws. *)
Definition getNewsSentiment (symbol : string) (random : R) : Sentiment :=
  let sentimentScore := random * 2 - 1 in
  {| overall_sentiment :=
       if gtb sentimentScore 0.3 then "bullish"
       else if ltb sentimentScore (-0.3) then "bearish" else "neutral";
     score := sentimentScore;
     major_news :=
       ["Institutional adoption increasing"%string;
        "Regulatory clarity improving"%string;
        "Technical developments progressing"%string] |}.

(** The synthetic highs and lows of [calculateTechnicalIndicators]:
    [prices.map(p => Math.max(p[1], p[1] * 1.02))] and
    [prices.map(p => Math.min(p[1], p[1] * 0.98))]. *)
Definition highPrices (prices : list (R * R)) : list R :=
  map (fun p => Rmax (snd p) (snd p * 1.02)) prices.

Definition lowPrices (prices : list (R * R)) : list R :=
  map (fun p => Rmin (snd p) (snd p * 0.98)) prices.

(** The object returned by [elliottWaveAnalysis]. *)
Record ElliottWave : Type := mkElliottWave {
  trend : string;
  waves : list string;
  confidence : R
}.

(** The percentage changes of [elliottWaveAnalysis]; the first entry is 0. *)
Definition percentChanges (latest : list (R * R)) : list R :=
  map (fun i =>
         if (0 <? i)%nat
         then ((snd (nth i latest (0, 0)) - snd (nth (i - 1) latest (0, 0)))
               / snd (nth (i - 1) latest (0, 0))) * 100
         else 0)
      (seq 0 (length latest)).

(** [elliottWaveAnalysis(prices)]; [random] is the value of the call of
    [Math.random()]. *)
Definition elliottWaveAnalysis (prices : list (R * R)) (random : R)
    : ElliottWave :=
  if (5 <=? length prices)%nat then
    let latest := sliceLast 5 prices in
    let changes := percentChanges latest in
    if (3 <=? length (filter (fun c => gtb c 0) changes))%nat then
      {| trend := "bullish_impulse";
         waves := ["Wave 5 potential completion"%string];
         confidence := random * 100 |}
    else if (3 <=? length (filter (fun c => ltb c 0) changes))%nat then
      {| trend := "bearish_impulse";
         waves := ["Corrective wave in progress"%string];
         confidence := random * 100 |}
    else {| trend := "unknown"; waves := []; confidence := random * 100 |}
  else {| trend := "unknown"; waves := []; confidence := random * 100 |}.

End Gateway.

(** ** The symbol mapping of [BinanceDataProvider] *)

Module BinanceDataProvider.

(** What [mapping[key]] evaluates to on the object literal [mapping]: one
    of its five own values, a member it inherits from [Object.prototype]
    (a function or an object: truthy, and no string), or [undefined]. *)
Inductive Lookup : Type :=
| Own (ticker : string)
| Inherited
| Undefined.

(** The property names of [Object.prototype]. *)
Definition objectPrototypeNames : list string :=
  ["constructor"%string; "__defineGetter__"%string;
   "__defineSetter__"%string; "hasOwnProperty"%string;
   "__lookupGetter__"%string; "__lookupSetter__"%string;
   "isPrototypeOf"%string; "propertyIsEnumerable"%string;
   "toString"%string; "valueOf"%string; "__proto__"%string;
   "toLocaleString"%string].

Definition mapping (key : string) : Lookup :=
  if String.eqb key "bitcoin" then Own "BTC"
  else if String.eqb key "ethereum" then Own "ETH"
  else if String.eqb key "cardano" then Own "ADA"
  else if String.eqb key "solana" then Own "SOL"
  else if String.eqb key "binancecoin" then Own "BNB"
  else if existsb (String.eqb key) objectPrototypeNames then Inherited
  else Undefined.

(** [mapCoinGeckoToBinance(coinGeckoSymbol)] for a string argument; [None]
    is the inherited member that [mapping[coinGeckoSymbol] || ...] returns
    for a property name of [Object.prototype]. *)
Definition mapCoinGeckoToBinance (coinGeckoSymbol : string) : option string :=
  match mapping coinGeckoSymbol with
  | Own ticker => Some ticker
  | Inherited => None
  | Undefined => Some (toUpperCase coinGeckoSymbol)
  end.

End BinanceDataProvider.

(** ** The arithmetic of the program: binary64

    The composite scorer of both engines and the Bollinger Bands of the
    simplified engine once more, over IEEE-754 binary64 numbers.  Every
    operation rounds to nearest, ties to even, as the operators of
    JavaScript do; [undefined] in a comparison behaves as NaN, for which
    every comparison is false. *)

Module Binary64.

Local Open Scope float_scope.

(** [x > y]. *)
Definition gtb (x y : float) : bool := PrimFloat.ltb y x.

(** Truthiness of a number: every number but 0, -0 and NaN. *)
Definition truthy (x : float) : bool :=
  negb (PrimFloat.eqb x 0) && PrimFloat.eqb x x.

(** A count or an index as a number. *)
Definition number (n : nat) : float :=
  PrimFloat.of_uint63 (Uint63.of_Z (Z.of_nat n)).

(** [l.reduce((a, b) => a + b, 0)]. *)
Definition sum (l : list float) : float := fold_left PrimFloat.add l 0.

(** [Math.pow(x, 2)], taken as the rounded product [x * x]; the squares of
    the series evaluated below are numbers of binary64, so that they are
    computed without rounding. *)
Definition pow2 (x : float) : float := x * x.

Record Band : Type := mkBand {
  upper : float;
  middle : float;
  lower : float
}.

Inductive Value : Type :=
| VNum (x : float)
| VStr (s : string).

Record MarketStructure : Type := mkMarketStructure {
  marketCapRank : float;
  liquidityScore : float;
  volatilityRating : string;
  institutionalInterest : string;
  retailSentiment : string
}.

Record Sentiment : Type := mkSentiment {
  overall_sentiment : string;
  score : float;
  major_news : list string
}.

Record PriceTargets : Type := mkPriceTargets {
  support : Value;
  resistance : Value
}.

Record Prediction : Type := mkPrediction {
  direction : string;
  confidence : float;
  timeframe : string;
  price_targets : PriceTargets;
  risk_level : string
}.

(** The local constant [weights] of [generateGodPrediction]. *)
Record Weights : Type := mkWeights {
  w_technical : float;
  w_fundamental : float;
  w_sentiment : float;
  w_market_structure : float
}.

(** The simplified engine. *)
Module Engine.

(** [calculateSMA(prices, period)] *)
Definition calculateSMA (prices : list float) (period : nat) : list float :=
  map (fun i => sum (slice (i + 1 - period) (i + 1) prices) / number period)
      (seq (period - 1) (length prices - (period - 1))).

(** The window [prices.slice(dataIndex - period + 1, dataIndex + 1)] of
    iteration [i] of [calculateBollingerBands], with
    [dataIndex = i + period - 1]. *)
Definition bbSubset (prices : list float) (period i : nat) : list float :=
  slice (i + period - 1 + 1 - period) (i + period - 1 + 1) prices.

Definition bbVariance
    (prices : list float) (period i : nat) (mean : float) : float :=
  fold_left (fun acc p => acc + pow2 (p - mean)) (bbSubset prices period i) 0
  / number period.

Definition bbStdDev
    (prices : list float) (period i : nat) (mean : float) : float :=
  PrimFloat.sqrt (bbVariance prices period i mean).

(** [calculateBollingerBands(prices, period = 20, multiplier = 2)] *)
Definition calculateBollingerBands
    (prices : list float) (period : nat) (multiplier : float) : list Band :=
  let sma := calculateSMA prices period in
  map (fun i =>
         let mean := nth i sma 0 in
         let stdDev := bbStdDev prices period i mean in
         {| upper := mean + (stdDev * multiplier);
            middle := mean;
            lower := mean - (stdDev * multiplier) |})
      (seq 0 (length sma)).

(** The fields of the object of [calculateSimpleTechnicals] that
    [generateGodPrediction] reads; [None] is [undefined]. *)
Record Technicals : Type := mkTechnicals {
  rsi : option float;
  bollinger_bands : option Band
}.

Definition weights : Weights :=
  {| w_technical := 0.4;
     w_fundamental := 0.3;
     w_sentiment := 0.2;
     w_market_structure := 0.1 |}.

(** [technicalScore]: 0.5 unless [technicals && technicals.rsi]. *)
Definition technicalScore (technicals : option Technicals) : float :=
  match technicals with
  | Some t =>
      match rsi t with
      | Some r =>
          if truthy r
          then if PrimFloat.ltb r 30 then 0.8 else if gtb r 70 then 0.2 else 0.5
          else 0.5
      | None => 0.5
      end
  | None => 0.5
  end.

Definition fundamentalScore (marketStructure : MarketStructure) : float :=
  if gtb (liquidityScore marketStructure) 0.1 then 0.7 else 0.4.

Definition sentimentScore (sentiment : Sentiment) : float :=
  if gtb (score sentiment) 0 then 0.7 else 0.3.

Definition structureScore (marketStructure : MarketStructure) : float :=
  if String.eqb (institutionalInterest marketStructure) "high"
  then 0.8 else 0.5.

Definition finalScore
    (technicals : option Technicals) (sentiment : Sentiment)
    (marketStructure : MarketStructure) : float :=
  technicalScore technicals * w_technical weights
  + fundamentalScore marketStructure * w_fundamental weights
  + sentimentScore sentiment * w_sentiment weights
  + structureScore marketStructure * w_market_structure weights.

(** [technicals?.bollinger_bands?.<side> || 'N/A'] *)
Definition priceTarget
    (technicals : option Technicals) (side : Band -> float) : Value :=
  match technicals with
  | Some t =>
      match bollinger_bands t with
      | Some b => if truthy (side b) then VNum (side b) else VStr "N/A"
      | None => VStr "N/A"
      end
  | None => VStr "N/A"
  end.

(** [generateGodPrediction(technicals, fundamentals, sentiment,
    marketStructure)]; [fundamentals] is not read. *)
Definition generateGodPrediction {Fundamentals : Type}
    (technicals : option Technicals) (fundamentals : Fundamentals)
    (sentiment : Sentiment) (marketStructure : MarketStructure)
    : Prediction :=
  let finalScore := finalScore technicals sentiment marketStructure in
  {| direction :=
       if gtb finalScore 0.6 then "BULLISH"
       else if PrimFloat.ltb finalScore 0.4 then "BEARISH" else "NEUTRAL";
     confidence := PrimFloat.abs (finalScore - 0.5) * 200;
     timeframe := "24h-7d";
     price_targets :=
       {| support := priceTarget technicals lower;
          resistance := priceTarget technicals upper |};
     risk_level :=
       if gtb finalScore 0.7 || PrimFloat.ltb finalScore 0.3
       then "HIGH" else "MEDIUM" |}.

End Engine.

(** The engine of [src/mcp-gateway.js]. *)
Module Gateway.

(** The fields of the object of [calculateTechnicalIndicators] that
    [generateGodPrediction] reads. *)
Record Technicals : Type := mkTechnicals {
  rsi : list float;
  bb : list Band
}.

Definition weights : Weights :=
  {| w_technical := 0.4;
     w_fundamental := 0.3;
     w_sentiment := 0.2;
     w_market_structure := 0.1 |}.

(** [technicals.rsi[technicals.rsi.length - 1] || 50] *)
Definition latestRSI (technicals : Technicals) : float :=
  match lastElement (rsi technicals) with
  | Some r => if truthy r then r else 50
  | None => 50
  end.

Definition technicalScore (technicals : Technicals) : float :=
  if PrimFloat.ltb (latestRSI technicals) 30 then 0.8
  else if gtb (latestRSI technicals) 70 then 0.2 else 0.5.

Definition fundamentalScore (marketStructure : MarketStructure) : float :=
  if gtb (liquidityScore marketStructure) 0.1 then 0.7 else 0.4.

Definition sentimentScore (sentiment : Sentiment) : float :=
  if gtb (score sentiment) 0 then 0.7 else 0.3.

Definition structureScore (marketStructure : MarketStructure) : float :=
  if String.eqb (institutionalInterest marketStructure) "high"
  then 0.8 else 0.5.

Definition finalScore
    (technicals : Technicals) (sentiment : Sentiment)
    (marketStructure : MarketStructure) : float :=
  technicalScore technicals * w_technical weights
  + fundamentalScore marketStructure * w_fundamental weights
  + sentimentScore sentiment * w_sentiment weights
  + structureScore marketStructure * w_market_structure weights.

(** [technicals.bb[technicals.bb.length - 1]?.<side> || 'N/A'] *)
Definition priceTarget
    (technicals : Technicals) (side : Band -> float) : Value :=
  match lastElement (bb technicals) with
  | Some b => if truthy (side b) then VNum (side b) else VStr "N/A"
  | None => VStr "N/A"
  end.

(** [generateGodPrediction(technicals, fundamentals, sentiment,
    marketStructure)]; [fundamentals] is not read. *)
Definition generateGodPrediction {Fundamentals : Type}
    (technicals : Technicals) (fundamentals : Fundamentals)
    (sentiment : Sentiment) (marketStructure : MarketStructure)
    : Prediction :=
  let finalScore := finalScore technicals sentiment marketStructure in
  {| direction :=
       if gtb finalScore 0.6 then "BULLISH"
       else if PrimFloat.ltb finalScore 0.4 then "BEARISH" else "NEUTRAL";
     confidence := PrimFloat.abs (finalScore - 0.5) * 200;
     timeframe := "24h-7d";
     price_targets :=
       {| support := priceTarget technicals lower;
          resistance := priceTarget technicals upper |};
     risk_level :=
       if gtb finalScore 0.7 || PrimFloat.ltb finalScore 0.3
       then "HIGH" else "MEDIUM" |}.

End Gateway.

End Binary64.

(** ** Predicates and inputs of the statements *)

(** What the output mapping says of a prediction [p] computed from the
    final score [s], in the arithmetic of the program. *)
Definition mapsScore (s : float) (p : Binary64.Prediction) : Prop :=
  (PrimFloat.ltb 0.6 s = true -> Binary64.direction p = "BULLISH"%string) /\
  (PrimFloat.ltb s 0.4 = true -> Binary64.direction p = "BEARISH"%string) /\
  (PrimFloat.ltb 0.6 s = false -> PrimFloat.ltb s 0.4 = false ->
   Binary64.direction p = "NEUTRAL"%string) /\
  Binary64.confidence p = (PrimFloat.abs (s - 0.5) * 200)%float /\
  PrimFloat.leb 0 (Binary64.confidence p) = true /\
  PrimFloat.leb (Binary64.confidence p) 100 = true /\
  (Binary64.risk_level p = "HIGH"%string
   <-> PrimFloat.ltb 0.7 s = true \/ PrimFloat.ltb s 0.3 = true).

(** The weighted sum of four sub-scores with the weights 0.4, 0.3, 0.2 and
    0.1, added from left to right. *)
Definition weightedSum (technical fundamental sentiment structure : float)
    : float :=
  (technical * 0.4 + fundamental * 0.3 + sentiment * 0.2
   + structure * 0.1)%float.

(** What holds of a final score [s] built from the sub-scores [t], [f],
    [se], [st] and of the prediction [p] computed from it. *)
Definition scoreRange (t f se st s : R) (p : Prediction) : Prop :=
  In t [0.2; 0.5; 0.8] /\ In f [0.4; 0.7] /\
  In se [0.3; 0.7] /\ In st [0.5; 0.8] /\
  0.31 <= s <= 0.75 /\
  confidence p <= 50 /\
  (risk_level p = "HIGH"%string \/ risk_level p = "MEDIUM"%string) /\
  risk_level p <> "LOW"%string /\
  ~ s < 0.3.

(** The standard deviation computed by iteration [i] of
    [calculateBollingerBands]. *)
Definition windowStdDev (prices : list R) (period i : nat) : R :=
  Engine.bbStdDev prices period i (nth i (Engine.calculateSMA prices period) 0).

(** All prices of a window are the same. *)
Definition constantWindow (window : list R) : Prop :=
  forall x y, In x window -> In y window -> x = y.

(** Modelled from the spec: the window of output position [i], the
    [period] prices from [prices[i]] on. *)
Definition windowAt (prices : list float) (period i : nat) : list float :=
  firstn period (skipn i prices).

(** Modelled from the spec: the simple moving average of a window, its sum
    from left to right over its size. *)
Definition meanOf (window : list float) : float :=
  (Binary64.sum window / Binary64.number (length window))%float.

(** Modelled from the spec: the population standard deviation of a window,
    the square root of the mean of the squared distances to [meanOf]. *)
Definition populationStdDev (window : list float) : float :=
  PrimFloat.sqrt
    (Binary64.sum
       (map (fun p => Binary64.pow2 (p - meanOf window)%float) window)
     / Binary64.number (length window))%float.

(** The standard deviation computed by iteration [i] of
    [calculateBollingerBands] in binary64. *)
Definition computedStdDev (prices : list float) (period i : nat) : float :=
  Binary64.Engine.bbStdDev prices period i
    (nth i (Binary64.Engine.calculateSMA prices period) 0%float).

(** Twenty prices of 0.1: a constant window. *)
Definition tenths20 : list float := repeat 0.1%float 20.

(** Nineteen prices of 1.5 and one that is the next number above 1.5: a
    window that is not constant. *)
Definition nearlyFlat20 : list float :=
  repeat 1.5%float 19 ++ [1.5000000000000002%float].

(** The twenty prices 100, 101, ..., 119. *)
Definition from100to119 : list float :=
  map (fun i => Binary64.number (100 + i)) (seq 0 20).

(** Nine prices of 60, then 61 and 139, then nine prices of 140. *)
Definition split20 : list float :=
  repeat 60%float 9 ++ [61%float; 139%float] ++ repeat 140%float 9.

(** [prices[i]] is below (above) every other price of the window
    [[i - r, i + r]]. *)
Definition strictMinimum (prices : list R) (r i : nat) : Prop :=
  forall j, (i - r <= j <= i + r)%nat -> j <> i ->
            nth i prices 0 < nth j prices 0.

Definition strictMaximum (prices : list R) (r i : nat) : Prop :=
  forall j, (i - r <= j <= i + r)%nat -> j <> i ->
            nth j prices 0 < nth i prices 0.

(** [i] is the first index of the window [[i - r, i + r]] that holds the
    least (greatest) price of the window. *)
Definition firstMinimum (prices : list R) (r i : nat) : Prop :=
  (forall j, (i - r <= j <= i + r)%nat -> nth i prices 0 <= nth j prices 0)
  /\ (forall j, (i - r <= j < i)%nat -> nth i prices 0 < nth j prices 0).

Definition firstMaximum (prices : list R) (r i : nat) : Prop :=
  (forall j, (i - r <= j <= i + r)%nat -> nth j prices 0 <= nth i prices 0)
  /\ (forall j, (i - r <= j < i)%nat -> nth j prices 0 < nth i prices 0).

Definition supportLevel (x : R) : Level := mkLevel "support" x "medium".
Definition resistanceLevel (x : R) : Level := mkLevel "resistance" x "medium".

(** A detector, given by the levels it pushes at each index and by its
    radius, pushes a support level at [i] exactly when [prices[i]] is the
    strict minimum of the window, and a resistance level exactly when it is
    the strict maximum. *)
Definition detectsStrictExtrema
    (levelsAt : list R -> nat -> list Level) (r : nat) : Prop :=
  forall prices i, (r <= i)%nat -> (i + r < length prices)%nat ->
    (In (supportLevel (nth i prices 0)) (levelsAt prices i)
     <-> strictMinimum prices r i)
    /\ (In (resistanceLevel (nth i prices 0)) (levelsAt prices i)
        <-> strictMaximum prices r i).

(** A detector gives a tie for the extreme value of a window to the first
    index that holds it. *)
Definition tiesGoToFirstIndex
    (levelsAt : list R -> nat -> list Level) (r : nat) : Prop :=
  forall prices i, (r <= i)%nat -> (i + r < length prices)%nat ->
    (firstMinimum prices r i ->
     In (supportLevel (nth i prices 0)) (levelsAt prices i))
    /\ (firstMaximum prices r i ->
        In (resistanceLevel (nth i prices 0)) (levelsAt prices i)).

(** The two inner loops of the simplified engine differ in the comparison
    and in the kind of level only. *)
Fixpoint extremumScan
    (test : R -> R -> bool) (kind : string)
    (prices : list R) (i : nat) (current : R) (js : list nat) : list Level :=
  match js with
  | [] => []
  | j :: rest =>
      if negb (j =? i)%nat && test (nth j prices 0) current then []
      else if (j =? i + Engine.lookback)%nat
           then mkLevel kind current "medium"
                :: extremumScan test kind prices i current rest
           else extremumScan test kind prices i current rest
  end.

(** A flat series of 41 samples. *)
Definition flat41 : list R := repeat 5 41.

(** 21 samples, all 2 but two neighbours at 1 in the middle: the least
    price of the one window is held by the indices 10 and 11. *)
Definition tie21 : list R := repeat 2 10 ++ [1; 1] ++ repeat 2 9.

(** 41 samples that fall from 60 to 50, rise to 60 and fall to 50 again,
    then rise to 60: the price of index [i] is 50 plus the distance of [i]
    to the nearer of the indices 10 and 30. *)
Definition zigzag41 : list R :=
  [60; 59; 58; 57; 56; 55; 54; 53; 52; 51;
   50; 51; 52; 53; 54; 55; 56; 57; 58; 59;
   60; 59; 58; 57; 56; 55; 54; 53; 52; 51;
   50; 51; 52; 53; 54; 55; 56; 57; 58; 59; 60].

(** At most two samples of [prices.slice(i - 20, i + 20)] are below
    (above) [prices[i]]. *)
Definition atMostTwoBelow (prices : list R) (i : nat) : Prop :=
  le (length (filter (fun p => ltb p (nth i prices 0))
                     (slice (i - 20) (i + 20) prices))) 2.

Definition atMostTwoAbove (prices : list R) (i : nat) : Prop :=
  le (length (filter (fun p => gtb p (nth i prices 0))
                     (slice (i - 20) (i + 20) prices))) 2.

(** Nineteen samples [[i, 100 + i]]: too few for the 20-period average,
    enough for the 14-period RSI. *)
Definition samples19 : list (R * R) :=
  map (fun i => (INR i, 100 + INR i)) (seq 0 19).

Definition marketData19 : MarketData :=
  {| current_price_usd := 118;
     market_cap_usd := 2000000000;
     total_volume_usd := 100000000;
     market_cap_rank := 1;
     price_change_percentage_24h := 1;
     sentiment_votes_up_percentage := Percentage 70;
     historical_prices := samples19 |}.

Definition fetched19 : Engine.Fetched :=
  {| Engine.marketData := marketData19;
     Engine.newsSentiment := mkSentiment "neutral" 0.1 [];
     Engine.fearGreed := JObj [("value"%string, JStr "50")] |}.

(** A [god_analysis] call for bitcoin. *)
Definition bitcoinRequest : Engine.Request :=
  {| Engine.method := "tools/call";
     Engine.params :=
       {| Engine.name := "god_analysis";
          Engine.arguments := Some [("symbol"%string, JStr "bitcoin")] |} |}.

(** A weight set that sums to 0.9, and a [god_analysis] call that carries
    it in its arguments. *)
Definition weights09 : Object :=
  [("technical"%string, JNum 0.3); ("fundamental"%string, JNum 0.3);
   ("sentiment"%string, JNum 0.2); ("market_structure"%string, JNum 0.1)].

Definition weightedRequest : Engine.Request :=
  {| Engine.method := "tools/call";
     Engine.params :=
       {| Engine.name := "god_analysis";
          Engine.arguments :=
            Some [("symbol"%string, JStr "bitcoin");
                  ("weights"%string, JObj weights09)] |} |}.

(** The sum of a weight set. *)
Definition weightSum (w : Weights) : R :=
  w_technical w + w_fundamental w + w_sentiment w + w_market_structure w.

(** The weights sum to 1 within 1e-9: as real numbers, and as numbers of
    binary64 added from left to right. *)
Definition sumsToOne (w : Weights) : Prop :=
  Rabs (weightSum w - 1) <= 1e-9.

Definition sumsToOne64 (w : Binary64.Weights) : Prop :=
  PrimFloat.leb
    (PrimFloat.abs
       (Binary64.w_technical w + Binary64.w_fundamental w
        + Binary64.w_sentiment w + Binary64.w_market_structure w - 1))
    1e-9 = true.

(** The confidence of the prediction [p] is the one of the sub-scores [t],
    [f], [se] and [st] weighted by 0.4, 0.3, 0.2 and 0.1. *)
Definition scoredWithFixedWeights (t f se st : R) (p : Prediction) : Prop :=
  confidence p = Rabs (t * 0.4 + f * 0.3 + se * 0.2 + st * 0.1 - 0.5) * 200.

(** The object of the technical indicators holds every indicator that has
    a value for the closing prices: none is dropped but for lack of
    samples. *)
Definition keepsIndicatorsWithData
    (closePrices : list R) (technicals : option Engine.Technicals) : Prop :=
  (Engine.calculateSMA closePrices 20 <> [] ->
   exists t, technicals = Some t /\ Engine.sma_20 t <> None)
  /\ (Engine.calculateSMA closePrices 50 <> [] ->
      exists t, technicals = Some t /\ Engine.sma_50 t <> None)
  /\ (Engine.calculateRSI closePrices 14 <> [] ->
      exists t, technicals = Some t /\ Engine.rsi t <> None)
  /\ (Engine.calculateBollingerBands closePrices 20 2 <> [] ->
      exists t, technicals = Some t /\ Engine.bollinger_bands t <> None).

(** No price is below (above) the one before it. *)
Definition nonDecreasing (prices : list R) : Prop :=
  forall i, (i + 1 < length prices)%nat ->
            nth i prices 0 <= nth (i + 1) prices 0.

Definition nonIncreasing (prices : list R) : Prop :=
  forall i, (i + 1 < length prices)%nat ->
            nth (i + 1) prices 0 <= nth i prices 0.

(** The latest RSI value as [generateGodPrediction] of the simplified
    engine reads it: [technicals && technicals.rsi]. *)
Definition engineRSI (technicals : option Engine.Technicals) : option R :=
  match technicals with
  | Some t => Engine.rsi t
  | None => None
  end.

(** The latest RSI value is there, is not 0 and is below 30. *)
Definition oversold (latestRSI : option R) : Prop :=
  exists r, latestRSI = Some r /\ r <> 0 /\ r < 30.

(** The latest RSI value is there and is above 70. *)
Definition overbought (latestRSI : option R) : Prop :=
  exists r, latestRSI = Some r /\ 70 < r.

(** What the inputs say of the prediction [p]: the risk and the direction
    in terms of the latest RSI value, the liquidity score and the sentiment
    score. *)
Definition riskAndDirection
    (latestRSI : option R) (sentiment : Sentiment)
    (marketStructure : MarketStructure) (p : Prediction) : Prop :=
  (risk_level p = "HIGH"%string
   <-> oversold latestRSI /\ liquidityScore marketStructure > 0.1
       /\ score sentiment > 0)
  /\ (risk_level p = "HIGH"%string ->
      direction p = "BULLISH"%string /\ 44 <= confidence p)
  /\ (direction p = "BEARISH"%string -> overbought latestRSI)
  /\ (overbought latestRSI -> direction p <> "BULLISH"%string)
  /\ (oversold latestRSI -> direction p <> "BEARISH"%string).

(** Twenty samples with the falling prices [200 - i], twenty with the
    rising prices [100 + i] and twenty with the price 5. *)
Definition falling20 : list (R * R) :=
  map (fun i => (INR i, 200 - INR i)) (seq 0 20).

Definition rising20 : list (R * R) :=
  map (fun i => (INR i, 100 + INR i)) (seq 0 20).

Definition flat20 : list (R * R) :=
  map (fun i => (INR i, 5)) (seq 0 20).

(** No character of the string is a lower-case ASCII letter. *)
Fixpoint noLowerCase (s : string) : bool :=
  match s with
  | EmptyString => true
  | String c rest =>
      negb ((97 <=? nat_of_ascii c) && (nat_of_ascii c <=? 122))%nat
      && noLowerCase rest
  end.

(** Each price is above the one before it. *)
Definition strictlyIncreasing (prices : list R) : Prop :=
  forall i, (i + 1 < length prices)%nat ->
            nth i prices 0 < nth (i + 1) prices 0.

(** Each price is below the one before it. *)
Definition strictlyDecreasing (prices : list R) : Prop :=
  forall i, (i + 1 < length prices)%nat ->
            nth (i + 1) prices 0 < nth i prices 0.

(** Sixteen rising prices: the shortest series with an RSI value for the
    period 14. *)
Definition rising16 : list R :=
  [1; 2; 3; 4; 5; 6; 7; 8; 9; 10; 11; 12; 13; 14; 15; 16].

(** The uptrend [price[i] = 100 + i] of 100 samples. *)
Definition uptrend100 : list R :=
  map (fun i => 100 + INR i) (seq 0 100).


(** ** Properties of the primitives *)

Lemma ltb_true (x y : R) : ltb x y = true <-> x < y.
Proof.
  unfold ltb. destruct (Rlt_dec x y); split; intros; congruence || lra.
Qed.

Lemma ltb_false (x y : R) : ltb x y = false <-> y <= x.
Proof.
  unfold ltb. destruct (Rlt_dec x y); split; intros; congruence || lra.
Qed.

Lemma leb_true (x y : R) : leb x y = true <-> x <= y.
Proof.
  unfold leb. destruct (Rle_dec x y); split; intros; congruence || lra.
Qed.

Lemma leb_false (x y : R) : leb x y = false <-> y < x.
Proof.
  unfold leb. destruct (Rle_dec x y); split; intros; congruence || lra.
Qed.

Lemma eqb_true (x y : R) : eqb x y = true <-> x = y.
Proof.
  unfold eqb. destruct (Req_dec_T x y); split; intros; congruence.
Qed.

Lemma eqb_false (x y : R) : eqb x y = false <-> x <> y.
Proof.
  unfold eqb. destruct (Req_dec_T x y); split; intros; congruence.
Qed.

(** Case analysis on every comparison of numbers left in the goal. *)
Ltac number_cases :=
  unfold gtb, geb, truthy, ltb, leb, eqb in *;
  repeat match goal with
         | |- context [Rlt_dec ?x ?y] => destruct (Rlt_dec x y)
         | |- context [Rle_dec ?x ?y] => destruct (Rle_dec x y)
         | |- context [Req_dec_T ?x ?y] => destruct (Req_dec_T x y)
         end;
  cbn [negb andb orb] in *.

(** ** The composite prediction *)

Lemma engine_technicalScore_values (t : option Engine.Technicals) :
  Engine.technicalScore t = 0.2 \/ Engine.technicalScore t = 0.5
  \/ Engine.technicalScore t = 0.8.
Proof.
  unfold Engine.technicalScore.
  destruct t as [t|]; [destruct (Engine.rsi t) as [r|]|]; number_cases; auto.
Qed.

Lemma gateway_technicalScore_values (t : Gateway.Technicals) :
  Gateway.technicalScore t = 0.2 \/ Gateway.technicalScore t = 0.5
  \/ Gateway.technicalScore t = 0.8.
Proof.
  unfold Gateway.technicalScore. number_cases; auto.
Qed.

Lemma fundamentalScore_values (m : MarketStructure) :
  Engine.fundamentalScore m = 0.4 \/ Engine.fundamentalScore m = 0.7.
Proof. unfold Engine.fundamentalScore. number_cases; auto. Qed.

Lemma sentimentScore_values (s : Sentiment) :
  Engine.sentimentScore s = 0.3 \/ Engine.sentimentScore s = 0.7.
Proof. unfold Engine.sentimentScore. number_cases; auto. Qed.

Lemma structureScore_values (m : MarketStructure) :
  Engine.structureScore m = 0.5 \/ Engine.structureScore m = 0.8.
Proof.
  unfold Engine.structureScore.
  destruct (String.eqb (institutionalInterest m) "high"); auto.
Qed.

(** The final score of both engines stays between 0.31 and 0.75. *)
Lemma engine_finalScore_bounds t s m :
  0.31 <= Engine.finalScore t s m <= 0.75.
Proof.
  unfold Engine.finalScore, Engine.weights; cbn [w_technical w_fundamental w_sentiment w_market_structure].
  destruct (engine_technicalScore_values t) as [-> | [-> | ->]];
  destruct (fundamentalScore_values m) as [-> | ->];
  destruct (sentimentScore_values s) as [-> | ->];
  destruct (structureScore_values m) as [-> | ->]; lra.
Qed.

Lemma gateway_finalScore_bounds t s m :
  0.31 <= Gateway.finalScore t s m <= 0.75.
Proof.
  unfold Gateway.finalScore, Gateway.weights; cbn [w_technical w_fundamental w_sentiment w_market_structure].
  change (Gateway.fundamentalScore m) with (Engine.fundamentalScore m).
  change (Gateway.sentimentScore s) with (Engine.sentimentScore s).
  change (Gateway.structureScore m) with (Engine.structureScore m).
  destruct (gateway_technicalScore_values t) as [-> | [-> | ->]];
  destruct (fundamentalScore_values m) as [-> | ->];
  destruct (sentimentScore_values s) as [-> | ->];
  destruct (structureScore_values m) as [-> | ->]; lra.
Qed.

Lemma range_of_score (t f se st s : R) (d r tf : string) (pt : PriceTargets) :
  (t = 0.2 \/ t = 0.5 \/ t = 0.8) -> (f = 0.4 \/ f = 0.7) ->
  (se = 0.3 \/ se = 0.7) -> (st = 0.5 \/ st = 0.8) ->
  0.31 <= s <= 0.75 ->
  r = (if gtb s 0.7 || ltb s 0.3 then "HIGH" else "MEDIUM")%string ->
  scoreRange t f se st s (mkPrediction d (Rabs (s - 0.5) * 200) tf pt r).
Proof.
  intros Ht Hf Hse Hst Hs ->.
  unfold scoreRange; cbn [confidence risk_level In].
  repeat split; try tauto; try lra.
  - unfold Rabs; destruct (Rcase_abs (s - 0.5)); lra.
  - destruct (gtb s 0.7 || ltb s 0.3); auto.
  - destruct (gtb s 0.7 || ltb s 0.3); discriminate.
Qed.

(** The extreme scores are reached: the interval cannot be narrowed. *)
Lemma engine_finalScore_extremes :
  Engine.finalScore None (mkSentiment "bearish" (-1) [])
                    (mkMarketStructure 1 0 "normal" "medium" "neutral") = 0.43
  /\ (forall t, Engine.rsi t = Some 80 ->
        Engine.finalScore (Some t) (mkSentiment "bearish" (-1) [])
          (mkMarketStructure 1 0 "normal" "medium" "neutral") = 0.31)
  /\ (forall t, Engine.rsi t = Some 20 ->
        Engine.finalScore (Some t) (mkSentiment "bullish" 1 [])
          (mkMarketStructure 1 1 "normal" "high" "neutral") = 0.75).
Proof.
  unfold Engine.finalScore, Engine.technicalScore, Engine.fundamentalScore,
    Engine.sentimentScore, Engine.structureScore, Engine.weights.
  cbn [score liquidityScore institutionalInterest String.eqb Ascii.eqb Bool.eqb
       w_technical w_fundamental w_sentiment w_market_structure].
  repeat split; intros; try rewrite H; number_cases; lra.
Qed.

(** Case analysis on every test of a sub-score. *)
Ltac input_cases :=
  repeat match goal with
         | |- context [if ?c then _ else _] => destruct c
         end.

(** The values of the sub-scores in binary64. *)
Lemma binary64_engine_technicalScore_values t :
  Binary64.Engine.technicalScore t = 0.2%float
  \/ Binary64.Engine.technicalScore t = 0.5%float
  \/ Binary64.Engine.technicalScore t = 0.8%float.
Proof.
  unfold Binary64.Engine.technicalScore.
  destruct t as [t|]; [destruct (Binary64.Engine.rsi t) as [r|]|];
    input_cases; auto.
Qed.

Lemma binary64_gateway_technicalScore_values t :
  Binary64.Gateway.technicalScore t = 0.2%float
  \/ Binary64.Gateway.technicalScore t = 0.5%float
  \/ Binary64.Gateway.technicalScore t = 0.8%float.
Proof. unfold Binary64.Gateway.technicalScore. input_cases; auto. Qed.

Lemma binary64_fundamentalScore_values m :
  Binary64.Engine.fundamentalScore m = 0.4%float
  \/ Binary64.Engine.fundamentalScore m = 0.7%float.
Proof. unfold Binary64.Engine.fundamentalScore. input_cases; auto. Qed.

Lemma binary64_sentimentScore_values s :
  Binary64.Engine.sentimentScore s = 0.3%float
  \/ Binary64.Engine.sentimentScore s = 0.7%float.
Proof. unfold Binary64.Engine.sentimentScore. input_cases; auto. Qed.

Lemma binary64_structureScore_values m :
  Binary64.Engine.structureScore m = 0.5%float
  \/ Binary64.Engine.structureScore m = 0.8%float.
Proof. unfold Binary64.Engine.structureScore. input_cases; auto. Qed.

(** Once the tests of the inputs are decided the score is a number, and
    evaluation in binary64 decides the rest. *)
Ltac by_evaluation :=
  vm_compute; repeat split; intros;
  try reflexivity; try discriminate; auto;
  try match goal with H : _ \/ _ |- _ => destruct H; discriminate end.

(** In binary64 the sub-scores 0.5, 0.7, 0.7 and 0.5 give not 0.6 but the
    next number above it: the thresholds of the mapping apply to the
    rounded sum. *)
Lemma weightedSum_above_threshold :
  weightedSum 0.5 0.7 0.7 0.5 = 0.6000000000000001%float
  /\ PrimFloat.ltb 0.6 (weightedSum 0.5 0.7 0.7 0.5) = true.
Proof. split; vm_compute; reflexivity. Qed.

(** C2.  Whatever the inputs, the final score of either engine is the sum
    of the four sub-scores weighted by 0.4, 0.3, 0.2 and 0.1, and the
    prediction is BULLISH when this score exceeds 0.6, BEARISH when it is
    below 0.4 and NEUTRAL otherwise; its confidence is |score - 0.5| * 200
    and lies in [0, 100]; its risk level is HIGH exactly when the score
    exceeds 0.7 or is below 0.3.  The score and the comparisons are those
    of binary64. *)
Theorem C2_prediction_follows_score :
  (forall (Fundamentals : Type) technicals (fundamentals : Fundamentals)
          sentiment marketStructure,
     Binary64.Engine.finalScore technicals sentiment marketStructure
     = weightedSum (Binary64.Engine.technicalScore technicals)
                   (Binary64.Engine.fundamentalScore marketStructure)
                   (Binary64.Engine.sentimentScore sentiment)
                   (Binary64.Engine.structureScore marketStructure)
     /\ mapsScore
          (weightedSum (Binary64.Engine.technicalScore technicals)
                       (Binary64.Engine.fundamentalScore marketStructure)
                       (Binary64.Engine.sentimentScore sentiment)
                       (Binary64.Engine.structureScore marketStructure))
          (Binary64.Engine.generateGodPrediction
             technicals fundamentals sentiment marketStructure))
  /\ (forall (Fundamentals : Type) technicals (fundamentals : Fundamentals)
             sentiment marketStructure,
        Binary64.Gateway.finalScore technicals sentiment marketStructure
        = weightedSum (Binary64.Gateway.technicalScore technicals)
                      (Binary64.Gateway.fundamentalScore marketStructure)
                      (Binary64.Gateway.sentimentScore sentiment)
                      (Binary64.Gateway.structureScore marketStructure)
        /\ mapsScore
             (weightedSum (Binary64.Gateway.technicalScore technicals)
                          (Binary64.Gateway.fundamentalScore marketStructure)
                          (Binary64.Gateway.sentimentScore sentiment)
                          (Binary64.Gateway.structureScore marketStructure))
             (Binary64.Gateway.generateGodPrediction
                technicals fundamentals sentiment marketStructure)).
Proof.
  split; intros Fundamentals technicals fundamentals sentiment marketStructure;
    (split; [reflexivity|]).
  - unfold mapsScore, weightedSum, Binary64.Engine.generateGodPrediction,
      Binary64.Engine.finalScore, Binary64.Engine.weights.
    cbn [Binary64.direction Binary64.confidence Binary64.risk_level
         Binary64.w_technical Binary64.w_fundamental Binary64.w_sentiment
         Binary64.w_market_structure].
    destruct (binary64_engine_technicalScore_values technicals)
      as [-> | [-> | ->]];
    destruct (binary64_fundamentalScore_values marketStructure) as [-> | ->];
    destruct (binary64_sentimentScore_values sentiment) as [-> | ->];
    destruct (binary64_structureScore_values marketStructure) as [-> | ->];
    by_evaluation.
  - unfold mapsScore, weightedSum, Binary64.Gateway.generateGodPrediction,
      Binary64.Gateway.finalScore, Binary64.Gateway.weights.
    cbn [Binary64.direction Binary64.confidence Binary64.risk_level
         Binary64.w_technical Binary64.w_fundamental Binary64.w_sentiment
         Binary64.w_market_structure].
    change (Binary64.Gateway.fundamentalScore marketStructure)
      with (Binary64.Engine.fundamentalScore marketStructure).
    change (Binary64.Gateway.sentimentScore sentiment)
      with (Binary64.Engine.sentimentScore sentiment).
    change (Binary64.Gateway.structureScore marketStructure)
      with (Binary64.Engine.structureScore marketStructure).
    destruct (binary64_gateway_technicalScore_values technicals)
      as [-> | [-> | ->]];
    destruct (binary64_fundamentalScore_values marketStructure) as [-> | ->];
    destruct (binary64_sentimentScore_values sentiment) as [-> | ->];
    destruct (binary64_structureScore_values marketStructure) as [-> | ->];
    by_evaluation.
Qed.

(** C9.  In both engines the sub-scores take the values {0.2, 0.5, 0.8},
    {0.4, 0.7}, {0.3, 0.7} and {0.5, 0.8}, so the weighted final score lies
    in [0.31, 0.75]; hence the confidence never exceeds 50, the risk level
    is HIGH or MEDIUM and never LOW, and the final score is never below
    0.3. *)
Theorem C9_final_score_range :
  (forall technicals fundamentals sentiment marketStructure,
     scoreRange
       (Engine.technicalScore technicals)
       (Engine.fundamentalScore marketStructure)
       (Engine.sentimentScore sentiment)
       (Engine.structureScore marketStructure)
       (Engine.finalScore technicals sentiment marketStructure)
       (Engine.generateGodPrediction
          technicals fundamentals sentiment marketStructure))
  /\ (forall technicals fundamentals sentiment marketStructure,
        scoreRange
          (Gateway.technicalScore technicals)
          (Gateway.fundamentalScore marketStructure)
          (Gateway.sentimentScore sentiment)
          (Gateway.structureScore marketStructure)
          (Gateway.finalScore technicals sentiment marketStructure)
          (Gateway.generateGodPrediction
             technicals fundamentals sentiment marketStructure)).
Proof.
  split; intros technicals fundamentals sentiment marketStructure.
  - unfold Engine.generateGodPrediction.
    apply range_of_score; try reflexivity.
    + apply engine_technicalScore_values.
    + apply fundamentalScore_values.
    + apply sentimentScore_values.
    + apply structureScore_values.
    + apply engine_finalScore_bounds.
  - unfold Gateway.generateGodPrediction.
    apply range_of_score; try reflexivity.
    + apply gateway_technicalScore_values.
    + apply fundamentalScore_values.
    + apply sentimentScore_values.
    + apply structureScore_values.
    + apply gateway_finalScore_bounds.
Qed.

(** ** Arrays: slices and sums *)

Lemma length_slice {A : Type} (a b : nat) (l : list A) :
  length (slice a b l) = Nat.min (b - a) (length l - a).
Proof. unfold slice. now rewrite length_firstn, length_skipn. Qed.

Lemma nth_slice {A : Type} (a b k : nat) (l : list A) (d : A) :
  (k < b - a)%nat -> nth k (slice a b l) d = nth (a + k) l d.
Proof.
  intros Hk. unfold slice. rewrite nth_firstn.
  destruct (Nat.ltb_spec k (b - a)) as [_ | Hge]; [apply nth_skipn | lia].
Qed.

(** An element of a slice is an element of the array at an index of the
    slice. *)
Lemma In_slice {A : Type} (a b : nat) (l : list A) (d x : A) :
  In x (slice a b l) ->
  exists k, (a <= k < b)%nat /\ (k < length l)%nat /\ nth k l d = x.
Proof.
  intros Hin. destruct (In_nth _ _ d Hin) as (k & Hk & Hx).
  rewrite length_slice in Hk.
  exists (a + k)%nat. rewrite <- Hx, nth_slice by lia. repeat split; lia.
Qed.

Lemma nth_In_slice {A : Type} (a b k : nat) (l : list A) (d : A) :
  (a <= k < b)%nat -> (k < length l)%nat -> In (nth k l d) (slice a b l).
Proof.
  intros Hk Hl. replace k with (a + (k - a))%nat by lia.
  rewrite <- (nth_slice a b) by lia. apply nth_In. rewrite length_slice. lia.
Qed.

Lemma fold_left_Rplus (l : list R) (a : R) :
  fold_left Rplus l a = a + sum l.
Proof.
  unfold sum. revert a. induction l as [|x l IH]; intros a; cbn.
  - lra.
  - rewrite IH, (IH (0 + x)). lra.
Qed.

Lemma sum_cons (x : R) (l : list R) : sum (x :: l) = x + sum l.
Proof. unfold sum at 1. cbn. rewrite fold_left_Rplus. lra. Qed.

Lemma sum_nonneg (l : list R) : (forall x, In x l -> 0 <= x) -> 0 <= sum l.
Proof.
  induction l as [|x l IH]; intros H.
  - unfold sum; cbn; lra.
  - rewrite sum_cons. specialize (H x (or_introl eq_refl)) as Hx.
    assert (0 <= sum l) by (apply IH; intros; apply H; now right). lra.
Qed.

Lemma sum_pos (l : list R) :
  l <> [] -> (forall x, In x l -> 0 < x) -> 0 < sum l.
Proof.
  destruct l as [|x l]; intros Hne H; [congruence|].
  rewrite sum_cons. specialize (H x (or_introl eq_refl)) as Hx.
  assert (0 <= sum l)
    by (apply sum_nonneg; intros y Hy; apply Rlt_le, H; now right).
  lra.
Qed.

Lemma filter_nil_iff {A : Type} (f : A -> bool) (l : list A) :
  filter f l = [] <-> (forall x, In x l -> f x = false).
Proof.
  induction l as [|x l IH]; cbn.
  - tauto.
  - destruct (f x) eqn:E; split; intros H.
    + discriminate.
    + specialize (H x (or_introl eq_refl)). congruence.
    + intros y [<- | Hy]; [assumption | now apply IH].
    + apply IH. intros y Hy. apply H. now right.
Qed.

Lemma lastElement_map_seq {A : Type} (f : nat -> A) (start len : nat) :
  (0 < len)%nat ->
  lastElement (map f (seq start len)) = Some (f (start + len - 1)%nat).
Proof.
  intros Hlen. unfold lastElement.
  rewrite length_map, length_seq, nth_error_map, nth_error_seq.
  destruct (Nat.ltb_spec (len - 1) len); [|lia].
  cbn. f_equal. f_equal. lia.
Qed.

Lemma lastElement_none {A : Type} (l : list A) :
  lastElement l = None <-> l = [].
Proof.
  unfold lastElement. split.
  - intros H. apply nth_error_None in H.
    destruct l; [reflexivity | cbn in H; lia].
  - now intros ->.
Qed.

(** ** The relative strength index *)

Lemma INR_period_pos (period : nat) : (1 <= period)%nat -> 0 < INR period.
Proof. intros H. apply lt_0_INR. lia. Qed.

Lemma avgGain_nonneg changes period i :
  (1 <= period)%nat -> 0 <= Engine.avgGain changes period i.
Proof.
  intros Hp. unfold Engine.avgGain.
  destruct (0 <? _)%nat; [|lra].
  apply Rmult_le_pos.
  - apply sum_nonneg. intros x Hx. apply filter_In in Hx as [_ Hx].
    apply ltb_true in Hx. lra.
  - apply Rlt_le, Rinv_0_lt_compat, INR_period_pos, Hp.
Qed.

Lemma avgLoss_nonneg changes period i :
  (1 <= period)%nat -> 0 <= Engine.avgLoss changes period i.
Proof.
  intros Hp. unfold Engine.avgLoss.
  destruct (0 <? _)%nat; [|lra].
  apply Rmult_le_pos.
  - apply sum_nonneg. intros x Hx. apply in_map_iff in Hx as (c & <- & _).
    apply Rabs_pos.
  - apply Rlt_le, Rinv_0_lt_compat, INR_period_pos, Hp.
Qed.

(** A window without a falling price has no average loss ... *)
Lemma avgLoss_no_loss changes period i :
  (forall c, In c (Engine.rsiWindow changes period i) -> 0 <= c) ->
  Engine.avgLoss changes period i = 0.
Proof.
  intros H. unfold Engine.avgLoss.
  replace (filter (fun c => ltb c 0) (Engine.rsiWindow changes period i))
    with (@nil R); [reflexivity|].
  symmetry. apply filter_nil_iff. intros c Hc. apply ltb_false. now apply H.
Qed.

(** ... and the code then takes [rs = 100], which gives 100 - 100/101. *)
Lemma rsiAt_no_loss changes period i :
  (forall c, In c (Engine.rsiWindow changes period i) -> 0 <= c) ->
  Engine.rsiAt changes period i = 10000 / 101.
Proof.
  intros H. unfold Engine.rsiAt. rewrite (avgLoss_no_loss _ _ _ H).
  replace (eqb 0 0) with true by (symmetry; now apply eqb_true).
  cbv beta iota zeta. field.
Qed.

(** A window with a falling price and no rising one has RSI 0. *)
Lemma rsiAt_only_losses changes period i :
  (1 <= period)%nat ->
  (forall c, In c (Engine.rsiWindow changes period i) -> c <= 0) ->
  (exists c, In c (Engine.rsiWindow changes period i) /\ c < 0) ->
  Engine.rsiAt changes period i = 0.
Proof.
  intros Hp Hall (c & Hc & Hneg).
  assert (Hgain : Engine.avgGain changes period i = 0).
  { unfold Engine.avgGain.
    replace (filter (fun c => gtb c 0) (Engine.rsiWindow changes period i))
      with (@nil R); [reflexivity|].
    symmetry. apply filter_nil_iff. intros x Hx. apply ltb_false.
    now apply Hall. }
  assert (Hloss : 0 < Engine.avgLoss changes period i).
  { unfold Engine.avgLoss.
    set (losses := map Rabs _).
    assert (Hin : In (Rabs c) losses).
    { apply in_map, filter_In. split; [assumption | now apply ltb_true]. }
    assert (Hlen : (0 <? length losses)%nat = true).
    { apply Nat.ltb_lt. destruct losses; [contradiction | cbn; lia]. }
    rewrite Hlen. apply Rmult_lt_0_compat.
    - apply sum_pos.
      + intros E. rewrite E in Hin. contradiction.
      + intros x Hx. apply in_map_iff in Hx as (y & <- & Hy).
        apply filter_In in Hy as [_ Hy]. apply ltb_true in Hy.
        apply Rabs_pos_lt. lra.
    - apply Rinv_0_lt_compat, INR_period_pos, Hp. }
  unfold Engine.rsiAt. rewrite Hgain.
  replace (eqb (Engine.avgLoss changes period i) 0) with false
    by (symmetry; apply eqb_false; lra).
  cbv beta iota zeta. field. lra.
Qed.

(** Every value of the loop body lies in [0, 100]. *)
Lemma rsiAt_bounds changes period i :
  (1 <= period)%nat -> 0 <= Engine.rsiAt changes period i <= 100.
Proof.
  intros Hp.
  pose proof (avgGain_nonneg changes period i Hp) as Hg.
  pose proof (avgLoss_nonneg changes period i Hp) as Hl.
  unfold Engine.rsiAt.
  set (rs := if eqb _ 0 then 100 else _).
  assert (Hrs : 0 <= rs).
  { subst rs. destruct (eqb (Engine.avgLoss changes period i) 0) eqn:E; [lra|].
    apply eqb_false in E. apply Rmult_le_pos; [assumption|].
    apply Rlt_le, Rinv_0_lt_compat. lra. }
  assert (Hinv : 0 < / (1 + rs) <= 1).
  { split; [apply Rinv_0_lt_compat; lra|].
    rewrite <- Rinv_1 at 2. apply Rinv_le_contravar; lra. }
  unfold Rdiv. nra.
Qed.

Lemma priceChanges_increasing prices c :
  strictlyIncreasing prices -> In c (Engine.priceChanges prices) -> 0 < c.
Proof.
  intros Hinc Hc. unfold Engine.priceChanges in Hc.
  apply in_map_iff in Hc as (i & <- & Hi). apply in_seq in Hi.
  specialize (Hinc (i - 1)%nat).
  replace (i - 1 + 1)%nat with i in Hinc by lia.
  assert (nth (i - 1) prices 0 < nth i prices 0) by (apply Hinc; lia). lra.
Qed.

Lemma priceChanges_decreasing prices c :
  strictlyDecreasing prices -> In c (Engine.priceChanges prices) -> c < 0.
Proof.
  intros Hdec Hc. unfold Engine.priceChanges in Hc.
  apply in_map_iff in Hc as (i & <- & Hi). apply in_seq in Hi.
  specialize (Hdec (i - 1)%nat).
  replace (i - 1 + 1)%nat with i in Hdec by lia.
  assert (nth i prices 0 < nth (i - 1) prices 0) by (apply Hdec; lia). lra.
Qed.

Lemma rsiWindow_incl changes period i c :
  In c (Engine.rsiWindow changes period i) -> In c changes.
Proof.
  intros Hc. apply (In_slice _ _ _ 0) in Hc as (k & _ & Hk & <-).
  now apply nth_In.
Qed.

(** The iterations of the second loop of [calculateRSI]. *)
Lemma In_calculateRSI prices period v :
  In v (Engine.calculateRSI prices period) <->
  exists i, (period <= i < length (Engine.priceChanges prices))%nat
            /\ v = Engine.rsiAt (Engine.priceChanges prices) period i.
Proof.
  unfold Engine.calculateRSI. rewrite in_map_iff. split.
  - intros (i & <- & Hi). apply in_seq in Hi. exists i. split; [lia | reflexivity].
  - intros (i & Hi & ->). exists i. split; [reflexivity | apply in_seq; lia].
Qed.

Lemma length_priceChanges prices :
  length (Engine.priceChanges prices) = (length prices - 1)%nat.
Proof. unfold Engine.priceChanges. now rewrite length_map, length_seq. Qed.

Lemma length_calculateRSI prices period :
  length (Engine.calculateRSI prices period)
  = (length prices - 1 - period)%nat.
Proof.
  unfold Engine.calculateRSI.
  now rewrite length_map, length_seq, length_priceChanges.
Qed.

(** Every RSI value lies in [0, 100]. *)
Lemma rsi_in_range prices period v :
  (1 <= period)%nat -> In v (Engine.calculateRSI prices period) ->
  0 <= v <= 100.
Proof.
  intros Hp Hv. apply In_calculateRSI in Hv as (i & _ & ->).
  now apply rsiAt_bounds.
Qed.

(** On a strictly decreasing series every RSI value is 0. *)
Lemma rsi_strictly_decreasing prices period v :
  (1 <= period)%nat -> strictlyDecreasing prices ->
  In v (Engine.calculateRSI prices period) -> v = 0.
Proof.
  intros Hp Hdec Hv. apply In_calculateRSI in Hv as (i & Hi & ->).
  assert (Hneg : forall c, In c (Engine.rsiWindow (Engine.priceChanges prices) period i)
                           -> c < 0).
  { intros c Hc. eapply priceChanges_decreasing; [eassumption|].
    eapply rsiWindow_incl; eassumption. }
  apply rsiAt_only_losses; [assumption | |].
  - intros c Hc. apply Rlt_le. now apply Hneg.
  - exists (nth (i - 1) (Engine.priceChanges prices) 0).
    assert (Hin : In (nth (i - 1) (Engine.priceChanges prices) 0)
                     (Engine.rsiWindow (Engine.priceChanges prices) period i))
      by (apply nth_In_slice; lia).
    split; [assumption | now apply Hneg].
Qed.

(** On a strictly increasing series every RSI value is 100 - 100/101. *)
Lemma rsi_strictly_increasing prices period v :
  strictlyIncreasing prices ->
  In v (Engine.calculateRSI prices period) -> v = 10000 / 101.
Proof.
  intros Hinc Hv. apply In_calculateRSI in Hv as (i & _ & ->).
  apply rsiAt_no_loss. intros c Hc. apply Rlt_le.
  eapply priceChanges_increasing; [eassumption|].
  eapply rsiWindow_incl; eassumption.
Qed.

Lemma lastElement_In {A : Type} (l : list A) (x : A) :
  lastElement l = Some x -> In x l.
Proof. unfold lastElement. apply nth_error_In. Qed.

Lemma lastElement_some {A : Type} (l : list A) :
  l <> [] -> exists x, lastElement l = Some x.
Proof.
  intros Hne. destruct (lastElement l) as [x|] eqn:E; [now exists x|].
  apply lastElement_none in E. contradiction.
Qed.

(** The latest RSI value of a rising series with enough samples. *)
Lemma latest_rsi_increasing prices period :
  strictlyIncreasing prices -> (period + 2 <= length prices)%nat ->
  lastElement (Engine.calculateRSI prices period) = Some (10000 / 101).
Proof.
  intros Hinc Hlen.
  destruct (lastElement_some (Engine.calculateRSI prices period)) as (v & Hv).
  - intros E. apply (f_equal (@length R)) in E.
    rewrite length_calculateRSI in E. cbn in E. lia.
  - rewrite Hv. f_equal. apply lastElement_In in Hv.
    eapply rsi_strictly_increasing; eassumption.
Qed.

(** The latest RSI value of a falling series with enough samples. *)
Lemma latest_rsi_decreasing prices period :
  (1 <= period)%nat -> strictlyDecreasing prices ->
  (period + 2 <= length prices)%nat ->
  lastElement (Engine.calculateRSI prices period) = Some 0.
Proof.
  intros Hp Hdec Hlen.
  destruct (lastElement_some (Engine.calculateRSI prices period)) as (v & Hv).
  - intros E. apply (f_equal (@length R)) in E.
    rewrite length_calculateRSI in E. cbn in E. lia.
  - rewrite Hv. f_equal. apply lastElement_In in Hv.
    eapply rsi_strictly_decreasing; eassumption.
Qed.

Lemma rising16_increasing : strictlyIncreasing rising16.
Proof.
  intros i Hi. unfold rising16 in *. cbn [length] in Hi.
  do 15 (destruct i as [|i]; [cbn; lra|]). lia.
Qed.

Lemma nth_map_seq {A : Type} (f : nat -> A) (start len i : nat) (d : A) :
  (i < len)%nat -> nth i (map f (seq start len)) d = f (start + i)%nat.
Proof.
  intros Hi. apply nth_error_nth.
  rewrite nth_error_map, nth_error_seq.
  destruct (Nat.ltb_spec i len); [reflexivity | lia].
Qed.

Lemma uptrend100_increasing : strictlyIncreasing uptrend100.
Proof.
  intros i Hi. unfold uptrend100 in *.
  rewrite length_map, length_seq in Hi.
  rewrite !nth_map_seq by lia.
  cbn [Nat.add]. rewrite plus_INR. cbn [INR]. lra.
Qed.

(** A window with one small loss gets a higher RSI than a window without
    loss: with the changes +1000 and -1 and the period 2 the value is
    100000/1001, above the 10000/101 of a window without loss. *)
Lemma rsi_small_loss_exceeds_no_loss :
  Engine.calculateRSI [1; 1001; 1000; 1000] 2 = [100000 / 1001]
  /\ 10000 / 101 < 100000 / 1001.
Proof.
  split; [|lra].
  change (Engine.calculateRSI [1; 1001; 1000; 1000] 2)
    with [Engine.rsiAt [1001 - 1; 1000 - 1001; 1000 - 1000] 2 2].
  f_equal. unfold Engine.rsiAt, Engine.avgGain, Engine.avgLoss, Engine.rsiWindow.
  change (slice (2 - 2) 2 [1001 - 1; 1000 - 1001; 1000 - 1000])
    with [1001 - 1; 1000 - 1001].
  cbn [filter map]. unfold gtb, ltb.
  destruct (Rlt_dec 0 (1001 - 1)); [|lra].
  destruct (Rlt_dec 0 (1000 - 1001)); [lra|].
  destruct (Rlt_dec (1001 - 1) 0); [lra|].
  destruct (Rlt_dec (1000 - 1001) 0); [|lra].
  cbn [length Nat.ltb Nat.leb map]. unfold sum; cbn [fold_left INR].
  rewrite (Rabs_left (1000 - 1001)) by lra.
  unfold eqb. destruct (Req_dec_T _ 0) as [E|_]; [lra|].
  field.
Qed.

(** C1.  Evaluation on sixteen rising prices with the period 14: the one
    window has no loss, the code substitutes RS = 100, and the RSI value is
    100 - 100/101 = 10000/101, strictly below the 100 of the claim. *)
Theorem C1_no_loss_window_gives_10000_over_101 :
  Engine.calculateRSI rising16 14 = [10000 / 101]
  /\ 10000 / 101 < 100.
Proof.
  split; [|lra].
  change (Engine.calculateRSI rising16 14)
    with [Engine.rsiAt (Engine.priceChanges rising16) 14 14].
  f_equal. apply rsiAt_no_loss. intros c Hc. apply Rlt_le.
  eapply priceChanges_increasing; [apply rising16_increasing|].
  eapply rsiWindow_incl; eassumption.
Qed.

(** C5.  Evaluation on the uptrend [price[i] = 100 + i] of 100 samples with
    the period 14: the latest RSI value is 10000/101, not the 100 the claim
    gives for a strictly increasing series. *)
Theorem C5_latest_rsi_of_uptrend :
  strictlyIncreasing uptrend100
  /\ lastElement (Engine.calculateRSI uptrend100 14) = Some (10000 / 101)
  /\ 10000 / 101 <> 100.
Proof.
  split; [apply uptrend100_increasing|]. split; [|lra].
  apply latest_rsi_increasing; [apply uptrend100_increasing|].
  unfold uptrend100. rewrite length_map, length_seq. lia.
Qed.

(** ** Bollinger Bands *)

Lemma fold_left_add_map {A : Type} (g : A -> R) (l : list A) (a : R) :
  fold_left (fun acc p => acc + g p) l a = a + sum (map g l).
Proof.
  revert a. induction l as [|x l IH]; intros a; cbn [fold_left map].
  - unfold sum; cbn; lra.
  - rewrite IH, sum_cons. lra.
Qed.

Lemma sum_zero_iff (l : list R) :
  (forall x, In x l -> 0 <= x) ->
  (sum l = 0 <-> forall x, In x l -> x = 0).
Proof.
  induction l as [|x l IH]; intros Hpos.
  - unfold sum; cbn. tauto.
  - rewrite sum_cons.
    assert (Hx : 0 <= x) by (apply Hpos; now left).
    assert (Hl : forall y, In y l -> 0 <= y) by (intros; apply Hpos; now right).
    pose proof (sum_nonneg l Hl) as Hs. specialize (IH Hl). split.
    + intros H y [<- | Hy]; [lra | apply IH; [lra | assumption]].
    + intros H. rewrite (H x (or_introl eq_refl)).
      assert (sum l = 0) by (apply IH; intros; apply H; now right). lra.
Qed.

Lemma sum_constant (l : list R) (c : R) :
  (forall x, In x l -> x = c) -> sum l = INR (length l) * c.
Proof.
  induction l as [|x l IH]; intros H.
  - unfold sum; cbn; lra.
  - rewrite sum_cons. cbn [length]. rewrite S_INR, IH, (H x (or_introl eq_refl)).
    + lra.
    + intros; apply H; now right.
Qed.

Lemma length_calculateSMA prices period :
  length (Engine.calculateSMA prices period)
  = (length prices - (period - 1))%nat.
Proof. unfold Engine.calculateSMA. now rewrite length_map, length_seq. Qed.

Lemma bbSubset_eq prices period i :
  (1 <= period)%nat ->
  Engine.bbSubset prices period i = slice i (i + period) prices.
Proof.
  intros Hp. unfold Engine.bbSubset. f_equal; lia.
Qed.

(** The moving average of position [i] is the mean of the window of
    iteration [i] of [calculateBollingerBands]. *)
Lemma nth_calculateSMA prices period i :
  (1 <= period)%nat ->
  (i < length (Engine.calculateSMA prices period))%nat ->
  nth i (Engine.calculateSMA prices period) 0
  = sum (Engine.bbSubset prices period i) / INR period.
Proof.
  intros Hp Hi. rewrite length_calculateSMA in Hi.
  unfold Engine.calculateSMA. rewrite nth_map_seq by lia.
  rewrite bbSubset_eq by assumption. do 3 f_equal; lia.
Qed.

Lemma length_bbSubset prices period i :
  (1 <= period)%nat ->
  (i < length (Engine.calculateSMA prices period))%nat ->
  length (Engine.bbSubset prices period i) = period.
Proof.
  intros Hp Hi. rewrite length_calculateSMA in Hi.
  rewrite bbSubset_eq, length_slice by assumption. lia.
Qed.

(** The bands of position [i]. *)
Lemma nth_error_calculateBollingerBands prices period multiplier i b :
  nth_error (Engine.calculateBollingerBands prices period multiplier) i
  = Some b ->
  (i < length (Engine.calculateSMA prices period))%nat
  /\ b = {| upper := nth i (Engine.calculateSMA prices period) 0
                     + windowStdDev prices period i * multiplier;
            middle := nth i (Engine.calculateSMA prices period) 0;
            lower := nth i (Engine.calculateSMA prices period) 0
                     - windowStdDev prices period i * multiplier |}.
Proof.
  unfold Engine.calculateBollingerBands. intros H.
  rewrite nth_error_map, nth_error_seq in H.
  destruct (Nat.ltb_spec i (length (Engine.calculateSMA prices period)));
    [|discriminate].
  cbn in H. injection H as <-. split; [assumption | reflexivity].
Qed.

Lemma windowStdDev_nonneg prices period i : 0 <= windowStdDev prices period i.
Proof. unfold windowStdDev, Engine.bbStdDev. apply sqrt_pos. Qed.

Lemma bbVariance_eq prices period i mean :
  Engine.bbVariance prices period i mean
  = sum (map (fun p => pow2 (p - mean)) (Engine.bbSubset prices period i))
    / INR period.
Proof.
  unfold Engine.bbVariance. rewrite fold_left_add_map. f_equal. lra.
Qed.

Lemma pow2_nonneg x : 0 <= pow2 x.
Proof. unfold pow2. nra. Qed.

Lemma pow2_zero x : pow2 x = 0 <-> x = 0.
Proof. unfold pow2. split; intros; nra. Qed.

(** The variance of a window vanishes exactly when every price of the
    window is the mean. *)
Lemma bbVariance_zero_iff prices period i mean :
  (1 <= period)%nat ->
  (Engine.bbVariance prices period i mean = 0 <->
   forall p, In p (Engine.bbSubset prices period i) -> p = mean).
Proof.
  intros Hp. rewrite bbVariance_eq.
  pose proof (INR_period_pos period Hp) as Hpos.
  set (squares := map _ _).
  assert (Hsq : forall x, In x squares -> 0 <= x).
  { intros x Hx. apply in_map_iff in Hx as (p & <- & _). apply pow2_nonneg. }
  assert (Hdiv : sum squares / INR period = 0 <-> sum squares = 0).
  { split; intros H.
    - apply (f_equal (fun v => v * INR period)) in H.
      unfold Rdiv in H. rewrite Rmult_assoc, Rinv_l in H; lra.
    - rewrite H. unfold Rdiv. lra. }
  rewrite Hdiv, (sum_zero_iff squares Hsq). subst squares. split.
  - intros H p Hin.
    assert (Hz : pow2 (p - mean) = 0) by (apply H, in_map_iff; now exists p).
    apply (proj1 (pow2_zero _)) in Hz. lra.
  - intros H x Hx. apply in_map_iff in Hx as (p & <- & Hin).
    apply pow2_zero. rewrite (H p Hin). lra.
Qed.

Lemma bbVariance_nonneg prices period i mean :
  (1 <= period)%nat -> 0 <= Engine.bbVariance prices period i mean.
Proof.
  intros Hp. rewrite bbVariance_eq.
  apply Rmult_le_pos.
  - apply sum_nonneg. intros x Hx.
    apply in_map_iff in Hx as (p & <- & _). apply pow2_nonneg.
  - apply Rlt_le, Rinv_0_lt_compat, INR_period_pos, Hp.
Qed.

(** The standard deviation of a window vanishes exactly when the window is
    constant. *)
Lemma windowStdDev_zero_iff prices period i :
  (1 <= period)%nat ->
  (i < length (Engine.calculateSMA prices period))%nat ->
  (windowStdDev prices period i = 0
   <-> constantWindow (Engine.bbSubset prices period i)).
Proof.
  intros Hp Hi. unfold windowStdDev, Engine.bbStdDev.
  set (mean := nth i (Engine.calculateSMA prices period) 0).
  pose proof (bbVariance_nonneg prices period i mean Hp) as Hvar.
  pose proof (INR_period_pos period Hp) as Hpos.
  split.
  - intros H. apply sqrt_eq_0 in H; [|assumption].
    pose proof (proj1 (bbVariance_zero_iff prices period i mean Hp) H) as Hm.
    intros x y Hx Hy. now rewrite (Hm x Hx), (Hm y Hy).
  - intros Hconst.
    replace (Engine.bbVariance prices period i mean) with 0; [apply sqrt_0|].
    symmetry. apply bbVariance_zero_iff; [assumption|].
    intros p Hin. subst mean. rewrite nth_calculateSMA by assumption.
    rewrite (sum_constant _ p) by (intros x Hx; now apply Hconst).
    rewrite length_bbSubset by assumption. field. lra.
Qed.

(** *** The bands in binary64 *)

Lemma fold_left_map_step {A B C : Type} (f : A -> B -> A) (g : C -> B)
    (l : list C) (a : A) :
  fold_left (fun acc p => f acc (g p)) l a = fold_left f (map g l) a.
Proof.
  revert a. induction l as [|x l IH]; intros a; [reflexivity|].
  cbn [fold_left map]. apply IH.
Qed.

Lemma binary64_length_calculateSMA prices period :
  length (Binary64.Engine.calculateSMA prices period)
  = (length prices - (period - 1))%nat.
Proof.
  unfold Binary64.Engine.calculateSMA. now rewrite length_map, length_seq.
Qed.

(** The window of iteration [i] holds the [period] prices from [prices[i]]
    on. *)
Lemma binary64_bbSubset prices period i :
  (1 <= period)%nat ->
  Binary64.Engine.bbSubset prices period i = windowAt prices period i.
Proof.
  intros Hp. unfold Binary64.Engine.bbSubset, windowAt, slice.
  f_equal; [lia | f_equal; lia].
Qed.

Lemma length_windowAt prices period i :
  (i + period <= length prices)%nat ->
  length (windowAt prices period i) = period.
Proof.
  intros H. unfold windowAt. rewrite length_firstn, length_skipn. lia.
Qed.

(** The moving average of position [i] is the mean of that window. *)
Lemma binary64_nth_calculateSMA prices period i :
  (1 <= period)%nat ->
  (i < length (Binary64.Engine.calculateSMA prices period))%nat ->
  nth i (Binary64.Engine.calculateSMA prices period) 0%float
  = meanOf (windowAt prices period i).
Proof.
  intros Hp Hi. rewrite binary64_length_calculateSMA in Hi.
  unfold Binary64.Engine.calculateSMA.
  rewrite nth_map_seq by lia.
  unfold meanOf. rewrite length_windowAt by lia.
  unfold windowAt, slice.
  replace (period - 1 + i + 1 - (period - 1 + i + 1 - period))%nat
    with period by lia.
  replace (period - 1 + i + 1 - period)%nat with i by lia.
  reflexivity.
Qed.

Lemma binary64_nth_error_bands prices period multiplier i b :
  nth_error (Binary64.Engine.calculateBollingerBands prices period multiplier) i
  = Some b ->
  (i < length (Binary64.Engine.calculateSMA prices period))%nat
  /\ b = (let mean := nth i (Binary64.Engine.calculateSMA prices period) 0 in
          let stdDev := computedStdDev prices period i in
          {| Binary64.upper := mean + (stdDev * multiplier);
             Binary64.middle := mean;
             Binary64.lower := mean - (stdDev * multiplier) |})%float.
Proof.
  unfold Binary64.Engine.calculateBollingerBands. intros H.
  rewrite nth_error_map, nth_error_seq in H.
  destruct (Nat.ltb_spec i (length (Binary64.Engine.calculateSMA prices period)));
    [|discriminate].
  cbn in H. injection H as <-. split; [assumption | reflexivity].
Qed.

(** The standard deviation computed for position [i] is the population
    standard deviation of that window. *)
Lemma computedStdDev_eq prices period i :
  (1 <= period)%nat ->
  (i < length (Binary64.Engine.calculateSMA prices period))%nat ->
  computedStdDev prices period i
  = populationStdDev (windowAt prices period i).
Proof.
  intros Hp Hi.
  unfold computedStdDev, Binary64.Engine.bbStdDev, Binary64.Engine.bbVariance,
    populationStdDev.
  rewrite binary64_bbSubset, binary64_nth_calculateSMA by assumption.
  rewrite length_windowAt
    by (rewrite binary64_length_calculateSMA in Hi; lia).
  rewrite (fold_left_map_step PrimFloat.add
             (fun p => Binary64.pow2
                         (p - meanOf (windowAt prices period i))%float)).
  reflexivity.
Qed.

(** C3, refuted as stated.  In binary64 the bands are not equal exactly
    for the constant windows, nor exactly for the standard deviation 0.
    Twenty prices of 0.1 are a constant window, but their mean is computed
    as 0.10000000000000002, so the standard deviation computed is
    1.3877787807814457e-17 and the three bands differ.  Nineteen prices of
    1.5 and one just above are no constant window and have the computed
    standard deviation 4.965068306494546e-17, but twice that is lost when
    it is added to 1.5, so the three bands are equal. *)
Lemma C3_equal_bands_miss_constant_windows :
  (forall p, In p tenths20 -> p = 0.1%float)
  /\ (exists b,
        Binary64.Engine.calculateBollingerBands tenths20 20 2 = [b]
        /\ b = Binary64.mkBand 0.10000000000000005 0.10000000000000002
                               0.09999999999999999
        /\ computedStdDev tenths20 20 0 = 1.3877787807814457e-17%float
        /\ PrimFloat.ltb (Binary64.lower b) (Binary64.middle b) = true
        /\ PrimFloat.ltb (Binary64.middle b) (Binary64.upper b) = true)
  /\ PrimFloat.ltb (nth 18 nearlyFlat20 0%float) (nth 19 nearlyFlat20 0%float)
     = true
  /\ (exists b,
        Binary64.Engine.calculateBollingerBands nearlyFlat20 20 2 = [b]
        /\ b = Binary64.mkBand 1.5 1.5 1.5
        /\ computedStdDev nearlyFlat20 20 0 = 4.965068306494546e-17%float
        /\ PrimFloat.ltb 0 (computedStdDev nearlyFlat20 20 0) = true).
Proof.
  split.
  { intros p Hp. unfold tenths20 in Hp. now apply repeat_spec in Hp. }
  split; [|split]; try (vm_compute; reflexivity);
    eexists; (split; [vm_compute; reflexivity|]);
    repeat split; vm_compute; reflexivity.
Qed.

(** C3, amended.  For every price series, every period of at least 1,
    every positive multiplier and every output position of the Bollinger
    Bands, lower <= middle <= upper, and the three are equal whenever the
    standard deviation computed for the window is 0. *)
Theorem C3_bands_ordered :
  forall prices period multiplier i b,
    (1 <= period)%nat -> 0 < multiplier ->
    nth_error (Engine.calculateBollingerBands prices period multiplier) i
    = Some b ->
    lower b <= middle b <= upper b
    /\ (windowStdDev prices period i = 0 ->
        lower b = middle b /\ middle b = upper b).
Proof.
  intros prices period multiplier i b Hp Hm Hb.
  apply nth_error_calculateBollingerBands in Hb as (Hi & ->).
  cbn [upper middle lower].
  pose proof (windowStdDev_nonneg prices period i) as Hsd.
  split; [split; nra|].
  intros Hzero. rewrite Hzero. split; lra.
Qed.

(** The statement of C3 on the two prices 1 and 3 with the period 2 and the
    multiplier 2. *)
Lemma C3_bands_ordered_witness :
  (1 <= 2)%nat /\ 0 < 2
  /\ exists b,
       nth_error (Engine.calculateBollingerBands [1; 3] 2 2) 0 = Some b
       /\ lower b <= middle b <= upper b
       /\ (windowStdDev [1; 3] 2 0 = 0 ->
           lower b = middle b /\ middle b = upper b).
Proof.
  split; [lia|]. split; [lra|].
  eexists. split; [reflexivity|].
  apply (C3_bands_ordered [1; 3] 2 2 0); [lia | lra | reflexivity].
Defined.

(** C10, refuted as stated.  In binary64 the two distances to the middle
    band are rounded sums and differences.  For the prices 100, ..., 119
    both are 11.532562594670793, while the multiplier times the standard
    deviation is 11.532562594670796; for nine prices of 60, then 61 and
    139, then nine prices of 140 the distance of the upper band is
    79.80225560721954 and the one of the lower band 79.80225560721952. *)
Lemma C10_bands_are_not_exactly_symmetric :
  (exists b,
     Binary64.Engine.calculateBollingerBands from100to119 20 2 = [b]
     /\ b = Binary64.mkBand 121.0325625946708 109.5 97.9674374053292
     /\ (Binary64.upper b - Binary64.middle b = 11.532562594670793)%float
     /\ (Binary64.middle b - Binary64.lower b = 11.532562594670793)%float
     /\ (2 * computedStdDev from100to119 20 0 = 11.532562594670796)%float
     /\ PrimFloat.eqb (Binary64.upper b - Binary64.middle b)
                      (2 * computedStdDev from100to119 20 0) = false)
  /\ (exists b,
        Binary64.Engine.calculateBollingerBands split20 20 2 = [b]
        /\ b = Binary64.mkBand 179.80225560721954 100 20.19774439278048
        /\ (Binary64.upper b - Binary64.middle b = 79.80225560721954)%float
        /\ (Binary64.middle b - Binary64.lower b = 79.80225560721952)%float
        /\ PrimFloat.eqb (Binary64.upper b - Binary64.middle b)
                         (Binary64.middle b - Binary64.lower b) = false).
Proof.
  split; eexists; (split; [vm_compute; reflexivity|]);
    repeat split; vm_compute; reflexivity.
Qed.

(** C10, amended.  For every price series, every period of at least 1 and
    every output position [i] of the Bollinger Bands, the bands are built
    from the window of the [period] prices from [prices[i]] on: the middle
    band is the mean of the window, the upper band is the middle band plus
    the multiplier times the population standard deviation of the window,
    and the lower band is the middle band minus the same product, each
    operation rounded as binary64 does. *)
Theorem C10_bands_built_from_the_window :
  forall prices period multiplier i b,
    (1 <= period)%nat ->
    nth_error (Binary64.Engine.calculateBollingerBands prices period multiplier) i
    = Some b ->
    let window := windowAt prices period i in
    length window = period
    /\ Binary64.middle b = meanOf window
    /\ Binary64.upper b
       = (Binary64.middle b + populationStdDev window * multiplier)%float
    /\ Binary64.lower b
       = (Binary64.middle b - populationStdDev window * multiplier)%float.
Proof.
  intros prices period multiplier i b Hp Hb window.
  apply binary64_nth_error_bands in Hb as (Hi & ->).
  cbn [Binary64.upper Binary64.middle Binary64.lower].
  rewrite computedStdDev_eq, binary64_nth_calculateSMA by assumption.
  fold window. repeat split.
  apply length_windowAt. rewrite binary64_length_calculateSMA in Hi. lia.
Qed.

(** The statement of C10 on the two prices 1 and 3 with the period 2 and
    the multiplier 2. *)
Lemma C10_bands_built_from_the_window_witness :
  (1 <= 2)%nat
  /\ exists b,
       nth_error (Binary64.Engine.calculateBollingerBands [1; 3]%float 2 2) 0
       = Some b
       /\ (let window := windowAt [1; 3]%float 2 0 in
           length window = 2%nat
           /\ Binary64.middle b = meanOf window
           /\ Binary64.upper b
              = (Binary64.middle b + populationStdDev window * 2)%float
           /\ Binary64.lower b
              = (Binary64.middle b - populationStdDev window * 2)%float).
Proof.
  split; [lia|]. eexists. split; [reflexivity|].
  apply (C10_bands_built_from_the_window [1; 3]%float 2 2%float 0); [lia | reflexivity].
Defined.

(** ** Support and resistance levels *)

Lemma supportScan_extremumScan prices i current js :
  Engine.supportScan prices i current js
  = extremumScan leb "support" prices i current js.
Proof.
  induction js as [|j js IH]; cbn; [reflexivity|]. now rewrite IH.
Qed.

Lemma resistanceScan_extremumScan prices i current js :
  Engine.resistanceScan prices i current js
  = extremumScan geb "resistance" prices i current js.
Proof.
  induction js as [|j js IH]; cbn; [reflexivity|]. now rewrite IH.
Qed.

Section Scan.

Variable test : R -> R -> bool.
Variable kind : string.
Variable prices : list R.
Variable i : nat.
Variable current : R.

(** Indices that pass the test and are not the last one are skipped. *)
Lemma extremumScan_skip (pre rest : list nat) :
  (forall j, In j pre ->
             j <> (i + Engine.lookback)%nat
             /\ (j = i \/ test (nth j prices 0) current = false)) ->
  extremumScan test kind prices i current (pre ++ rest)
  = extremumScan test kind prices i current rest.
Proof.
  induction pre as [|x pre IH]; intros H; [reflexivity|].
  cbn [app extremumScan].
  destruct (H x (or_introl eq_refl)) as [Hlast Hx].
  replace (negb (x =? i)%nat && test (nth x prices 0) current) with false.
  - replace (x =? i + Engine.lookback)%nat with false
      by (symmetry; now apply Nat.eqb_neq).
    apply IH. intros j Hj. apply H. now right.
  - symmetry. destruct Hx as [-> | ->].
    + now rewrite Nat.eqb_refl.
    + apply andb_false_r.
Qed.

(** The first index that fails the test ends the loop without a level. *)
Lemma extremumScan_break (pre post : list nat) (j : nat) :
  (forall x, In x pre -> x <> (i + Engine.lookback)%nat) ->
  j <> i -> test (nth j prices 0) current = true ->
  extremumScan test kind prices i current (pre ++ j :: post) = [].
Proof.
  intros Hpre Hj Htest. induction pre as [|x pre IH]; cbn [app extremumScan].
  - apply Nat.eqb_neq in Hj. now rewrite Hj, Htest.
  - destruct (negb (x =? i)%nat && test (nth x prices 0) current);
      [reflexivity|].
    replace (x =? i + Engine.lookback)%nat with false
      by (symmetry; apply Nat.eqb_neq, Hpre; now left).
    apply IH. intros y Hy. apply Hpre. now right.
Qed.

Lemma scanIndices_split :
  (Engine.lookback <= i)%nat ->
  Engine.scanIndices i
  = seq (i - Engine.lookback) (2 * Engine.lookback)
    ++ [(i + Engine.lookback)%nat].
Proof.
  intros Hi. unfold Engine.scanIndices.
  replace (i + Engine.lookback + 1 - (i - Engine.lookback))%nat
    with (S (2 * Engine.lookback)) by lia.
  rewrite seq_S. do 2 f_equal. lia.
Qed.

Lemma In_scanIndices (j : nat) :
  In j (Engine.scanIndices i)
  <-> (i - Engine.lookback <= j <= i + Engine.lookback)%nat.
Proof. unfold Engine.scanIndices. rewrite in_seq. lia. Qed.

(** The loop pushes its level when every other index of the window passes
    the test ... *)
Lemma extremumScan_all :
  (Engine.lookback <= i)%nat ->
  (forall j, (i - Engine.lookback <= j <= i + Engine.lookback)%nat -> j <> i ->
             test (nth j prices 0) current = false) ->
  extremumScan test kind prices i current (Engine.scanIndices i)
  = [mkLevel kind current "medium"].
Proof.
  intros Hi Hall. rewrite scanIndices_split by assumption.
  rewrite extremumScan_skip.
  - cbn [extremumScan].
    rewrite (Hall (i + Engine.lookback)%nat)
      by (unfold Engine.lookback; lia).
    rewrite andb_false_r, Nat.eqb_refl. reflexivity.
  - intros j Hj. apply in_seq in Hj. split; [lia|].
    destruct (Nat.eq_dec j i) as [-> | Hne]; [now left | right].
    apply Hall; [lia | assumption].
Qed.

(** ... and nothing when one of them fails it. *)
Lemma extremumScan_some (j : nat) :
  (Engine.lookback <= i)%nat ->
  (i - Engine.lookback <= j <= i + Engine.lookback)%nat -> j <> i ->
  test (nth j prices 0) current = true ->
  extremumScan test kind prices i current (Engine.scanIndices i) = [].
Proof.
  intros Hi Hj Hne Htest. rewrite scanIndices_split by assumption.
  destruct (Nat.eq_dec j (i + Engine.lookback)) as [-> | Hlast].
  - apply extremumScan_break; try assumption.
    intros x Hx. apply in_seq in Hx. lia.
  - assert (Hin : In j (seq (i - Engine.lookback) (2 * Engine.lookback)))
      by (apply in_seq; lia).
    destruct (in_split _ _ Hin) as (pre & post & Hsplit).
    rewrite Hsplit, <- app_assoc. cbn [app].
    apply extremumScan_break; try assumption.
    intros x Hx.
    assert (Hx' : In x (seq (i - Engine.lookback) (2 * Engine.lookback)))
      by (rewrite Hsplit; apply in_or_app; now left).
    apply in_seq in Hx'. lia.
Qed.

(** Every level of the loop is of its kind. *)
Lemma extremumScan_kind (js : list nat) (lv : Level) :
  In lv (extremumScan test kind prices i current js) -> type lv = kind.
Proof.
  induction js as [|j js IH]; cbn [extremumScan]; [contradiction|].
  destruct (negb (j =? i)%nat && test (nth j prices 0) current);
    [contradiction|].
  destruct (j =? i + Engine.lookback)%nat; [|assumption].
  intros [<- | H]; [reflexivity | now apply IH].
Qed.

End Scan.

Lemma not_strictMinimum prices r i :
  ~ strictMinimum prices r i ->
  exists j, (i - r <= j <= i + r)%nat /\ j <> i
            /\ nth j prices 0 <= nth i prices 0.
Proof.
  intros H. apply not_all_ex_not in H as (j & Hj). exists j.
  apply imply_to_and in Hj as (Hr & Hj).
  apply imply_to_and in Hj as (Hne & Hlt).
  repeat split; try assumption; try lia. lra.
Qed.

Lemma not_strictMaximum prices r i :
  ~ strictMaximum prices r i ->
  exists j, (i - r <= j <= i + r)%nat /\ j <> i
            /\ nth i prices 0 <= nth j prices 0.
Proof.
  intros H. apply not_all_ex_not in H as (j & Hj). exists j.
  apply imply_to_and in Hj as (Hr & Hj).
  apply imply_to_and in Hj as (Hne & Hlt).
  repeat split; try assumption; try lia. lra.
Qed.

(** The support loop of the simplified engine. *)
Lemma supportScan_strictMinimum prices i :
  (Engine.lookback <= i)%nat ->
  (strictMinimum prices Engine.lookback i ->
   Engine.supportScan prices i (nth i prices 0) (Engine.scanIndices i)
   = [supportLevel (nth i prices 0)])
  /\ (~ strictMinimum prices Engine.lookback i ->
      Engine.supportScan prices i (nth i prices 0) (Engine.scanIndices i)
      = []).
Proof.
  intros Hi. rewrite supportScan_extremumScan. split; intros H.
  - apply extremumScan_all; [assumption|].
    intros j Hj Hne. apply leb_false. now apply H.
  - apply not_strictMinimum in H as (j & Hj & Hne & Hle).
    apply (extremumScan_some _ _ _ _ _ j); try assumption.
    now apply leb_true.
Qed.

(** The resistance loop of the simplified engine. *)
Lemma resistanceScan_strictMaximum prices i :
  (Engine.lookback <= i)%nat ->
  (strictMaximum prices Engine.lookback i ->
   Engine.resistanceScan prices i (nth i prices 0) (Engine.scanIndices i)
   = [resistanceLevel (nth i prices 0)])
  /\ (~ strictMaximum prices Engine.lookback i ->
      Engine.resistanceScan prices i (nth i prices 0) (Engine.scanIndices i)
      = []).
Proof.
  intros Hi. rewrite resistanceScan_extremumScan. split; intros H.
  - apply extremumScan_all; [assumption|].
    intros j Hj Hne. unfold geb. apply leb_false. now apply H.
  - apply not_strictMaximum in H as (j & Hj & Hne & Hle).
    apply (extremumScan_some _ _ _ _ _ j); try assumption.
    unfold geb. now apply leb_true.
Qed.

Lemma support_not_resistance x y : supportLevel x <> resistanceLevel y.
Proof. unfold supportLevel, resistanceLevel. intros H. discriminate H. Qed.

(** The simplified engine pushes a level at [i] exactly for a strict
    extremum of the window [[i - 10, i + 10]]. *)
Lemma engine_detectsStrictExtrema :
  detectsStrictExtrema Engine.levelsAt Engine.lookback.
Proof.
  intros prices i Hi _. unfold Engine.levelsAt.
  destruct (supportScan_strictMinimum prices i Hi) as [Hmin Hnmin].
  destruct (resistanceScan_strictMaximum prices i Hi) as [Hmax Hnmax].
  split; split.
  - intros Hin. destruct (classic (strictMinimum prices Engine.lookback i))
      as [|Hn]; [assumption|].
    rewrite (Hnmin Hn) in Hin. cbn [app] in Hin.
    rewrite resistanceScan_extremumScan in Hin.
    apply extremumScan_kind in Hin. discriminate Hin.
  - intros H. rewrite (Hmin H). now left.
  - intros Hin. destruct (classic (strictMaximum prices Engine.lookback i))
      as [|Hn]; [assumption|].
    rewrite (Hnmax Hn), app_nil_r in Hin.
    rewrite supportScan_extremumScan in Hin.
    apply extremumScan_kind in Hin. discriminate Hin.
  - intros H. rewrite (Hmax H). apply in_or_app. right. now left.
Qed.

(** An index whose price is held by another index of its window gets no
    level in the simplified engine. *)
Lemma engine_tie_no_level prices i j :
  (Engine.lookback <= i)%nat ->
  (i - Engine.lookback <= j <= i + Engine.lookback)%nat -> j <> i ->
  nth j prices 0 = nth i prices 0 ->
  Engine.levelsAt prices i = [].
Proof.
  intros Hi Hj Hne Heq. unfold Engine.levelsAt.
  destruct (supportScan_strictMinimum prices i Hi) as [_ Hnmin].
  destruct (resistanceScan_strictMaximum prices i Hi) as [_ Hnmax].
  rewrite Hnmin, Hnmax; [reflexivity | |].
  - intros H. specialize (H j Hj Hne). lra.
  - intros H. specialize (H j Hj Hne). lra.
Qed.

(** The levels pushed at [i] by the engine of [mcp-gateway.js]. *)
Lemma gateway_levelsAt prices i :
  (In (supportLevel (nth i prices 0)) (Gateway.levelsAt prices i)
   <-> atMostTwoBelow prices i)
  /\ (In (resistanceLevel (nth i prices 0)) (Gateway.levelsAt prices i)
      <-> atMostTwoAbove prices i).
Proof.
  unfold Gateway.levelsAt, atMostTwoBelow, atMostTwoAbove.
  change (slice (i - 20) (i + 20) prices) with (Gateway.subset prices i).
  unfold Gateway.isSupport, Gateway.isResistance.
  set (below := length (filter (fun p => ltb p _) _)).
  set (above := length (filter (fun p => gtb p _) _)).
  pose proof (support_not_resistance (nth i prices 0) (nth i prices 0)) as Hsr.
  fold (supportLevel (nth i prices 0)). fold (resistanceLevel (nth i prices 0)).
  destruct (Nat.leb_spec below 2), (Nat.leb_spec above 2);
    cbn [app In]; repeat split; intros; try lia; try tauto;
    repeat match goal with H : _ \/ _ |- _ => destruct H end;
    try contradiction; try congruence.
Qed.

(** Where no sample of the window is below (above) [prices[i]], the engine
    of [mcp-gateway.js] pushes a support (resistance) level at [i]. *)
Lemma gateway_extremum_level prices i :
  ((forall p, In p (Gateway.subset prices i) -> nth i prices 0 <= p) ->
   In (supportLevel (nth i prices 0)) (Gateway.levelsAt prices i))
  /\ ((forall p, In p (Gateway.subset prices i) -> p <= nth i prices 0) ->
      In (resistanceLevel (nth i prices 0)) (Gateway.levelsAt prices i)).
Proof.
  destruct (gateway_levelsAt prices i) as [Hs Hr].
  split; intros H; [apply Hs | apply Hr];
    unfold atMostTwoBelow, atMostTwoAbove;
    change (slice (i - 20) (i + 20) prices) with (Gateway.subset prices i).
  - replace (filter _ _) with (@nil R); [cbn; lia|].
    symmetry. apply filter_nil_iff. intros p Hp. apply ltb_false. now apply H.
  - replace (filter _ _) with (@nil R); [cbn; lia|].
    symmetry. apply filter_nil_iff. intros p Hp. unfold gtb.
    apply ltb_false. now apply H.
Qed.

Lemma In_flat41 p : In p flat41 -> p = 5.
Proof. unfold flat41. intros H. now apply repeat_spec in H. Qed.

Lemma gateway_levelsAt_flat41 :
  Gateway.levelsAt flat41 20 = [supportLevel 5; resistanceLevel 5].
Proof.
  assert (Hwin : forall p, In p (Gateway.subset flat41 20) -> p = 5).
  { intros p Hp. apply (In_slice _ _ _ 0) in Hp as (k & _ & Hk & <-).
    apply In_flat41. now apply nth_In. }
  unfold Gateway.levelsAt, Gateway.isSupport, Gateway.isResistance.
  change (nth 20 flat41 0) with 5.
  replace (filter (fun p => ltb p 5) (Gateway.subset flat41 20)) with (@nil R).
  - replace (filter (fun p => gtb p 5) (Gateway.subset flat41 20))
      with (@nil R); [reflexivity|].
    symmetry. apply filter_nil_iff. intros p Hp. unfold gtb.
    apply ltb_false. rewrite (Hwin p Hp). lra.
  - symmetry. apply filter_nil_iff. intros p Hp.
    apply ltb_false. rewrite (Hwin p Hp). lra.
Qed.

(** C4, refuted as stated.  On a flat series of 41 samples the engine of
    [mcp-gateway.js] returns a support and a resistance level for the
    index 20, whose price is neither the strict minimum nor the strict
    maximum of its window: that engine does not detect strict extrema. *)
Lemma C4_gateway_levels_on_flat_series :
  Gateway.calculateSupportResistance flat41
  = [supportLevel 5; resistanceLevel 5]
  /\ ~ strictMinimum flat41 Gateway.lookback 20
  /\ ~ strictMaximum flat41 Gateway.lookback 20
  /\ ~ detectsStrictExtrema Gateway.levelsAt Gateway.lookback.
Proof.
  assert (Hmin : ~ strictMinimum flat41 Gateway.lookback 20).
  { intros H. specialize (H 21%nat). unfold Gateway.lookback in H.
    change (nth 20 flat41 0) with 5 in H. change (nth 21 flat41 0) with 5 in H.
    assert (5 < 5) by (apply H; lia). lra. }
  assert (Hmax : ~ strictMaximum flat41 Gateway.lookback 20).
  { intros H. specialize (H 21%nat). unfold Gateway.lookback in H.
    change (nth 20 flat41 0) with 5 in H. change (nth 21 flat41 0) with 5 in H.
    assert (5 < 5) by (apply H; lia). lra. }
  repeat split; try assumption.
  - unfold Gateway.calculateSupportResistance.
    change (Gateway.allLevels flat41) with (Gateway.levelsAt flat41 20 ++ []).
    rewrite gateway_levelsAt_flat41. reflexivity.
  - intros H. destruct (H flat41 20%nat) as [[Hs _] _].
    + unfold Gateway.lookback. lia.
    + change (length flat41) with 41%nat. unfold Gateway.lookback. lia.
    + apply Hmin, Hs. rewrite gateway_levelsAt_flat41. now left.
Qed.

(** C4, amended.  The simplified engine (radius 10) pushes a support level
    at the index i, 10 <= i < n - 10, exactly when prices[i] is the strict
    minimum of the window [i - 10, i + 10], and a resistance level exactly
    when it is the strict maximum; the engine of [mcp-gateway.js]
    (radius 20) pushes a support level at i exactly when at most two
    samples of prices.slice(i - 20, i + 20) are below prices[i], and a
    resistance level exactly when at most two are above it; both return
    the last 10 of the levels pushed for the indices r <= i < n - r. *)
Theorem C4_levels_of_both_engines :
  detectsStrictExtrema Engine.levelsAt Engine.lookback
  /\ (forall prices i,
        (In (supportLevel (nth i prices 0)) (Gateway.levelsAt prices i)
         <-> atMostTwoBelow prices i)
        /\ (In (resistanceLevel (nth i prices 0)) (Gateway.levelsAt prices i)
            <-> atMostTwoAbove prices i))
  /\ (forall prices,
        Engine.calculateSupportResistance prices
        = sliceLast 10 (flat_map (Engine.levelsAt prices)
                                 (seq 10 (length prices - 10 - 10))))
  /\ (forall prices,
        Gateway.calculateSupportResistance prices
        = sliceLast 10 (flat_map (Gateway.levelsAt prices)
                                 (seq 20 (length prices - 20 - 20)))).
Proof.
  split; [apply engine_detectsStrictExtrema|].
  split; [apply gateway_levelsAt|].
  split; reflexivity.
Qed.

Lemma tie21_firstMinimum : firstMinimum tie21 Engine.lookback 10.
Proof.
  unfold firstMinimum, Engine.lookback, tie21. cbn [repeat app Nat.sub Nat.add].
  split; intros j Hj.
  - do 21 (destruct j as [|j]; [cbn; lra|]). lia.
  - do 10 (destruct j as [|j]; [cbn; lra|]). lia.
Qed.

Lemma engine_levelsAt_tie21 : Engine.levelsAt tie21 10 = [].
Proof.
  apply (engine_tie_no_level tie21 10 11).
  - unfold Engine.lookback. lia.
  - unfold Engine.lookback. lia.
  - lia.
  - reflexivity.
Qed.

(** C8, refuted as stated.  In [tie21] the indices 10 and 11 hold the
    least price of the window [0, 20] and 10 is the first of them, yet the
    simplified engine returns no level: a tie is not given to the first
    index. *)
Lemma C8_engine_tie_yields_no_level :
  firstMinimum tie21 Engine.lookback 10
  /\ Engine.calculateSupportResistance tie21 = []
  /\ ~ tiesGoToFirstIndex Engine.levelsAt Engine.lookback.
Proof.
  split; [apply tie21_firstMinimum|]. split.
  - unfold Engine.calculateSupportResistance.
    change (Engine.allLevels tie21) with (Engine.levelsAt tie21 10 ++ []).
    rewrite engine_levelsAt_tie21. reflexivity.
  - intros H. destruct (H tie21 10%nat) as [Hs _].
    + unfold Engine.lookback. lia.
    + change (length tie21) with 21%nat. unfold Engine.lookback. lia.
    + specialize (Hs tie21_firstMinimum).
      rewrite engine_levelsAt_tie21 in Hs. contradiction.
Qed.

(** C8, amended.  Both detectors are functions of the price series, so
    two runs on the same series return the same levels; a tie for the
    extreme value of a window is not given to the first index: in the
    simplified engine an index whose price is held by another index of its
    window gets no level, and in the engine of [mcp-gateway.js] every index
    that holds the least (greatest) price of its window gets a support
    (resistance) level, whether or not another index holds it too. *)
Theorem C8_deterministic_without_tie_break :
  (forall prices1 prices2 : list R,
     prices1 = prices2 ->
     Engine.calculateSupportResistance prices1
     = Engine.calculateSupportResistance prices2
     /\ Gateway.calculateSupportResistance prices1
        = Gateway.calculateSupportResistance prices2)
  /\ (forall prices i j,
        (Engine.lookback <= i)%nat -> (i + Engine.lookback < length prices)%nat ->
        (i - Engine.lookback <= j <= i + Engine.lookback)%nat -> j <> i ->
        nth j prices 0 = nth i prices 0 ->
        Engine.levelsAt prices i = [])
  /\ (forall prices i,
        ((forall p, In p (Gateway.subset prices i) -> nth i prices 0 <= p) ->
         In (supportLevel (nth i prices 0)) (Gateway.levelsAt prices i))
        /\ ((forall p, In p (Gateway.subset prices i) -> p <= nth i prices 0) ->
            In (resistanceLevel (nth i prices 0)) (Gateway.levelsAt prices i))).
Proof.
  split; [intros prices1 prices2 ->; split; reflexivity|].
  split.
  - intros prices i j Hi _ Hj Hne Heq.
    now apply (engine_tie_no_level prices i j).
  - apply gateway_extremum_level.
Qed.

(** ** The analysis of a request *)

Lemma calculateSimpleTechnicals_short prices :
  (length prices < 20)%nat -> Engine.calculateSimpleTechnicals prices = None.
Proof.
  intros H. unfold Engine.calculateSimpleTechnicals.
  rewrite length_map. apply Nat.ltb_lt in H. now rewrite H.
Qed.

Lemma lastElement_not_none {A : Type} (l : list A) :
  (0 < length l)%nat -> lastElement l <> None.
Proof.
  intros H E. apply lastElement_none in E. subst l. cbn in H. lia.
Qed.

Lemma length_calculateBollingerBands prices period multiplier :
  length (Engine.calculateBollingerBands prices period multiplier)
  = (length prices - (period - 1))%nat.
Proof.
  unfold Engine.calculateBollingerBands.
  now rewrite length_map, length_seq, length_calculateSMA.
Qed.

(** From 20 samples on every indicator is there, but for the 50-period
    average, which needs 50 samples. *)
Lemma calculateSimpleTechnicals_long prices :
  (20 <= length prices)%nat ->
  exists t, Engine.calculateSimpleTechnicals prices = Some t
            /\ Engine.sma_20 t <> None
            /\ Engine.rsi t <> None
            /\ Engine.bollinger_bands t <> None
            /\ (Engine.sma_50 t = None <-> (length prices < 50)%nat).
Proof.
  intros H. unfold Engine.calculateSimpleTechnicals.
  rewrite length_map.
  replace (length prices <? 20)%nat with false
    by (symmetry; apply Nat.ltb_ge; assumption).
  eexists. split; [reflexivity|]. cbn [Engine.sma_20 Engine.rsi
    Engine.bollinger_bands Engine.sma_50].
  repeat split.
  - apply lastElement_not_none.
    rewrite length_calculateSMA, length_map. lia.
  - apply lastElement_not_none.
    rewrite length_calculateRSI, length_map. lia.
  - apply lastElement_not_none.
    rewrite length_calculateBollingerBands, length_map. lia.
  - intros E. apply lastElement_none in E.
    apply (f_equal (@length R)) in E.
    rewrite length_calculateSMA, length_map in E. cbn [length] in E. lia.
  - intros Hlt. apply lastElement_none. apply length_zero_iff_nil.
    rewrite length_calculateSMA, length_map. lia.
Qed.

(** The [god_analysis] branch of the handler. *)
Lemma handleMCPRequest_god_analysis request fetched toolParams symbol :
  Engine.method request = "tools/call"%string ->
  Engine.name (Engine.params request) = "god_analysis"%string ->
  Engine.arguments (Engine.params request) = Some toolParams ->
  getProperty "symbol" toolParams = Some (JStr symbol) ->
  Engine.handleMCPRequest request fetched
  = Return (Engine.AnalysisResult
      (let marketData := Engine.marketData fetched in
       let technicals :=
         Engine.calculateSimpleTechnicals (historical_prices marketData) in
       let marketStructure := Engine.marketStructureAnalysis marketData in
       {| Engine.symbol := toUpperCase symbol;
          Engine.current_price := current_price_usd marketData;
          Engine.technical_indicators := technicals;
          Engine.market_structure := marketStructure;
          Engine.sentiment_analysis := Engine.newsSentiment fetched;
          Engine.fear_greed_index := Engine.fearGreed fetched;
          Engine.god_prediction :=
            Engine.generateGodPrediction
              technicals marketData (Engine.newsSentiment fetched)
              marketStructure |})).
Proof.
  intros Hm Hn Ha Hs. unfold Engine.handleMCPRequest.
  rewrite Hm, Hn, Ha, Hs. reflexivity.
Qed.

(** C6, refuted as stated.  A [god_analysis] call whose arguments carry a
    weight set that sums to 0.9 is answered with a report and its
    prediction, computed with the weights of the code; nothing is thrown. *)
Lemma C6_weight_set_in_request_is_ignored :
  0.3 + 0.3 + 0.2 + 0.1 = 0.9
  /\ Engine.arguments (Engine.params weightedRequest)
     = Some [("symbol"%string, JStr "bitcoin");
             ("weights"%string, JObj weights09)]
  /\ (exists report,
        Engine.handleMCPRequest weightedRequest fetched19
        = Return (Engine.AnalysisResult report)
        /\ Engine.god_prediction report
           = Engine.generateGodPrediction
               None marketData19 (mkSentiment "neutral" 0.1 [])
               (Engine.marketStructureAnalysis marketData19))
  /\ (forall message,
        Engine.handleMCPRequest weightedRequest fetched19 <> Throw message).
Proof.
  split; [lra|]. split; [reflexivity|]. split.
  - eexists. split.
    + apply (handleMCPRequest_god_analysis weightedRequest fetched19
               [("symbol"%string, JStr "bitcoin");
                ("weights"%string, JObj weights09)] "bitcoin");
        reflexivity.
    + reflexivity.
  - intros message E.
    rewrite (handleMCPRequest_god_analysis weightedRequest fetched19
               [("symbol"%string, JStr "bitcoin");
                ("weights"%string, JObj weights09)] "bitcoin") in E
      by reflexivity.
    discriminate E.
Qed.

Lemma weights_sum_to_one : sumsToOne (mkWeights 0.4 0.3 0.2 0.1).
Proof.
  unfold sumsToOne, weightSum.
  cbn [w_technical w_fundamental w_sentiment w_market_structure].
  replace (0.4 + 0.3 + 0.2 + 0.1 - 1) with 0 by lra.
  rewrite Rabs_R0. lra.
Qed.

(** The confidence of a prediction is the one of the four sub-scores
    weighted by 0.4, 0.3, 0.2 and 0.1. *)
Lemma engine_scoredWithFixedWeights technicals fundamentals sentiment
    marketStructure :
  scoredWithFixedWeights
    (Engine.technicalScore technicals)
    (Engine.fundamentalScore marketStructure)
    (Engine.sentimentScore sentiment)
    (Engine.structureScore marketStructure)
    (Engine.generateGodPrediction
       technicals fundamentals sentiment marketStructure).
Proof. reflexivity. Qed.

Lemma gateway_scoredWithFixedWeights technicals fundamentals sentiment
    marketStructure :
  scoredWithFixedWeights
    (Gateway.technicalScore technicals)
    (Gateway.fundamentalScore marketStructure)
    (Gateway.sentimentScore sentiment)
    (Gateway.structureScore marketStructure)
    (Gateway.generateGodPrediction
       technicals fundamentals sentiment marketStructure).
Proof. reflexivity. Qed.

(** C6, amended.  The composite scorer of both engines uses the fixed
    weights 0.4, 0.3, 0.2 and 0.1, which sum to 1 within 1e-9, as real
    numbers and as numbers of binary64: the confidence of every
    prediction is |0.4 technical + 0.3 fundamental + 0.2 sentiment
    + 0.1 structure - 0.5| * 200 of its four sub-scores.  The weights are no
    input and nothing validates them: once the market data is fetched, a
    [god_analysis] call whose arguments hold a string [symbol] returns a
    report whose prediction is the one of [generateGodPrediction] for the
    fetched data, scored with these weights, whatever else the arguments
    hold. *)
Theorem C6_fixed_weights_no_validation :
  Engine.weights = mkWeights 0.4 0.3 0.2 0.1
  /\ Gateway.weights = mkWeights 0.4 0.3 0.2 0.1
  /\ sumsToOne Engine.weights
  /\ sumsToOne Gateway.weights
  /\ Binary64.Engine.weights = Binary64.mkWeights 0.4 0.3 0.2 0.1
  /\ Binary64.Gateway.weights = Binary64.mkWeights 0.4 0.3 0.2 0.1
  /\ sumsToOne64 Binary64.Engine.weights
  /\ sumsToOne64 Binary64.Gateway.weights
  /\ (forall technicals fundamentals sentiment marketStructure,
        scoredWithFixedWeights
          (Engine.technicalScore technicals)
          (Engine.fundamentalScore marketStructure)
          (Engine.sentimentScore sentiment)
          (Engine.structureScore marketStructure)
          (Engine.generateGodPrediction
             technicals fundamentals sentiment marketStructure))
  /\ (forall technicals fundamentals sentiment marketStructure,
        scoredWithFixedWeights
          (Gateway.technicalScore technicals)
          (Gateway.fundamentalScore marketStructure)
          (Gateway.sentimentScore sentiment)
          (Gateway.structureScore marketStructure)
          (Gateway.generateGodPrediction
             technicals fundamentals sentiment marketStructure))
  /\ (forall request fetched toolParams symbol,
        Engine.method request = "tools/call"%string ->
        Engine.name (Engine.params request) = "god_analysis"%string ->
        Engine.arguments (Engine.params request) = Some toolParams ->
        getProperty "symbol" toolParams = Some (JStr symbol) ->
        exists report,
          Engine.handleMCPRequest request fetched
          = Return (Engine.AnalysisResult report)
          /\ Engine.god_prediction report
             = Engine.generateGodPrediction
                 (Engine.calculateSimpleTechnicals
                    (historical_prices (Engine.marketData fetched)))
                 (Engine.marketData fetched)
                 (Engine.newsSentiment fetched)
                 (Engine.marketStructureAnalysis (Engine.marketData fetched))
          /\ scoredWithFixedWeights
               (Engine.technicalScore (Engine.technical_indicators report))
               (Engine.fundamentalScore (Engine.market_structure report))
               (Engine.sentimentScore (Engine.sentiment_analysis report))
               (Engine.structureScore (Engine.market_structure report))
               (Engine.god_prediction report)).
Proof.
  split; [reflexivity|]. split; [reflexivity|].
  split; [apply weights_sum_to_one|].
  split; [apply weights_sum_to_one|].
  split; [reflexivity|]. split; [reflexivity|].
  split; [vm_compute; reflexivity|].
  split; [vm_compute; reflexivity|].
  split; [apply engine_scoredWithFixedWeights|].
  split; [apply gateway_scoredWithFixedWeights|].
  intros request fetched toolParams symbol Hm Hn Ha Hs.
  eexists. split.
  - now apply (handleMCPRequest_god_analysis request fetched toolParams symbol).
  - split; [reflexivity|]. apply engine_scoredWithFixedWeights.
Qed.

Lemma calculateSimpleTechnicals_keeps prices :
  (20 <= length prices)%nat ->
  keepsIndicatorsWithData (map snd prices)
                          (Engine.calculateSimpleTechnicals prices).
Proof.
  intros H.
  destruct (calculateSimpleTechnicals_long prices H)
    as (t & -> & H20 & Hrsi & Hbb & H50).
  repeat split; intros Hne; exists t; (split; [reflexivity|]);
    try assumption.
  intros E. apply H50 in E. apply Hne, length_zero_iff_nil.
  rewrite length_calculateSMA, length_map. lia.
Qed.

(** C7, refuted as stated.  For nineteen samples the 14-period RSI has four
    values and only the 20-period indicators lack data, yet the report of
    the analysis holds no technical indicator at all: the RSI is dropped
    with them. *)
Lemma C7_nineteen_samples_drop_every_indicator :
  length samples19 = 19%nat
  /\ length (Engine.calculateSMA (map snd samples19) 20) = 0%nat
  /\ length (Engine.calculateRSI (map snd samples19) 14) = 4%nat
  /\ (exists report,
        Engine.handleMCPRequest bitcoinRequest fetched19
        = Return (Engine.AnalysisResult report)
        /\ Engine.technical_indicators report = None
        /\ ~ keepsIndicatorsWithData
              (map snd samples19) (Engine.technical_indicators report)).
Proof.
  split; [reflexivity|]. split; [reflexivity|]. split; [reflexivity|].
  eexists. split; [reflexivity|]. split; [reflexivity|].
  intros (_ & _ & Hrsi & _).
  destruct Hrsi as (t & Ht & _).
  - intros E. apply (f_equal (@length R)) in E. discriminate E.
  - discriminate Ht.
Qed.

(** C7, amended.  A [god_analysis] call does not fail for lack of samples.
    With fewer than 20 samples [calculateSimpleTechnicals] returns [null]:
    every technical indicator is absent from the report, also those with
    enough samples, and the prediction is computed from the neutral
    technical score 0.5 with the price targets 'N/A'.  With 20 samples or
    more no indicator with a value is dropped: the 20-period average, the
    RSI and the Bollinger Bands are present, and the 50-period average is
    absent exactly below 50 samples. *)
Theorem C7_report_of_short_series :
  forall request fetched toolParams symbol,
    Engine.method request = "tools/call"%string ->
    Engine.name (Engine.params request) = "god_analysis"%string ->
    Engine.arguments (Engine.params request) = Some toolParams ->
    getProperty "symbol" toolParams = Some (JStr symbol) ->
    exists report,
      Engine.handleMCPRequest request fetched
      = Return (Engine.AnalysisResult report)
      /\ Engine.god_prediction report
         = Engine.generateGodPrediction
             (Engine.technical_indicators report)
             (Engine.marketData fetched)
             (Engine.newsSentiment fetched)
             (Engine.market_structure report)
      /\ ((length (historical_prices (Engine.marketData fetched)) < 20)%nat ->
          Engine.technical_indicators report = None
          /\ Engine.technicalScore (Engine.technical_indicators report) = 0.5
          /\ price_targets (Engine.god_prediction report)
             = {| support := VStr "N/A"; resistance := VStr "N/A" |})
      /\ ((20 <= length (historical_prices (Engine.marketData fetched)))%nat ->
          keepsIndicatorsWithData
            (map snd (historical_prices (Engine.marketData fetched)))
            (Engine.technical_indicators report)
          /\ exists t,
               Engine.technical_indicators report = Some t
               /\ Engine.sma_20 t <> None
               /\ Engine.rsi t <> None
               /\ Engine.bollinger_bands t <> None
               /\ (Engine.sma_50 t = None
                   <-> (length (historical_prices (Engine.marketData fetched))
                        < 50)%nat)).
Proof.
  intros request fetched toolParams symbol Hm Hn Ha Hs.
  eexists. split.
  - now apply (handleMCPRequest_god_analysis request fetched toolParams symbol).
  - cbn [Engine.god_prediction Engine.technical_indicators
         Engine.market_structure].
    split; [reflexivity|]. split.
    + intros Hlen. rewrite (calculateSimpleTechnicals_short _ Hlen).
      repeat split.
    + intros Hlen. split.
      * apply calculateSimpleTechnicals_keeps, Hlen.
      * apply calculateSimpleTechnicals_long, Hlen.
Qed.

(** The statement of C7 on the request for nineteen samples. *)
Lemma C7_report_of_short_series_witness :
  exists report,
    Engine.handleMCPRequest bitcoinRequest fetched19
    = Return (Engine.AnalysisResult report)
    /\ Engine.god_prediction report
       = Engine.generateGodPrediction
           (Engine.technical_indicators report)
           (Engine.marketData fetched19)
           (Engine.newsSentiment fetched19)
           (Engine.market_structure report)
    /\ ((length (historical_prices (Engine.marketData fetched19)) < 20)%nat ->
        Engine.technical_indicators report = None
        /\ Engine.technicalScore (Engine.technical_indicators report) = 0.5
        /\ price_targets (Engine.god_prediction report)
           = {| support := VStr "N/A"; resistance := VStr "N/A" |})
    /\ ((20 <= length (historical_prices (Engine.marketData fetched19)))%nat ->
        keepsIndicatorsWithData
          (map snd (historical_prices (Engine.marketData fetched19)))
          (Engine.technical_indicators report)
        /\ exists t,
             Engine.technical_indicators report = Some t
             /\ Engine.sma_20 t <> None
             /\ Engine.rsi t <> None
             /\ Engine.bollinger_bands t <> None
             /\ (Engine.sma_50 t = None
                 <-> (length (historical_prices (Engine.marketData fetched19))
                      < 50)%nat)).
Proof.
  apply (C7_report_of_short_series
           bitcoinRequest fetched19
           [("symbol"%string, JStr "bitcoin")] "bitcoin");
    reflexivity.
Defined.

(** ** Further properties of slices *)

Lemma firstn_skipn_cons {A : Type} (n a : nat) (l : list A) (d : A) :
  (a < length l)%nat ->
  firstn (S n) (skipn a l) = nth a l d :: firstn n (skipn (S a) l).
Proof.
  revert l. induction a as [|a IH]; intros l Hl.
  - destruct l as [|x l]; [cbn in Hl; lia | reflexivity].
  - destruct l as [|x l]; [cbn in Hl; lia|].
    cbn [nth]. rewrite !skipn_cons. apply IH. cbn in Hl. lia.
Qed.

Lemma slice_cons {A : Type} (a b : nat) (l : list A) (d : A) :
  (a < b)%nat -> (a < length l)%nat ->
  slice a b l = nth a l d :: slice (S a) b l.
Proof.
  intros Hab Hl. unfold slice.
  replace (b - a)%nat with (S (b - S a)) by lia.
  now apply firstn_skipn_cons.
Qed.

Lemma In_slice_incl {A : Type} (a b : nat) (l : list A) (x : A) :
  In x (slice a b l) -> In x l.
Proof.
  intros H. apply (In_slice _ _ _ x) in H as (k & _ & Hk & <-).
  now apply nth_In.
Qed.

(** ** Further properties of the relative strength index *)

Lemma nth_map_in {A B : Type} (f : A -> B) (l : list A) (i : nat) (d : A) (d' : B) :
  (i < length l)%nat -> nth i (map f l) d' = f (nth i l d).
Proof.
  intros Hi. rewrite (nth_indep _ d' (f d)) by (now rewrite length_map).
  apply map_nth.
Qed.

Lemma nth_priceChanges prices j :
  (j + 1 < length prices)%nat ->
  nth j (Engine.priceChanges prices) 0
  = nth (j + 1) prices 0 - nth j prices 0.
Proof.
  intros Hj. unfold Engine.priceChanges. rewrite nth_map_seq by lia.
  replace (1 + j)%nat with (j + 1)%nat by lia.
  replace (j + 1 - 1)%nat with j by lia. reflexivity.
Qed.

(** The value of position [k]: the loop body at [i = period + k], whose
    window holds the [period] changes from [k] on. *)
Lemma nth_error_calculateRSI prices period k v :
  nth_error (Engine.calculateRSI prices period) k = Some v ->
  (k + period + 1 < length prices)%nat
  /\ v = Engine.rsiAt (Engine.priceChanges prices) period (period + k)
  /\ Engine.rsiWindow (Engine.priceChanges prices) period (period + k)
     = slice k (k + period) (Engine.priceChanges prices).
Proof.
  unfold Engine.calculateRSI. intros H.
  rewrite nth_error_map, nth_error_seq, length_priceChanges in H.
  destruct (Nat.ltb_spec k (length prices - 1 - period)); [|discriminate].
  cbn in H. injection H as <-. split; [lia|]. split; [reflexivity|].
  unfold Engine.rsiWindow. f_equal; lia.
Qed.

(** A change of the window of position [k] is the step between two
    neighbouring prices from [k] to [k + period]. *)
Lemma In_window_of_position prices period k c :
  (k + period + 1 < length prices)%nat ->
  In c (slice k (k + period) (Engine.priceChanges prices)) ->
  exists j, (k <= j < k + period)%nat
            /\ c = nth (j + 1) prices 0 - nth j prices 0.
Proof.
  intros Hk Hc. apply (In_slice _ _ _ 0) in Hc as (j & Hj & Hlen & <-).
  rewrite length_priceChanges in Hlen.
  exists j. split; [assumption|]. apply nth_priceChanges. lia.
Qed.

Lemma window_of_position_In prices period k j :
  (k + period + 1 < length prices)%nat -> (k <= j < k + period)%nat ->
  In (nth (j + 1) prices 0 - nth j prices 0)
     (slice k (k + period) (Engine.priceChanges prices)).
Proof.
  intros Hk Hj. rewrite <- nth_priceChanges by lia.
  apply nth_In_slice; [assumption|]. rewrite length_priceChanges. lia.
Qed.

(** X3.  For a period of at least 1, [calculateRSI] returns one value for
    each price after the first [period + 1], and every value lies in
    [0, 100]. *)
Theorem rsi_count_and_range :
  forall prices period,
    (1 <= period)%nat ->
    length (Engine.calculateRSI prices period)
    = (length prices - (period + 1))%nat
    /\ forall v, In v (Engine.calculateRSI prices period) -> 0 <= v <= 100.
Proof.
  intros prices period Hp. split.
  - rewrite length_calculateRSI. lia.
  - intros v Hv. now apply (rsi_in_range prices period).
Qed.

Lemma rsi_count_and_range_witness :
  length (Engine.calculateRSI rising16 14) = (length rising16 - (14 + 1))%nat
  /\ forall v, In v (Engine.calculateRSI rising16 14) -> 0 <= v <= 100.
Proof.
  apply (rsi_count_and_range rising16 14). lia.
Defined.

Lemma slice_agree (c1 c2 : list R) (a b : nat) :
  length c1 = length c2 ->
  (forall j, (j < b)%nat -> nth j c1 0 = nth j c2 0) ->
  slice a b c1 = slice a b c2.
Proof.
  intros Hlen Hnth. apply (nth_ext _ _ 0 0).
  - now rewrite !length_slice, Hlen.
  - intros n Hn. rewrite length_slice in Hn.
    rewrite !nth_slice by lia. apply Hnth. lia.
Qed.

(** X4.  The latest price never enters the RSI: the last window ends one
    change before the last one, so replacing the last price of a series
    changes no RSI value. *)
Theorem rsi_ignores_latest_price :
  forall prices x y period,
    Engine.calculateRSI (prices ++ [x]) period
    = Engine.calculateRSI (prices ++ [y]) period.
Proof.
  intros prices x y period. unfold Engine.calculateRSI.
  rewrite !length_priceChanges, !length_app. cbn [length].
  apply map_ext_in. intros i Hi. apply in_seq in Hi.
  assert (Hw : Engine.rsiWindow (Engine.priceChanges (prices ++ [x])) period i
               = Engine.rsiWindow (Engine.priceChanges (prices ++ [y])) period i).
  { unfold Engine.rsiWindow. apply slice_agree.
    - rewrite !length_priceChanges, !length_app. reflexivity.
    - intros j Hj.
      rewrite !nth_priceChanges by (rewrite length_app; cbn [length]; lia).
      rewrite !(app_nth1 prices) by lia. reflexivity. }
  unfold Engine.rsiAt, Engine.avgGain, Engine.avgLoss. now rewrite Hw.
Qed.

(** X5.  A position whose window only falls has the RSI 0: when no price
    from [k] to [k + period] is above the one before it and one is below,
    the value of position [k] is 0. *)
Theorem rsi_of_falling_window :
  forall prices period k v,
    (1 <= period)%nat ->
    nth_error (Engine.calculateRSI prices period) k = Some v ->
    (forall j, (k <= j < k + period)%nat ->
               nth (j + 1) prices 0 <= nth j prices 0) ->
    (exists j, (k <= j < k + period)%nat
               /\ nth (j + 1) prices 0 < nth j prices 0) ->
    v = 0.
Proof.
  intros prices period k v Hp Hv Hall (j & Hj & Hfall).
  apply nth_error_calculateRSI in Hv as (Hk & -> & Hw).
  apply rsiAt_only_losses; [assumption | |]; rewrite Hw.
  - intros c Hc.
    apply In_window_of_position in Hc as (i & Hi & ->); [|assumption].
    specialize (Hall i Hi). lra.
  - exists (nth (j + 1) prices 0 - nth j prices 0). split; [|lra].
    now apply window_of_position_In.
Qed.

Lemma rsi_of_falling_window_witness :
  nth_error (Engine.calculateRSI [5; 4; 4; 3; 9] 2) 0 = Some 0.
Proof.
  destruct (nth_error (Engine.calculateRSI [5; 4; 4; 3; 9] 2) 0) as [v|] eqn:E;
    [|discriminate E].
  f_equal.
  apply (rsi_of_falling_window [5; 4; 4; 3; 9] 2 0 v); [lia | exact E | |].
  - intros j Hj. destruct j as [|[|j]]; [cbn; lra | cbn; lra | lia].
  - exists 0%nat. split; [lia | cbn; lra].
Defined.

(** X6.  A position whose window never falls, a flat one included, has the
    RSI 100 - 100/101: when no price from [k] to [k + period] is below the
    one before it, the value of position [k] is 10000/101. *)
Theorem rsi_of_window_without_fall :
  forall prices period k v,
    nth_error (Engine.calculateRSI prices period) k = Some v ->
    (forall j, (k <= j < k + period)%nat ->
               nth j prices 0 <= nth (j + 1) prices 0) ->
    v = 10000 / 101.
Proof.
  intros prices period k v Hv Hall.
  apply nth_error_calculateRSI in Hv as (Hk & -> & Hw).
  apply rsiAt_no_loss. rewrite Hw. intros c Hc.
  apply In_window_of_position in Hc as (i & Hi & ->); [|assumption].
  specialize (Hall i Hi). lra.
Qed.

Lemma rsi_of_window_without_fall_witness :
  nth_error (Engine.calculateRSI [7; 7; 7; 7] 2) 0 = Some (10000 / 101).
Proof.
  destruct (nth_error (Engine.calculateRSI [7; 7; 7; 7] 2) 0) as [v|] eqn:E;
    [|discriminate E].
  f_equal.
  apply (rsi_of_window_without_fall [7; 7; 7; 7] 2 0 v); [exact E|].
  intros j Hj. destruct j as [|[|j]]; [cbn; lra | cbn; lra | lia].
Defined.

(** ** Further properties of the support and resistance levels *)

Lemma In_sliceLast {A : Type} (k : nat) (l : list A) (x : A) :
  In x (sliceLast k l) -> In x l.
Proof.
  unfold sliceLast. intros H.
  rewrite <- (firstn_skipn (length l - k) l). apply in_or_app. now right.
Qed.

Lemma length_sliceLast {A : Type} (k : nat) (l : list A) :
  (length (sliceLast k l) <= k)%nat.
Proof. unfold sliceLast. rewrite length_skipn. lia. Qed.

Lemma flat_map_nil {A B : Type} (f : A -> list B) (l : list A) :
  (forall x, In x l -> f x = []) -> flat_map f l = [].
Proof.
  induction l as [|x l IH]; intros H; [reflexivity|]. cbn [flat_map].
  rewrite (H x (or_introl eq_refl)), IH; [reflexivity|].
  intros y Hy. apply H. now right.
Qed.

(** The levels pushed at an index by the simplified engine: one support
    level for a strict minimum, one resistance level for a strict maximum,
    nothing else. *)
Lemma engine_levelsAt_cases prices i lv :
  (Engine.lookback <= i)%nat ->
  In lv (Engine.levelsAt prices i) ->
  (lv = supportLevel (nth i prices 0)
   /\ strictMinimum prices Engine.lookback i)
  \/ (lv = resistanceLevel (nth i prices 0)
      /\ strictMaximum prices Engine.lookback i).
Proof.
  intros Hi Hin. unfold Engine.levelsAt in Hin.
  destruct (supportScan_strictMinimum prices i Hi) as [Hmin Hnmin].
  destruct (resistanceScan_strictMaximum prices i Hi) as [Hmax Hnmax].
  apply in_app_or in Hin as [Hin | Hin].
  - destruct (classic (strictMinimum prices Engine.lookback i)) as [H | H].
    + rewrite (Hmin H) in Hin. destruct Hin as [<- | []]. now left.
    + rewrite (Hnmin H) in Hin. contradiction.
  - destruct (classic (strictMaximum prices Engine.lookback i)) as [H | H].
    + rewrite (Hmax H) in Hin. destruct Hin as [<- | []]. now right.
    + rewrite (Hnmax H) in Hin. contradiction.
Qed.

(** X13.  The simplified engine returns at most 10 levels, and each of
    them is a strict extremum of the series: a level of strength 'medium'
    whose price is [prices[i]] for an index [10 <= i < n - 10], of type
    'support' where [prices[i]] is the strict minimum of
    [prices[i - 10 .. i + 10]] and of type 'resistance' where it is the
    strict maximum. *)
Theorem engine_levels_are_strict_extrema :
  forall prices,
    (length (Engine.calculateSupportResistance prices) <= 10)%nat
    /\ forall lv,
         In lv (Engine.calculateSupportResistance prices) ->
         exists i,
           (10 <= i)%nat /\ (i + 10 < length prices)%nat
           /\ price lv = nth i prices 0
           /\ strength lv = "medium"%string
           /\ ((type lv = "support"%string /\ strictMinimum prices 10 i)
               \/ (type lv = "resistance"%string
                   /\ strictMaximum prices 10 i)).
Proof.
  intros prices. split; [apply length_sliceLast|].
  intros lv Hin. apply In_sliceLast in Hin. unfold Engine.allLevels in Hin.
  apply in_flat_map in Hin as (i & Hi & Hlv). apply in_seq in Hi.
  unfold Engine.lookback in Hi. exists i.
  split; [lia|]. split; [lia|].
  apply engine_levelsAt_cases in Hlv; [|unfold Engine.lookback; lia].
  destruct Hlv as [[-> H] | [-> H]]; cbn [price strength type supportLevel
    resistanceLevel]; repeat split; auto.
Qed.

(** X14.  The simplified engine finds no level in a series of at most 20
    samples, and none in a series that never falls or never rises. *)
Theorem engine_no_level_without_turn :
  forall prices,
    (length prices <= 20)%nat \/ nonDecreasing prices \/ nonIncreasing prices ->
    Engine.calculateSupportResistance prices = [].
Proof.
  intros prices H. unfold Engine.calculateSupportResistance.
  replace (Engine.allLevels prices) with (@nil Level); [reflexivity|].
  symmetry. unfold Engine.allLevels. apply flat_map_nil.
  intros i Hi. apply in_seq in Hi. unfold Engine.lookback in Hi.
  destruct (Engine.levelsAt prices i) as [|lv rest] eqn:E; [reflexivity|].
  exfalso.
  assert (Hin : In lv (Engine.levelsAt prices i)) by (rewrite E; now left).
  apply engine_levelsAt_cases in Hin; [|unfold Engine.lookback; lia].
  unfold Engine.lookback in Hin.
  destruct H as [H | [H | H]]; [lia | |].
  - destruct Hin as [[_ Hmin] | [_ Hmax]].
    + specialize (Hmin (i - 1)%nat ltac:(lia) ltac:(lia)).
      specialize (H (i - 1)%nat ltac:(lia)).
      replace (i - 1 + 1)%nat with i in H by lia. lra.
    + specialize (Hmax (i + 1)%nat ltac:(lia) ltac:(lia)).
      specialize (H i ltac:(lia)). lra.
  - destruct Hin as [[_ Hmin] | [_ Hmax]].
    + specialize (Hmin (i + 1)%nat ltac:(lia) ltac:(lia)).
      specialize (H i ltac:(lia)). lra.
    + specialize (Hmax (i - 1)%nat ltac:(lia) ltac:(lia)).
      specialize (H (i - 1)%nat ltac:(lia)).
      replace (i - 1 + 1)%nat with i in H by lia. lra.
Qed.

Lemma engine_no_level_without_turn_witness :
  Engine.calculateSupportResistance rising16 = [].
Proof.
  apply (engine_no_level_without_turn rising16). left. cbn. lia.
Defined.

(** The series [zigzag41] falls to index 10, rises to index 20 and falls
    to index 30: a strict minimum at 10 and at 30, a strict maximum at
    20. *)
Lemma zigzag41_strictMinimum_10 : strictMinimum zigzag41 10 10.
Proof.
  intros j Hj Hne. unfold zigzag41.
  do 21 (destruct j as [|j]; [cbn; lra || lia|]). lia.
Qed.

Lemma zigzag41_strictMinimum_30 : strictMinimum zigzag41 10 30.
Proof.
  intros j Hj Hne. unfold zigzag41.
  do 20 (destruct j as [|j]; [lia|]).
  do 21 (destruct j as [|j]; [cbn; lra || lia|]). lia.
Qed.

Lemma zigzag41_strictMaximum_20 : strictMaximum zigzag41 10 20.
Proof.
  intros j Hj Hne. unfold zigzag41.
  do 10 (destruct j as [|j]; [lia|]).
  do 21 (destruct j as [|j]; [cbn; lra || lia|]). lia.
Qed.

(** X15.  In the simplified engine no index gets both a support and a
    resistance level, and two indices that get a level of the same type
    are more than 10 samples apart. *)
Theorem engine_levels_are_spaced :
  forall prices,
    (forall i,
       (10 <= i)%nat -> (i + 10 < length prices)%nat ->
       ~ (In (supportLevel (nth i prices 0)) (Engine.levelsAt prices i)
          /\ In (resistanceLevel (nth i prices 0)) (Engine.levelsAt prices i)))
    /\ (forall i i',
          (10 <= i)%nat -> (i < i')%nat -> (i' + 10 < length prices)%nat ->
          (In (supportLevel (nth i prices 0)) (Engine.levelsAt prices i) ->
           In (supportLevel (nth i' prices 0)) (Engine.levelsAt prices i') ->
           (i + 10 < i')%nat)
          /\ (In (resistanceLevel (nth i prices 0)) (Engine.levelsAt prices i) ->
              In (resistanceLevel (nth i' prices 0))
                 (Engine.levelsAt prices i') ->
              (i + 10 < i')%nat)).
Proof.
  intros prices. split.
  - intros i Hi Hlen.
    destruct (engine_detectsStrictExtrema prices i) as [Hs Hr];
      [unfold Engine.lookback; lia | unfold Engine.lookback; lia |].
    unfold Engine.lookback in *.
    intros [H1 H2]. apply Hs in H1. apply Hr in H2.
    specialize (H1 (i + 1)%nat ltac:(lia) ltac:(lia)).
    specialize (H2 (i + 1)%nat ltac:(lia) ltac:(lia)). lra.
  - intros i i' Hi Hlt Hlen.
    destruct (engine_detectsStrictExtrema prices i) as [Hs Hr];
      [unfold Engine.lookback; lia | unfold Engine.lookback; lia |].
    destruct (engine_detectsStrictExtrema prices i') as [Hs' Hr'];
      [unfold Engine.lookback; lia | unfold Engine.lookback; lia |].
    unfold Engine.lookback in *.
    split.
    + intros H1 H2. apply Hs in H1. apply Hs' in H2.
      destruct (Nat.le_gt_cases i' (i + 10)) as [Hnear|]; [|assumption].
      specialize (H1 i' ltac:(lia) ltac:(lia)).
      specialize (H2 i ltac:(lia) ltac:(lia)). lra.
    + intros H1 H2. apply Hr in H1. apply Hr' in H2.
      destruct (Nat.le_gt_cases i' (i + 10)) as [Hnear|]; [|assumption].
      specialize (H1 i' ltac:(lia) ltac:(lia)).
      specialize (H2 i ltac:(lia) ltac:(lia)). lra.
Qed.

(** The statement of X15 on [zigzag41]: the support levels of the indices
    10 and 30 are 20 samples apart, and the index 20, which gets a
    resistance level, gets no support level. *)
Lemma engine_levels_are_spaced_witness :
  In (supportLevel (nth 10 zigzag41 0)) (Engine.levelsAt zigzag41 10)
  /\ In (supportLevel (nth 30 zigzag41 0)) (Engine.levelsAt zigzag41 30)
  /\ In (resistanceLevel (nth 20 zigzag41 0)) (Engine.levelsAt zigzag41 20)
  /\ (10 + 10 < 30)%nat
  /\ ~ In (supportLevel (nth 20 zigzag41 0)) (Engine.levelsAt zigzag41 20).
Proof.
  assert (Hlen : length zigzag41 = 41%nat) by reflexivity.
  assert (Hlevels : forall i, (10 <= i)%nat -> (i + 10 < 41)%nat ->
            (strictMinimum zigzag41 10 i ->
             In (supportLevel (nth i zigzag41 0)) (Engine.levelsAt zigzag41 i))
            /\ (strictMaximum zigzag41 10 i ->
                In (resistanceLevel (nth i zigzag41 0))
                   (Engine.levelsAt zigzag41 i))).
  { intros i Hi Hi'.
    destruct (engine_detectsStrictExtrema zigzag41 i) as [Hs Hr];
      [exact Hi | rewrite Hlen; exact Hi' |].
    split; [apply Hs | apply Hr]. }
  assert (H10 : In (supportLevel (nth 10 zigzag41 0))
                   (Engine.levelsAt zigzag41 10)).
  { apply (Hlevels 10%nat); [lia | lia | exact zigzag41_strictMinimum_10]. }
  assert (H30 : In (supportLevel (nth 30 zigzag41 0))
                   (Engine.levelsAt zigzag41 30)).
  { apply (Hlevels 30%nat); [lia | lia | exact zigzag41_strictMinimum_30]. }
  assert (H20 : In (resistanceLevel (nth 20 zigzag41 0))
                   (Engine.levelsAt zigzag41 20)).
  { apply (Hlevels 20%nat); [lia | lia | exact zigzag41_strictMaximum_20]. }
  destruct (engine_levels_are_spaced zigzag41) as [Hboth Hspaced].
  split; [exact H10|]. split; [exact H30|]. split; [exact H20|]. split.
  - assert (H1 : (10 <= 10)%nat) by lia.
    assert (H2 : (10 < 30)%nat) by lia.
    assert (H3 : (30 + 10 < length zigzag41)%nat) by (rewrite Hlen; lia).
    destruct (Hspaced 10%nat 30%nat H1 H2 H3) as [Hsupport _].
    exact (Hsupport H10 H30).
  - assert (H1 : (10 <= 20)%nat) by lia.
    assert (H3 : (20 + 10 < length zigzag41)%nat) by (rewrite Hlen; lia).
    intros Hs. exact (Hboth 20%nat H1 H3 (conj Hs H20)).
Defined.

Lemma slice_split {A : Type} (a m b : nat) (l : list A) :
  (a <= m <= b)%nat -> slice a b l = slice a m l ++ slice m b l.
Proof.
  intros H. unfold slice.
  replace (b - a)%nat with ((m - a) + (b - m))%nat by lia.
  rewrite <- (firstn_skipn (m - a) (firstn (m - a + (b - m)) (skipn a l))).
  rewrite firstn_firstn, Nat.min_l by lia. f_equal.
  rewrite skipn_firstn_comm, skipn_skipn.
  replace (m - a + (b - m) - (m - a))%nat with (b - m)%nat by lia.
  replace (m - a + a)%nat with m by lia. reflexivity.
Qed.

(** Three neighbouring samples of a window that pass a test are counted. *)
Lemma filter_counts_three (f : R -> bool) (a m b : nat) (l : list R) :
  (a <= m)%nat -> (m + 3 <= b)%nat -> (b <= length l)%nat ->
  f (nth m l 0) = true -> f (nth (m + 1) l 0) = true ->
  f (nth (m + 2) l 0) = true ->
  (3 <= length (filter f (slice a b l)))%nat.
Proof.
  intros Ham Hmb Hbl H0 H1 H2.
  rewrite (slice_split a m b) by lia.
  rewrite filter_app, length_app.
  rewrite (slice_cons m b l 0) by lia.
  rewrite (slice_cons (S m) b l 0) by lia.
  rewrite (slice_cons (S (S m)) b l 0) by lia.
  replace (S m) with (m + 1)%nat by lia.
  replace (S (m + 1)) with (m + 2)%nat by lia.
  cbn [filter]. rewrite H0, H1, H2. cbn [length]. lia.
Qed.

Lemma increasing_lt prices i j :
  strictlyIncreasing prices -> (i < j)%nat -> (j < length prices)%nat ->
  nth i prices 0 < nth j prices 0.
Proof.
  intros Hinc Hij Hj. induction j as [|j IH]; [lia|].
  destruct (Nat.eq_dec i j) as [-> | Hne].
  - specialize (Hinc j). replace (j + 1)%nat with (S j) in Hinc by lia.
    apply Hinc. lia.
  - assert (nth i prices 0 < nth j prices 0) by (apply IH; lia).
    specialize (Hinc j). replace (j + 1)%nat with (S j) in Hinc by lia.
    assert (nth j prices 0 < nth (S j) prices 0) by (apply Hinc; lia). lra.
Qed.

Lemma decreasing_lt prices i j :
  strictlyDecreasing prices -> (i < j)%nat -> (j < length prices)%nat ->
  nth j prices 0 < nth i prices 0.
Proof.
  intros Hdec Hij Hj. induction j as [|j IH]; [lia|].
  destruct (Nat.eq_dec i j) as [-> | Hne].
  - specialize (Hdec j). replace (j + 1)%nat with (S j) in Hdec by lia.
    apply Hdec. lia.
  - assert (nth j prices 0 < nth i prices 0) by (apply IH; lia).
    specialize (Hdec j). replace (j + 1)%nat with (S j) in Hdec by lia.
    assert (nth (S j) prices 0 < nth j prices 0) by (apply Hdec; lia). lra.
Qed.

(** X16.  The engine of [mcp-gateway.js] returns at most 10 levels, none
    for a series of at most 40 samples and none for a strictly rising or
    strictly falling series. *)
Theorem gateway_no_level_in_a_trend :
  forall prices,
    (length (Gateway.calculateSupportResistance prices) <= 10)%nat
    /\ ((length prices <= 40)%nat \/ strictlyIncreasing prices
        \/ strictlyDecreasing prices ->
        Gateway.calculateSupportResistance prices = []).
Proof.
  intros prices. split; [apply length_sliceLast|].
  intros H. unfold Gateway.calculateSupportResistance.
  replace (Gateway.allLevels prices) with (@nil Level); [reflexivity|].
  symmetry. unfold Gateway.allLevels. apply flat_map_nil.
  intros i Hi. apply in_seq in Hi. unfold Gateway.lookback in Hi.
  destruct H as [H | [H | H]]; [lia | |].
  - assert (Hs : Gateway.isSupport prices i = false).
    { unfold Gateway.isSupport. apply Nat.leb_gt.
      unfold Gateway.subset, Gateway.lookback.
      apply (filter_counts_three _ (i - 20) (i - 20) (i + 20)); try lia;
        apply ltb_true; apply increasing_lt; (assumption || lia). }
    assert (Hr : Gateway.isResistance prices i = false).
    { unfold Gateway.isResistance. apply Nat.leb_gt.
      unfold Gateway.subset, Gateway.lookback.
      apply (filter_counts_three _ (i - 20) (i + 1) (i + 20)); try lia;
        unfold gtb; apply ltb_true; apply increasing_lt; (assumption || lia). }
    unfold Gateway.levelsAt. now rewrite Hs, Hr.
  - assert (Hs : Gateway.isSupport prices i = false).
    { unfold Gateway.isSupport. apply Nat.leb_gt.
      unfold Gateway.subset, Gateway.lookback.
      apply (filter_counts_three _ (i - 20) (i + 1) (i + 20)); try lia;
        apply ltb_true; apply decreasing_lt; (assumption || lia). }
    assert (Hr : Gateway.isResistance prices i = false).
    { unfold Gateway.isResistance. apply Nat.leb_gt.
      unfold Gateway.subset, Gateway.lookback.
      apply (filter_counts_three _ (i - 20) (i - 20) (i + 20)); try lia;
        unfold gtb; apply ltb_true; apply decreasing_lt; (assumption || lia). }
    unfold Gateway.levelsAt. now rewrite Hs, Hr.
Qed.

(** ** Further properties of the composite prediction *)

(** The technical score in terms of the latest RSI value. *)
Lemma technicalScore_of_rsi (latestRSI : option R) (ts : R) :
  ts = match latestRSI with
       | Some r => if truthy r
                   then if ltb r 30 then 0.8 else if gtb r 70 then 0.2 else 0.5
                   else 0.5
       | None => 0.5
       end ->
  (oversold latestRSI /\ ~ overbought latestRSI /\ ts = 0.8)
  \/ (overbought latestRSI /\ ~ oversold latestRSI /\ ts = 0.2)
  \/ (~ oversold latestRSI /\ ~ overbought latestRSI /\ ts = 0.5).
Proof.
  intros ->. unfold oversold, overbought.
  destruct latestRSI as [r|].
  - unfold truthy. destruct (eqb r 0) eqn:E0; cbn [negb].
    + apply eqb_true in E0. right. right. repeat split; try reflexivity.
      * intros (x & Hx & Hne & _). injection Hx as <-. contradiction.
      * intros (x & Hx & Hgt). injection Hx as <-. lra.
    + apply eqb_false in E0. destruct (ltb r 30) eqn:E1.
      * apply ltb_true in E1. left. repeat split; try reflexivity.
        -- exists r. auto.
        -- intros (x & Hx & Hgt). injection Hx as <-. lra.
      * apply ltb_false in E1. unfold gtb. destruct (ltb 70 r) eqn:E2.
        -- apply ltb_true in E2. right. left. repeat split; try reflexivity.
           ++ exists r. auto.
           ++ intros (x & Hx & _ & Hlt). injection Hx as <-. lra.
        -- apply ltb_false in E2. right. right.
           repeat split; try reflexivity.
           ++ intros (x & Hx & _ & Hlt). injection Hx as <-. lra.
           ++ intros (x & Hx & Hgt). injection Hx as <-. lra.
  - right. right. repeat split; try reflexivity.
    + intros (x & Hx & _). discriminate.
    + intros (x & Hx & _). discriminate.
Qed.

Lemma fundamentalScore_of_liquidity (m : MarketStructure) :
  (liquidityScore m > 0.1 /\ Engine.fundamentalScore m = 0.7)
  \/ (~ liquidityScore m > 0.1 /\ Engine.fundamentalScore m = 0.4).
Proof.
  unfold Engine.fundamentalScore, gtb.
  destruct (ltb 0.1 (liquidityScore m)) eqn:E.
  - apply ltb_true in E. left. split; [lra | reflexivity].
  - apply ltb_false in E. right. split; [lra | reflexivity].
Qed.

Lemma sentimentScore_of_score (s : Sentiment) :
  (score s > 0 /\ Engine.sentimentScore s = 0.7)
  \/ (~ score s > 0 /\ Engine.sentimentScore s = 0.3).
Proof.
  unfold Engine.sentimentScore, gtb.
  destruct (ltb 0 (score s)) eqn:E.
  - apply ltb_true in E. left. split; [lra | reflexivity].
  - apply ltb_false in E. right. split; [lra | reflexivity].
Qed.

(** The risk and the direction for any final score built with the weights
    0.4, 0.3, 0.2 and 0.1 from the four sub-scores. *)
Lemma riskAndDirection_of_scores
    (latestRSI : option R) (s : Sentiment) (m : MarketStructure)
    (ts fs : R) (tf : string) (pt : PriceTargets) :
  ((oversold latestRSI /\ ~ overbought latestRSI /\ ts = 0.8)
   \/ (overbought latestRSI /\ ~ oversold latestRSI /\ ts = 0.2)
   \/ (~ oversold latestRSI /\ ~ overbought latestRSI /\ ts = 0.5)) ->
  fs = ts * 0.4 + Engine.fundamentalScore m * 0.3
       + Engine.sentimentScore s * 0.2 + Engine.structureScore m * 0.1 ->
  riskAndDirection latestRSI s m
    (mkPrediction
       (if gtb fs 0.6 then "BULLISH"
        else if ltb fs 0.4 then "BEARISH" else "NEUTRAL")
       (Rabs (fs - 0.5) * 200) tf pt
       (if gtb fs 0.7 || ltb fs 0.3 then "HIGH" else "MEDIUM")).
Proof.
  intros Hts ->. unfold riskAndDirection.
  cbn [risk_level direction confidence].
  destruct (fundamentalScore_of_liquidity m) as [[Hf ->] | [Hf ->]];
  destruct (sentimentScore_of_score s) as [[Hs ->] | [Hs ->]];
  destruct (structureScore_values m) as [-> | ->];
  destruct Hts as [(Hos & Hob & ->) | [(Hob & Hos & ->) | (Hos & Hob & ->)]];
  unfold gtb, ltb;
  repeat match goal with
         | |- context [Rlt_dec ?x ?y] =>
             destruct (Rlt_dec x y); try lra
         end;
  cbn [orb];
  repeat split; intros; try discriminate; try tauto; try reflexivity;
    try (unfold Rabs; match goal with
                      | |- context [Rcase_abs ?x] => destruct (Rcase_abs x)
                      end; lra).
Qed.

(** X17.  The two engines predict alike: for the same latest RSI value and
    the same latest Bollinger Bands, [generateGodPrediction] of
    [mcp-gateway.js] returns what the one of the simplified engine
    returns. *)
Theorem engines_predict_alike :
  forall (t : Engine.Technicals) (g : Gateway.Technicals)
         fundamentals sentiment marketStructure,
    Engine.rsi t = lastElement (Gateway.rsi g) ->
    Engine.bollinger_bands t = lastElement (Gateway.bb g) ->
    Gateway.generateGodPrediction g fundamentals sentiment marketStructure
    = Engine.generateGodPrediction
        (Some t) fundamentals sentiment marketStructure.
Proof.
  intros t g fundamentals sentiment marketStructure Hrsi Hbb.
  assert (Hts : Gateway.technicalScore g = Engine.technicalScore (Some t)).
  { unfold Gateway.technicalScore, Gateway.latestRSI, Engine.technicalScore.
    rewrite Hrsi. destruct (lastElement (Gateway.rsi g)) as [r|].
    - destruct (truthy r); [reflexivity|].
      replace (ltb 50 30) with false by (symmetry; apply ltb_false; lra).
      unfold gtb.
      replace (ltb 70 50) with false by (symmetry; apply ltb_false; lra).
      reflexivity.
    - replace (ltb 50 30) with false by (symmetry; apply ltb_false; lra).
      unfold gtb.
      replace (ltb 70 50) with false by (symmetry; apply ltb_false; lra).
      reflexivity. }
  assert (Hpt : forall side,
             Gateway.priceTarget g side = Engine.priceTarget (Some t) side).
  { intros side. unfold Gateway.priceTarget, Engine.priceTarget.
    now rewrite Hbb. }
  unfold Gateway.generateGodPrediction, Engine.generateGodPrediction,
    Gateway.finalScore, Engine.finalScore.
  rewrite Hts, !Hpt. reflexivity.
Qed.

Lemma engines_predict_alike_witness :
  Gateway.generateGodPrediction
    (Gateway.mkTechnicals [40; 25] [mkBand 12 10 8])
    marketData19 (mkSentiment "neutral" 0.1 [])
    (Engine.marketStructureAnalysis marketData19)
  = Engine.generateGodPrediction
      (Some (Engine.mkTechnicals None None (Some 25) (Some (mkBand 12 10 8))
                                 [] 0 0))
      marketData19 (mkSentiment "neutral" 0.1 [])
      (Engine.marketStructureAnalysis marketData19).
Proof.
  apply (engines_predict_alike
           (Engine.mkTechnicals None None (Some 25) (Some (mkBand 12 10 8))
                                [] 0 0)
           (Gateway.mkTechnicals [40; 25] [mkBand 12 10 8]));
    reflexivity.
Defined.

(** X18.  The risk and the direction in terms of the inputs, in both
    engines: the risk is HIGH exactly when the latest RSI value is there,
    is not 0 and is below 30, the liquidity score is above 0.1 and the
    sentiment score is above 0, and the prediction is then BULLISH with a
    confidence of at least 44; a BEARISH prediction needs an RSI above 70,
    an RSI above 70 is never BULLISH and an RSI below 30 never BEARISH. *)
Theorem risk_and_direction_of_inputs :
  (forall technicals fundamentals sentiment marketStructure,
     riskAndDirection
       (engineRSI technicals) sentiment marketStructure
       (Engine.generateGodPrediction
          technicals fundamentals sentiment marketStructure))
  /\ (forall technicals fundamentals sentiment marketStructure,
        riskAndDirection
          (lastElement (Gateway.rsi technicals)) sentiment marketStructure
          (Gateway.generateGodPrediction
             technicals fundamentals sentiment marketStructure)).
Proof.
  split; intros technicals fundamentals sentiment marketStructure.
  - unfold Engine.generateGodPrediction.
    apply (riskAndDirection_of_scores
             _ _ _ (Engine.technicalScore technicals)
             (Engine.finalScore technicals sentiment marketStructure));
      [|reflexivity].
    apply technicalScore_of_rsi. unfold Engine.technicalScore, engineRSI.
    destruct technicals as [t|]; reflexivity.
  - unfold Gateway.generateGodPrediction.
    apply (riskAndDirection_of_scores
             _ _ _ (Gateway.technicalScore technicals)
             (Gateway.finalScore technicals sentiment marketStructure));
      [|reflexivity].
    apply technicalScore_of_rsi.
    unfold Gateway.technicalScore, Gateway.latestRSI.
    destruct (lastElement (Gateway.rsi technicals)) as [r|].
    + destruct (truthy r); [reflexivity|].
      replace (ltb 50 30) with false by (symmetry; apply ltb_false; lra).
      unfold gtb.
      replace (ltb 70 50) with false by (symmetry; apply ltb_false; lra).
      reflexivity.
    + replace (ltb 50 30) with false by (symmetry; apply ltb_false; lra).
      unfold gtb.
      replace (ltb 70 50) with false by (symmetry; apply ltb_false; lra).
      reflexivity.
Qed.

Lemma priceChanges_nonDecreasing prices c :
  nonDecreasing prices -> In c (Engine.priceChanges prices) -> 0 <= c.
Proof.
  intros Hinc Hc. unfold Engine.priceChanges in Hc.
  apply in_map_iff in Hc as (i & <- & Hi). apply in_seq in Hi.
  specialize (Hinc (i - 1)%nat).
  replace (i - 1 + 1)%nat with i in Hinc by lia.
  assert (nth (i - 1) prices 0 <= nth i prices 0) by (apply Hinc; lia). lra.
Qed.

Lemma latest_rsi_nonDecreasing prices period :
  nonDecreasing prices -> (period + 2 <= length prices)%nat ->
  lastElement (Engine.calculateRSI prices period) = Some (10000 / 101).
Proof.
  intros Hinc Hlen.
  destruct (lastElement_some (Engine.calculateRSI prices period)) as (v & Hv).
  - intros E. apply (f_equal (@length R)) in E.
    rewrite length_calculateRSI in E. cbn in E. lia.
  - rewrite Hv. f_equal. apply lastElement_In in Hv.
    apply In_calculateRSI in Hv as (i & _ & ->).
    apply rsiAt_no_loss. intros c Hc.
    eapply priceChanges_nonDecreasing; [eassumption|].
    eapply rsiWindow_incl; eassumption.
Qed.

Lemma calculateSimpleTechnicals_rsi prices :
  (20 <= length prices)%nat ->
  exists t, Engine.calculateSimpleTechnicals prices = Some t
            /\ Engine.rsi t
               = lastElement (Engine.calculateRSI (map snd prices) 14)
            /\ Engine.bollinger_bands t
               = lastElement
                   (Engine.calculateBollingerBands (map snd prices) 20 2).
Proof.
  intros H. unfold Engine.calculateSimpleTechnicals.
  rewrite length_map.
  replace (length prices <? 20)%nat with false
    by (symmetry; apply Nat.ltb_ge; assumption).
  eexists. split; [reflexivity|]. split; reflexivity.
Qed.

(** X19.  A series that only fell is scored as neutral: for at least 20
    samples with strictly falling prices the latest RSI value is 0, which
    [generateGodPrediction] reads as no RSI, so the technical score is the
    neutral 0.5 and not the 0.8 of an RSI below 30. *)
Theorem fallen_series_is_scored_neutral :
  forall prices,
    (20 <= length prices)%nat ->
    strictlyDecreasing (map snd prices) ->
    exists t,
      Engine.calculateSimpleTechnicals prices = Some t
      /\ Engine.rsi t = Some 0
      /\ Engine.technicalScore (Some t) = 0.5
      /\ ~ oversold (engineRSI (Some t)).
Proof.
  intros prices Hlen Hdec.
  destruct (calculateSimpleTechnicals_rsi prices Hlen) as (t & Ht & Hrsi & _).
  exists t. split; [assumption|].
  rewrite latest_rsi_decreasing in Hrsi;
    [|lia | assumption | rewrite length_map; lia].
  split; [assumption|]. split.
  - unfold Engine.technicalScore. rewrite Hrsi. unfold truthy.
    replace (eqb 0 0) with true by (symmetry; now apply eqb_true).
    reflexivity.
  - cbn [engineRSI]. rewrite Hrsi. intros (r & Hr & Hne & _).
    injection Hr as <-. contradiction.
Qed.

(** X20.  A series that never fell is never predicted BULLISH: for at
    least 20 samples whose prices never fall the latest RSI value is
    10000/101, above 70, so the technical score is 0.2 and the prediction
    is not BULLISH, whatever the sentiment and the market structure. *)
Theorem rising_series_is_never_bullish :
  forall prices fundamentals sentiment marketStructure,
    (20 <= length prices)%nat ->
    nonDecreasing (map snd prices) ->
    Engine.technicalScore (Engine.calculateSimpleTechnicals prices) = 0.2
    /\ direction (Engine.generateGodPrediction
                    (Engine.calculateSimpleTechnicals prices)
                    fundamentals sentiment marketStructure)
       <> "BULLISH"%string.
Proof.
  intros prices fundamentals sentiment marketStructure Hlen Hinc.
  destruct (calculateSimpleTechnicals_rsi prices Hlen) as (t & Ht & Hrsi & _).
  rewrite latest_rsi_nonDecreasing in Hrsi;
    [|assumption | rewrite length_map; lia].
  assert (Hob : overbought (engineRSI (Some t)))
    by (exists (10000 / 101); cbn [engineRSI]; split; [assumption | lra]).
  rewrite Ht. split.
  - unfold Engine.technicalScore. rewrite Hrsi. unfold truthy.
    replace (eqb (10000 / 101) 0) with false
      by (symmetry; apply eqb_false; lra).
    replace (ltb (10000 / 101) 30) with false
      by (symmetry; apply ltb_false; lra).
    unfold gtb.
    replace (ltb 70 (10000 / 101)) with true
      by (symmetry; apply ltb_true; lra).
    reflexivity.
  - pose proof (riskAndDirection_of_scores (engineRSI (Some t)) sentiment
                  marketStructure (Engine.technicalScore (Some t))
                  (Engine.finalScore (Some t) sentiment marketStructure)
                  "24h-7d"
                  {| support := Engine.priceTarget (Some t) lower;
                     resistance := Engine.priceTarget (Some t) upper |}) as H.
    destruct H as (_ & _ & _ & Hnb & _);
      [apply technicalScore_of_rsi; reflexivity | reflexivity |].
    now apply Hnb.
Qed.

(** X21.  The price targets are the latest Bollinger Bands: when the
    prediction computed from [calculateSimpleTechnicals] holds a number as
    support target and a number as resistance target, these are the lower
    and the upper band of the last window of 20 prices, and the support is
    not above the resistance. *)
Theorem price_targets_are_latest_bands :
  forall prices fundamentals sentiment marketStructure lo hi,
    support (price_targets
               (Engine.generateGodPrediction
                  (Engine.calculateSimpleTechnicals prices)
                  fundamentals sentiment marketStructure)) = VNum lo ->
    resistance (price_targets
                  (Engine.generateGodPrediction
                     (Engine.calculateSimpleTechnicals prices)
                     fundamentals sentiment marketStructure)) = VNum hi ->
    exists b,
      lastElement (Engine.calculateBollingerBands (map snd prices) 20 2)
      = Some b
      /\ lo = lower b /\ hi = upper b /\ lo <= hi.
Proof.
  intros prices fundamentals sentiment marketStructure lo hi.
  cbn [Engine.generateGodPrediction price_targets support resistance].
  unfold Engine.priceTarget.
  destruct (Engine.calculateSimpleTechnicals prices) as [t|] eqn:Ht;
    [|discriminate].
  destruct (Nat.lt_ge_cases (length prices) 20) as [Hshort | Hlong].
  - rewrite calculateSimpleTechnicals_short in Ht by assumption. discriminate.
  - destruct (calculateSimpleTechnicals_rsi prices Hlong) as (t' & Ht' & _ & Hbb).
    rewrite Ht in Ht'. injection Ht' as <-. rewrite Hbb.
    destruct (lastElement _) as [b|] eqn:Eb; [|discriminate].
    intros Hlo Hhi. exists b. split; [reflexivity|].
    destruct (truthy (lower b)); [|discriminate].
    destruct (truthy (upper b)); [|discriminate].
    injection Hlo as <-. injection Hhi as <-.
    split; [reflexivity|]. split; [reflexivity|].
    unfold lastElement in Eb.
    apply nth_error_calculateBollingerBands in Eb as (_ & ->).
    cbn [upper lower].
    pose proof (windowStdDev_nonneg (map snd prices) 20
                  (length (Engine.calculateBollingerBands (map snd prices) 20 2)
                   - 1)).
    lra.
Qed.

Lemma falling20_decreasing : strictlyDecreasing (map snd falling20).
Proof.
  intros i Hi. unfold falling20 in *.
  rewrite map_map in *. cbn [snd] in *.
  rewrite length_map, length_seq in Hi.
  rewrite !nth_map_seq by lia.
  cbn [Nat.add]. rewrite plus_INR. cbn [INR]. lra.
Qed.

Lemma rising20_nonDecreasing : nonDecreasing (map snd rising20).
Proof.
  intros i Hi. unfold rising20 in *.
  rewrite map_map in *. cbn [snd] in *.
  rewrite length_map, length_seq in Hi.
  rewrite !nth_map_seq by lia.
  cbn [Nat.add]. rewrite plus_INR. cbn [INR]. lra.
Qed.

Lemma fallen_series_is_scored_neutral_witness :
  exists t,
    Engine.calculateSimpleTechnicals falling20 = Some t
    /\ Engine.rsi t = Some 0
    /\ Engine.technicalScore (Some t) = 0.5
    /\ ~ oversold (engineRSI (Some t)).
Proof.
  apply (fallen_series_is_scored_neutral falling20).
  - cbn. lia.
  - exact falling20_decreasing.
Defined.

Lemma rising_series_is_never_bullish_witness :
  Engine.technicalScore (Engine.calculateSimpleTechnicals rising20) = 0.2
  /\ direction (Engine.generateGodPrediction
                  (Engine.calculateSimpleTechnicals rising20)
                  marketData19 (mkSentiment "bullish" 0.9 [])
                  (Engine.marketStructureAnalysis marketData19))
     <> "BULLISH"%string.
Proof.
  apply (rising_series_is_never_bullish rising20).
  - cbn. lia.
  - exact rising20_nonDecreasing.
Defined.

Lemma flat20_bands :
  lastElement (Engine.calculateBollingerBands (map snd flat20) 20 2)
  = Some (mkBand 5 5 5).
Proof.
  assert (Hconst : forall p, In p (map snd flat20) -> p = 5).
  { intros p Hp. unfold flat20 in Hp. rewrite map_map in Hp.
    apply in_map_iff in Hp as (i & <- & _). reflexivity. }
  assert (Hi : (0 < length (Engine.calculateSMA (map snd flat20) 20))%nat)
    by (cbn; lia).
  assert (Hsd : windowStdDev (map snd flat20) 20 0 = 0).
  { apply windowStdDev_zero_iff; [lia | assumption|].
    intros x y Hx Hy. unfold Engine.bbSubset in *.
    apply In_slice_incl in Hx. apply In_slice_incl in Hy.
    now rewrite (Hconst x Hx), (Hconst y Hy). }
  assert (Hmean : nth 0 (Engine.calculateSMA (map snd flat20) 20) 0 = 5).
  { rewrite nth_calculateSMA by (lia || assumption).
    rewrite (sum_constant _ 5).
    - rewrite length_bbSubset by (lia || assumption). cbn [INR]. lra.
    - intros x Hx. unfold Engine.bbSubset in Hx.
      apply In_slice_incl in Hx. now apply Hconst. }
  change (lastElement (Engine.calculateBollingerBands (map snd flat20) 20 2))
    with (Some {| upper := nth 0 (Engine.calculateSMA (map snd flat20) 20) 0
                           + windowStdDev (map snd flat20) 20 0 * 2;
                  middle := nth 0 (Engine.calculateSMA (map snd flat20) 20) 0;
                  lower := nth 0 (Engine.calculateSMA (map snd flat20) 20) 0
                           - windowStdDev (map snd flat20) 20 0 * 2 |}).
  rewrite Hsd, Hmean. do 2 f_equal; lra.
Qed.

Lemma flat20_price_target (side : Band -> R) :
  side (mkBand 5 5 5) = 5 ->
  Engine.priceTarget (Engine.calculateSimpleTechnicals flat20) side = VNum 5.
Proof.
  intros Hside.
  destruct (calculateSimpleTechnicals_rsi flat20) as (t & Ht & _ & Hbb);
    [cbn; lia|].
  unfold Engine.priceTarget. rewrite Ht, Hbb, flat20_bands, Hside.
  unfold truthy. replace (eqb 5 0) with false
    by (symmetry; apply eqb_false; lra).
  reflexivity.
Qed.

Lemma price_targets_are_latest_bands_witness :
  exists b,
    lastElement (Engine.calculateBollingerBands (map snd flat20) 20 2)
    = Some b
    /\ 5 = lower b /\ 5 = upper b /\ 5 <= 5.
Proof.
  apply (price_targets_are_latest_bands
           flat20 marketData19 (mkSentiment "neutral" 0.1 [])
           (Engine.marketStructureAnalysis marketData19) 5 5).
  - apply (flat20_price_target lower). reflexivity.
  - apply (flat20_price_target upper). reflexivity.
Defined.

(** X31.  Rounding decides the direction of a neutral reading: when the
    technical score is the neutral 0.5, the liquidity score exceeds 0.1,
    the sentiment score is positive and the institutional interest is not
    'high', the weighted sum 0.5 * 0.4 + 0.7 * 0.3 + 0.7 * 0.2 + 0.5 * 0.1
    is computed as 0.6000000000000001, so both engines predict BULLISH,
    with the confidence 20.000000000000018 and the risk MEDIUM. *)
Theorem rounded_score_of_a_neutral_reading :
  (forall (Fundamentals : Type) technicals (fundamentals : Fundamentals)
          sentiment marketStructure,
     Binary64.Engine.technicalScore technicals = 0.5%float ->
     PrimFloat.ltb 0.1 (Binary64.liquidityScore marketStructure) = true ->
     PrimFloat.ltb 0 (Binary64.score sentiment) = true ->
     Binary64.institutionalInterest marketStructure <> "high"%string ->
     Binary64.Engine.finalScore technicals sentiment marketStructure
     = 0.6000000000000001%float
     /\ Binary64.direction
          (Binary64.Engine.generateGodPrediction
             technicals fundamentals sentiment marketStructure)
        = "BULLISH"%string
     /\ Binary64.confidence
          (Binary64.Engine.generateGodPrediction
             technicals fundamentals sentiment marketStructure)
        = 20.000000000000018%float
     /\ Binary64.risk_level
          (Binary64.Engine.generateGodPrediction
             technicals fundamentals sentiment marketStructure)
        = "MEDIUM"%string)
  /\ (forall (Fundamentals : Type) technicals (fundamentals : Fundamentals)
             sentiment marketStructure,
        Binary64.Gateway.technicalScore technicals = 0.5%float ->
        PrimFloat.ltb 0.1 (Binary64.liquidityScore marketStructure) = true ->
        PrimFloat.ltb 0 (Binary64.score sentiment) = true ->
        Binary64.institutionalInterest marketStructure <> "high"%string ->
        Binary64.Gateway.finalScore technicals sentiment marketStructure
        = 0.6000000000000001%float
        /\ Binary64.direction
             (Binary64.Gateway.generateGodPrediction
                technicals fundamentals sentiment marketStructure)
           = "BULLISH"%string
        /\ Binary64.confidence
             (Binary64.Gateway.generateGodPrediction
                technicals fundamentals sentiment marketStructure)
           = 20.000000000000018%float
        /\ Binary64.risk_level
             (Binary64.Gateway.generateGodPrediction
                technicals fundamentals sentiment marketStructure)
           = "MEDIUM"%string).
Proof.
  split; intros Fundamentals technicals fundamentals sentiment marketStructure
                Ht Hl Hs Hi;
    apply String.eqb_neq in Hi.
  - unfold Binary64.Engine.generateGodPrediction, Binary64.Engine.finalScore,
      Binary64.Engine.fundamentalScore, Binary64.Engine.sentimentScore,
      Binary64.Engine.structureScore, Binary64.gtb.
    cbn [Binary64.direction Binary64.confidence Binary64.risk_level].
    rewrite Ht, Hl, Hs, Hi. vm_compute. repeat split.
  - unfold Binary64.Gateway.generateGodPrediction, Binary64.Gateway.finalScore,
      Binary64.Gateway.fundamentalScore, Binary64.Gateway.sentimentScore,
      Binary64.Gateway.structureScore, Binary64.gtb.
    cbn [Binary64.direction Binary64.confidence Binary64.risk_level].
    rewrite Ht, Hl, Hs, Hi. vm_compute. repeat split.
Qed.

(** The statement of X31 on a request without indicators, with the
    liquidity score 0.5, the sentiment score 0.1 and a medium
    institutional interest. *)
Lemma rounded_score_of_a_neutral_reading_witness :
  Binary64.Engine.finalScore
    None (Binary64.mkSentiment "neutral" 0.1 [])
    (Binary64.mkMarketStructure 1 0.5 "normal" "medium" "neutral")
  = 0.6000000000000001%float
  /\ Binary64.direction
       (Binary64.Engine.generateGodPrediction
          None tt (Binary64.mkSentiment "neutral" 0.1 [])
          (Binary64.mkMarketStructure 1 0.5 "normal" "medium" "neutral"))
     = "BULLISH"%string
  /\ Binary64.confidence
       (Binary64.Engine.generateGodPrediction
          None tt (Binary64.mkSentiment "neutral" 0.1 [])
          (Binary64.mkMarketStructure 1 0.5 "normal" "medium" "neutral"))
     = 20.000000000000018%float
  /\ Binary64.risk_level
       (Binary64.Engine.generateGodPrediction
          None tt (Binary64.mkSentiment "neutral" 0.1 [])
          (Binary64.mkMarketStructure 1 0.5 "normal" "medium" "neutral"))
     = "MEDIUM"%string.
Proof.
  apply (proj1 rounded_score_of_a_neutral_reading unit None tt
           (Binary64.mkSentiment "neutral" 0.1 [])
           (Binary64.mkMarketStructure 1 0.5 "normal" "medium" "neutral"));
    [reflexivity | vm_compute; reflexivity | vm_compute; reflexivity
    | discriminate].
Defined.

(** ** Further properties of the request handler and of its inputs *)

Lemma calculateSentiment_50 : Engine.calculateSentiment 50 = "neutral"%string.
Proof.
  unfold Engine.calculateSentiment, gtb.
  replace (ltb 60 50) with false by (symmetry; apply ltb_false; lra).
  replace (ltb 50 40) with false by (symmetry; apply ltb_false; lra).
  reflexivity.
Qed.

(** X23.  The market structure of the two engines: they agree unless the
    24-hour change is below -10 per cent, which only the simplified engine
    rates 'high' (it takes the absolute value), or the share of up-votes
    is 0 or [null], which the simplified engine replaces by 50 ('neutral')
    and the engine of [mcp-gateway.js] rates 'bearish'. *)
Theorem market_structure_of_both_engines :
  forall data,
    (-10 <= price_change_percentage_24h data ->
     sentiment_votes_up_percentage data <> Percentage 0 ->
     sentiment_votes_up_percentage data <> NullVotes ->
     Gateway.marketStructureAnalysis data
     = Engine.marketStructureAnalysis data)
    /\ (price_change_percentage_24h data < -10 ->
        volatilityRating (Engine.marketStructureAnalysis data)
        = "high"%string
        /\ volatilityRating (Gateway.marketStructureAnalysis data)
           = "normal"%string)
    /\ (sentiment_votes_up_percentage data = Percentage 0
        \/ sentiment_votes_up_percentage data = NullVotes ->
        retailSentiment (Engine.marketStructureAnalysis data)
        = "neutral"%string
        /\ retailSentiment (Gateway.marketStructureAnalysis data)
           = "bearish"%string).
Proof.
  intros data.
  unfold Gateway.marketStructureAnalysis, Engine.marketStructureAnalysis.
  cbn [volatilityRating retailSentiment].
  assert (Hzero : (if gtb 0 60 then "bullish"
                   else if ltb 0 40 then "bearish" else "neutral")%string
                  = "bearish"%string).
  { unfold gtb.
    replace (ltb 60 0) with false by (symmetry; apply ltb_false; lra).
    replace (ltb 0 40) with true by (symmetry; apply ltb_true; lra).
    reflexivity. }
  split; [|split].
  - intros Hpc Hvotes Hnull. f_equal.
    + unfold gtb.
      destruct (ltb 10 (price_change_percentage_24h data)) eqn:E.
      * apply ltb_true in E.
        replace (ltb 10 (Rabs (price_change_percentage_24h data))) with true;
          [reflexivity|].
        symmetry. apply ltb_true. rewrite Rabs_pos_eq; lra.
      * apply ltb_false in E.
        replace (ltb 10 (Rabs (price_change_percentage_24h data))) with false;
          [reflexivity|].
        symmetry. apply ltb_false. unfold Rabs.
        destruct (Rcase_abs (price_change_percentage_24h data)); lra.
    + unfold Gateway.calculateSentiment.
      destruct (sentiment_votes_up_percentage data) as [v| |].
      * assert (Hv : v <> 0) by (intros ->; now apply Hvotes).
        unfold truthy. replace (eqb v 0) with false
          by (symmetry; now apply eqb_false).
        reflexivity.
      * now contradiction Hnull.
      * now rewrite calculateSentiment_50.
  - intros Hpc. split.
    + unfold gtb. replace (ltb 10 (Rabs (price_change_percentage_24h data)))
        with true; [reflexivity|].
      symmetry. apply ltb_true. rewrite Rabs_left; lra.
    + unfold gtb. replace (ltb 10 (price_change_percentage_24h data))
        with false; [reflexivity|].
      symmetry. apply ltb_false. lra.
  - intros [-> | ->]; split.
    + unfold truthy. replace (eqb 0 0) with true
        by (symmetry; now apply eqb_true).
      apply calculateSentiment_50.
    + unfold Gateway.calculateSentiment. exact Hzero.
    + apply calculateSentiment_50.
    + unfold Gateway.calculateSentiment. exact Hzero.
Qed.

(** X25.  The news sentiment from the random draw [r] of [0, 1): the score
    lies in [-1, 1), the label is 'bullish' exactly for [r > 0.65] and
    'bearish' exactly for [r < 0.35], and the sentiment sub-score of the
    prediction is 0.7 exactly for [r > 0.5]; so a 'bullish' label always
    scores 0.7 and a 'bearish' one 0.3.  The engine of [mcp-gateway.js]
    draws the same score and label. *)
Theorem news_sentiment_of_draw :
  forall symbol r,
    0 <= r < 1 ->
    -1 <= score (Engine.getNewsSentiment symbol r) < 1
    /\ (overall_sentiment (Engine.getNewsSentiment symbol r)
        = "bullish"%string <-> r > 0.65)
    /\ (overall_sentiment (Engine.getNewsSentiment symbol r)
        = "bearish"%string <-> r < 0.35)
    /\ (Engine.sentimentScore (Engine.getNewsSentiment symbol r) = 0.7
        <-> r > 0.5)
    /\ (Engine.sentimentScore (Engine.getNewsSentiment symbol r) = 0.3
        <-> r <= 0.5)
    /\ score (Gateway.getNewsSentiment symbol r)
       = score (Engine.getNewsSentiment symbol r)
    /\ overall_sentiment (Gateway.getNewsSentiment symbol r)
       = overall_sentiment (Engine.getNewsSentiment symbol r).
Proof.
  intros symbol r Hr.
  unfold Engine.sentimentScore, Engine.getNewsSentiment,
    Gateway.getNewsSentiment.
  cbn [score overall_sentiment].
  replace (r * 2 - 1) with ((r - 0.5) * 2) by lra.
  unfold gtb.
  destruct (ltb 0.3 ((r - 0.5) * 2)) eqn:E1;
  destruct (ltb ((r - 0.5) * 2) (-0.3)) eqn:E2;
  destruct (ltb 0 ((r - 0.5) * 2)) eqn:E3;
    try apply ltb_true in E1; try apply ltb_false in E1;
    try apply ltb_true in E2; try apply ltb_false in E2;
    try apply ltb_true in E3; try apply ltb_false in E3;
    repeat split; intros; try lra; try discriminate; try reflexivity.
Qed.

Lemma news_sentiment_of_draw_witness :
  -1 <= score (Engine.getNewsSentiment "bitcoin" 0.7) < 1
  /\ (overall_sentiment (Engine.getNewsSentiment "bitcoin" 0.7)
      = "bullish"%string <-> 0.7 > 0.65)
  /\ (overall_sentiment (Engine.getNewsSentiment "bitcoin" 0.7)
      = "bearish"%string <-> 0.7 < 0.35)
  /\ (Engine.sentimentScore (Engine.getNewsSentiment "bitcoin" 0.7) = 0.7
      <-> 0.7 > 0.5)
  /\ (Engine.sentimentScore (Engine.getNewsSentiment "bitcoin" 0.7) = 0.3
      <-> 0.7 <= 0.5)
  /\ score (Gateway.getNewsSentiment "bitcoin" 0.7)
     = score (Engine.getNewsSentiment "bitcoin" 0.7)
  /\ overall_sentiment (Gateway.getNewsSentiment "bitcoin" 0.7)
     = overall_sentiment (Engine.getNewsSentiment "bitcoin" 0.7).
Proof.
  apply (news_sentiment_of_draw "bitcoin" 0.7). lra.
Defined.

(** ** Properties of the pattern heuristics *)

Lemma length_sliceLast_eq {A : Type} (k : nat) (l : list A) :
  length (sliceLast k l) = Nat.min k (length l).
Proof. unfold sliceLast. rewrite length_skipn. lia. Qed.

Lemma nth_sliceLast {A : Type} (k i : nat) (l : list A) (d : A) :
  nth i (sliceLast k l) d = nth (length l - k + i) l d.
Proof. unfold sliceLast. apply nth_skipn. Qed.

Lemma filter_all {A : Type} (f : A -> bool) (l : list A) :
  (forall x, In x l -> f x = true) -> filter f l = l.
Proof.
  induction l as [|x l IH]; intros H; [reflexivity|]. cbn [filter].
  rewrite (H x (or_introl eq_refl)), IH; [reflexivity|].
  intros y Hy. apply H. now right.
Qed.

(** The closing price at an index, read in the list of closing prices. *)
Lemma close_nth (prices : list (R * R)) (i : nat) :
  (i < length prices)%nat ->
  snd (nth i prices (0, 0)) = nth i (map snd prices) 0.
Proof. intros Hi. symmetry. now apply nth_map_in. Qed.

Section Trend.

Variable prices : list (R * R).
Variable k : nat.
Hypothesis positive : forall p, In p prices -> 0 < snd p.

Let recent := sliceLast k prices.

(** Two neighbouring closing prices of the last [k] samples. *)
Lemma recent_neighbours (i : nat) :
  (1 <= i < length recent)%nat ->
  exists j, (j + 1 < length prices)%nat
            /\ snd (nth (i - 1) recent (0, 0)) = nth j (map snd prices) 0
            /\ snd (nth i recent (0, 0)) = nth (j + 1) (map snd prices) 0
            /\ 0 < nth j (map snd prices) 0.
Proof.
  intros Hi. subst recent. rewrite length_sliceLast_eq in Hi.
  exists (length prices - k + (i - 1))%nat.
  rewrite !nth_sliceLast.
  replace (length prices - k + (i - 1) + 1)%nat
    with (length prices - k + i)%nat by lia.
  split; [lia|]. rewrite !close_nth by lia.
  repeat split; try reflexivity.
  rewrite <- close_nth by lia. apply positive, nth_In. lia.
Qed.

Lemma relative_step_sign (x y : R) :
  0 < x -> (x < y -> 0 < (y - x) / x) /\ (y < x -> (y - x) / x < 0).
Proof.
  intros Hx. pose proof (Rinv_0_lt_compat x Hx) as Hinv. unfold Rdiv.
  split; intros H; nra.
Qed.

End Trend.

Lemma relativeChanges_rising prices c :
  (forall p, In p prices -> 0 < snd p) ->
  strictlyIncreasing (map snd prices) ->
  In c (Engine.relativeChanges (sliceLast 20 prices)) -> 0 < c.
Proof.
  intros Hpos Hinc Hc. unfold Engine.relativeChanges in Hc.
  apply in_map_iff in Hc as (i & <- & Hi). apply in_seq in Hi.
  destruct (recent_neighbours prices 20 Hpos i) as (j & Hj & -> & -> & Hp);
    [lia|].
  apply relative_step_sign; [assumption|]. apply Hinc.
  now rewrite length_map.
Qed.

Lemma relativeChanges_falling prices c :
  (forall p, In p prices -> 0 < snd p) ->
  strictlyDecreasing (map snd prices) ->
  In c (Engine.relativeChanges (sliceLast 20 prices)) -> c < 0.
Proof.
  intros Hpos Hdec Hc. unfold Engine.relativeChanges in Hc.
  apply in_map_iff in Hc as (i & <- & Hi). apply in_seq in Hi.
  destruct (recent_neighbours prices 20 Hpos i) as (j & Hj & -> & -> & Hp);
    [lia|].
  apply relative_step_sign; [assumption|]. apply Hdec.
  now rewrite length_map.
Qed.

Lemma length_relativeChanges prices :
  (2 <= length prices)%nat ->
  (1 <= length (Engine.relativeChanges (sliceLast 20 prices)))%nat.
Proof.
  intros H. unfold Engine.relativeChanges.
  rewrite length_map, length_seq, length_sliceLast_eq. lia.
Qed.

(** X26.  [analyzeElliottWave] on a trend: fewer than two samples give the
    trend 'unknown' and no wave; at least two positive prices that rise
    strictly give 'bullish_impulse', and that fall strictly
    'bearish_impulse', each with its one wave; the confidence is 100 times
    the random draw whatever the prices. *)
Theorem elliott_wave_of_a_trend :
  forall prices random,
    Engine.confidence (Engine.analyzeElliottWave prices random)
    = random * 100
    /\ ((length prices < 2)%nat ->
        Engine.trend (Engine.analyzeElliottWave prices random)
        = "unknown"%string
        /\ Engine.waves (Engine.analyzeElliottWave prices random) = [])
    /\ ((2 <= length prices)%nat ->
        (forall p, In p prices -> 0 < snd p) ->
        (strictlyIncreasing (map snd prices) ->
         Engine.trend (Engine.analyzeElliottWave prices random)
         = "bullish_impulse"%string
         /\ Engine.waves (Engine.analyzeElliottWave prices random)
            = ["bullish_impulse detected"%string])
        /\ (strictlyDecreasing (map snd prices) ->
            Engine.trend (Engine.analyzeElliottWave prices random)
            = "bearish_impulse"%string
            /\ Engine.waves (Engine.analyzeElliottWave prices random)
               = ["bearish_impulse detected"%string])).
Proof.
  intros prices random. split; [reflexivity|]. split.
  - intros Hlen. unfold Engine.analyzeElliottWave.
    replace (Engine.relativeChanges (sliceLast 20 prices)) with (@nil R).
    + cbn [filter length INR Engine.trend Engine.waves].
      unfold gtb. rewrite Rmult_0_l.
      replace (ltb 0 0) with false by (symmetry; apply ltb_false; lra).
      split; reflexivity.
    + symmetry. apply length_zero_iff_nil. unfold Engine.relativeChanges.
      rewrite length_map, length_seq, length_sliceLast_eq. lia.
  - intros Hlen Hpos.
    pose proof (length_relativeChanges prices Hlen) as Hn.
    assert (Hup : 0 < INR (length (Engine.relativeChanges (sliceLast 20 prices))))
      by (apply lt_0_INR; lia).
    assert (Hgt : gtb (INR (length (Engine.relativeChanges
                                      (sliceLast 20 prices)))) 0 = true)
      by (unfold gtb; now apply ltb_true).
    assert (Hngt : gtb 0 (INR (length (Engine.relativeChanges
                                         (sliceLast 20 prices))) * 1.5)
                   = false)
      by (unfold gtb; apply ltb_false; lra).
    split; intros Htrend; unfold Engine.analyzeElliottWave.
    + rewrite (filter_all (fun c => gtb c 0)).
      * replace (filter (fun c => ltb c 0) _) with (@nil R).
        -- cbn [length INR Engine.trend Engine.waves].
           rewrite Rmult_0_l, !Hgt. split; reflexivity.
        -- symmetry. apply filter_nil_iff. intros c Hc. apply ltb_false.
           apply Rlt_le. now apply (relativeChanges_rising prices).
      * intros c Hc. unfold gtb. apply ltb_true.
        now apply (relativeChanges_rising prices).
    + rewrite (filter_all (fun c => ltb c 0)).
      * replace (filter (fun c => gtb c 0) _) with (@nil R).
        -- cbn [length INR Engine.trend Engine.waves].
           rewrite Rmult_0_l, !Hgt, !Hngt. split; reflexivity.
        -- symmetry. apply filter_nil_iff. intros c Hc. unfold gtb.
           apply ltb_false. apply Rlt_le.
           now apply (relativeChanges_falling prices).
      * intros c Hc. apply ltb_true.
        now apply (relativeChanges_falling prices).
Qed.

Lemma percentChanges_cons latest :
  (1 <= length latest)%nat ->
  Gateway.percentChanges latest
  = 0 :: map (fun i =>
                ((snd (nth i latest (0, 0)) - snd (nth (i - 1) latest (0, 0)))
                 / snd (nth (i - 1) latest (0, 0))) * 100)
             (seq 1 (length latest - 1)).
Proof.
  intros H. unfold Gateway.percentChanges.
  destruct (length latest) as [|n]; [lia|].
  cbn [seq map Nat.ltb Nat.leb]. f_equal.
  replace (S n - 1)%nat with n by lia.
  apply map_ext_in. intros i Hi. apply in_seq in Hi.
  destruct i as [|i]; [lia | reflexivity].
Qed.

Lemma percentChanges_rising prices c :
  (forall p, In p prices -> 0 < snd p) ->
  strictlyIncreasing (map snd prices) ->
  In c (map (fun i =>
               ((snd (nth i (sliceLast 5 prices) (0, 0))
                 - snd (nth (i - 1) (sliceLast 5 prices) (0, 0)))
                / snd (nth (i - 1) (sliceLast 5 prices) (0, 0))) * 100)
            (seq 1 (length (sliceLast 5 prices) - 1))) ->
  0 < c.
Proof.
  intros Hpos Hinc Hc.
  apply in_map_iff in Hc as (i & <- & Hi). apply in_seq in Hi.
  destruct (recent_neighbours prices 5 Hpos i) as (j & Hj & -> & -> & Hp);
    [lia|].
  assert (0 < (nth (j + 1) (map snd prices) 0 - nth j (map snd prices) 0)
              / nth j (map snd prices) 0).
  { apply relative_step_sign; [assumption|]. apply Hinc.
    now rewrite length_map. }
  lra.
Qed.

Lemma percentChanges_falling prices c :
  (forall p, In p prices -> 0 < snd p) ->
  strictlyDecreasing (map snd prices) ->
  In c (map (fun i =>
               ((snd (nth i (sliceLast 5 prices) (0, 0))
                 - snd (nth (i - 1) (sliceLast 5 prices) (0, 0)))
                / snd (nth (i - 1) (sliceLast 5 prices) (0, 0))) * 100)
            (seq 1 (length (sliceLast 5 prices) - 1))) ->
  c < 0.
Proof.
  intros Hpos Hdec Hc.
  apply in_map_iff in Hc as (i & <- & Hi). apply in_seq in Hi.
  destruct (recent_neighbours prices 5 Hpos i) as (j & Hj & -> & -> & Hp);
    [lia|].
  assert ((nth (j + 1) (map snd prices) 0 - nth j (map snd prices) 0)
          / nth j (map snd prices) 0 < 0).
  { apply relative_step_sign; [assumption|]. apply Hdec.
    now rewrite length_map. }
  lra.
Qed.

Lemma filter_head_false {A : Type} (f : A -> bool) (x : A) (l : list A) :
  f x = false -> filter f (x :: l) = filter f l.
Proof. intros H. cbn [filter]. now rewrite H. Qed.

(** X27.  [elliottWaveAnalysis] of [mcp-gateway.js] on a trend: fewer than
    five samples give the trend 'unknown' and no wave; at least five
    positive prices that rise strictly give 'bullish_impulse', and that
    fall strictly 'bearish_impulse', each with its one wave; the confidence
    is 100 times the random draw whatever the prices. *)
Theorem gateway_elliott_wave_of_a_trend :
  forall prices random,
    Gateway.confidence (Gateway.elliottWaveAnalysis prices random)
    = random * 100
    /\ ((length prices < 5)%nat ->
        Gateway.trend (Gateway.elliottWaveAnalysis prices random)
        = "unknown"%string
        /\ Gateway.waves (Gateway.elliottWaveAnalysis prices random) = [])
    /\ ((5 <= length prices)%nat ->
        (forall p, In p prices -> 0 < snd p) ->
        (strictlyIncreasing (map snd prices) ->
         Gateway.trend (Gateway.elliottWaveAnalysis prices random)
         = "bullish_impulse"%string
         /\ Gateway.waves (Gateway.elliottWaveAnalysis prices random)
            = ["Wave 5 potential completion"%string])
        /\ (strictlyDecreasing (map snd prices) ->
            Gateway.trend (Gateway.elliottWaveAnalysis prices random)
            = "bearish_impulse"%string
            /\ Gateway.waves (Gateway.elliottWaveAnalysis prices random)
               = ["Corrective wave in progress"%string])).
Proof.
  intros prices random. split; [|split].
  - unfold Gateway.elliottWaveAnalysis.
    destruct (5 <=? length prices)%nat; [|reflexivity].
    destruct (3 <=? _)%nat; [reflexivity|].
    destruct (3 <=? _)%nat; reflexivity.
  - intros Hlen. unfold Gateway.elliottWaveAnalysis.
    replace (5 <=? length prices)%nat with false
      by (symmetry; apply Nat.leb_gt; assumption).
    split; reflexivity.
  - intros Hlen Hpos.
    assert (Hlatest : length (sliceLast 5 prices) = 5%nat)
      by (rewrite length_sliceLast_eq; lia).
    unfold Gateway.elliottWaveAnalysis.
    replace (5 <=? length prices)%nat with true
      by (symmetry; apply Nat.leb_le; assumption).
    rewrite percentChanges_cons by lia.
    rewrite (filter_head_false (fun c => gtb c 0))
      by (unfold gtb; apply ltb_false; lra).
    rewrite (filter_head_false (fun c => ltb c 0))
      by (apply ltb_false; lra).
    split; intros Htrend.
    + rewrite (filter_all (fun c => gtb c 0)).
      * rewrite length_map, length_seq, Hlatest. cbn. split; reflexivity.
      * intros c Hc. unfold gtb. apply ltb_true.
        now apply (percentChanges_rising prices).
    + replace (filter (fun c => gtb c 0) _) with (@nil R).
      * rewrite (filter_all (fun c => ltb c 0)).
        -- rewrite length_map, length_seq, Hlatest. cbn. split; reflexivity.
        -- intros c Hc. apply ltb_true.
           now apply (percentChanges_falling prices).
      * symmetry. apply filter_nil_iff. intros c Hc. unfold gtb.
        apply ltb_false, Rlt_le. now apply (percentChanges_falling prices).
Qed.

Lemma fold_left_Rmax_constant (l : list R) (c : R) :
  (forall x, In x l -> x = c) -> fold_left Rmax l c = c.
Proof.
  induction l as [|x l IH]; intros H; [reflexivity|]. cbn [fold_left].
  rewrite (H x (or_introl eq_refl)), Rmax_left by lra.
  apply IH. intros y Hy. apply H. now right.
Qed.

Lemma fold_left_Rmin_constant (l : list R) (c : R) :
  (forall x, In x l -> x = c) -> fold_left Rmin l c = c.
Proof.
  induction l as [|x l IH]; intros H; [reflexivity|]. cbn [fold_left].
  rewrite (H x (or_introl eq_refl)), Rmin_left by lra.
  apply IH. intros y Hy. apply H. now right.
Qed.

(** X28.  [analyzeWyckoff] on a flat series: when every one of the last 20
    prices is the same positive price, the phase is
    'accumulation_distribution', whatever the volumes. *)
Theorem wyckoff_phase_of_flat_prices :
  forall prices volume c,
    prices <> [] -> 0 < c ->
    (forall p, In p (sliceLast 20 prices) -> snd p = c) ->
    Engine.phase (Engine.analyzeWyckoff prices volume)
    = "accumulation_distribution"%string.
Proof.
  intros prices volume c Hne Hc Hflat.
  unfold Engine.analyzeWyckoff. cbn [Engine.phase].
  set (recent := sliceLast 20 prices) in *.
  assert (Hlen : (1 <= length recent)%nat).
  { subst recent. rewrite length_sliceLast_eq.
    destruct prices; [contradiction | cbn [length]; lia]. }
  assert (Hall : forall x, In x (map snd recent) -> x = c).
  { intros x Hx. apply in_map_iff in Hx as (p & <- & Hp). now apply Hflat. }
  assert (Havg : fold_left (fun sum p => sum + snd p) recent 0
                 / INR (length recent) = c).
  { rewrite (fold_left_add_map snd), Rplus_0_l, (sum_constant _ c Hall).
    rewrite length_map. assert (0 < INR (length recent))
      by (apply lt_0_INR; lia).
    field. lra. }
  rewrite Havg.
  destruct (map snd recent) as [|p rest] eqn:E.
  - apply (f_equal (@length R)) in E. rewrite length_map in E.
    cbn in E. lia.
  - assert (Hp : p = c) by (apply Hall; now left).
    assert (Hrest : forall x, In x rest -> x = c)
      by (intros; apply Hall; now right).
    rewrite Hp, fold_left_Rmax_constant, fold_left_Rmin_constant
      by assumption.
    unfold gtb.
    replace (ltb (c * 0.1) (c - c)) with false
      by (symmetry; apply ltb_false; lra).
    replace (ltb (c - c) (c * 0.02)) with true
      by (symmetry; apply ltb_true; lra).
    reflexivity.
Qed.

Lemma wyckoff_phase_of_flat_prices_witness :
  Engine.phase (Engine.analyzeWyckoff flat20 [])
  = "accumulation_distribution"%string.
Proof.
  apply (wyckoff_phase_of_flat_prices flat20 [] 5).
  - discriminate.
  - lra.
  - intros p Hp. apply In_sliceLast in Hp. unfold flat20 in Hp.
    apply in_map_iff in Hp as (i & <- & _). reflexivity.
Defined.

(** ** Properties of the symbol mapping and of the synthetic range *)

Lemma upperAscii_not_lower (c : ascii) :
  ((97 <=? nat_of_ascii (upperAscii c))
   && (nat_of_ascii (upperAscii c) <=? 122))%nat = false.
Proof.
  unfold upperAscii.
  destruct ((97 <=? nat_of_ascii c) && (nat_of_ascii c <=? 122))%nat eqn:E.
  - apply andb_true_iff in E as [E1 E2].
    apply Nat.leb_le in E1. apply Nat.leb_le in E2.
    rewrite nat_ascii_embedding by lia.
    apply andb_false_iff. left. apply Nat.leb_gt. lia.
  - assumption.
Qed.

Lemma noLowerCase_toUpperCase (s : string) : noLowerCase (toUpperCase s) = true.
Proof.
  induction s as [|c s IH]; [reflexivity|]. cbn [toUpperCase noLowerCase].
  now rewrite upperAscii_not_lower, IH.
Qed.

Lemma toUpperCase_fixed (s : string) :
  noLowerCase s = true -> toUpperCase s = s.
Proof.
  induction s as [|c s IH]; [reflexivity|]. cbn [toUpperCase noLowerCase].
  intros H. apply andb_true_iff in H as [Hc Hs]. rewrite (IH Hs).
  f_equal. unfold upperAscii. apply negb_true_iff in Hc. now rewrite Hc.
Qed.

(** A string without lower-case letter is no key of [mapping], own or
    inherited. *)
Lemma mapping_of_upper_case (s : string) :
  noLowerCase s = true ->
  BinanceDataProvider.mapping s = BinanceDataProvider.Undefined.
Proof.
  intros H. unfold BinanceDataProvider.mapping,
    BinanceDataProvider.objectPrototypeNames.
  cbn [existsb].
  repeat match goal with
         | |- context [String.eqb s ?k] =>
             destruct (String.eqb_spec s k) as [E | _];
             [rewrite E in H; discriminate H|]
         end.
  reflexivity.
Qed.

(** X29.  [mapCoinGeckoToBinance] yields tickers: the five known names
    give BTC, ETH, ADA, SOL and BNB; every string it returns holds no
    lower-case ASCII letter and is mapped to itself; it returns no string
    exactly for the property names of [Object.prototype], where the lookup
    finds an inherited member. *)
Theorem binance_symbol_mapping :
  BinanceDataProvider.mapCoinGeckoToBinance "bitcoin" = Some "BTC"%string
  /\ BinanceDataProvider.mapCoinGeckoToBinance "ethereum" = Some "ETH"%string
  /\ BinanceDataProvider.mapCoinGeckoToBinance "cardano" = Some "ADA"%string
  /\ BinanceDataProvider.mapCoinGeckoToBinance "solana" = Some "SOL"%string
  /\ BinanceDataProvider.mapCoinGeckoToBinance "binancecoin"
     = Some "BNB"%string
  /\ (forall symbol ticker,
        BinanceDataProvider.mapCoinGeckoToBinance symbol = Some ticker ->
        noLowerCase ticker = true
        /\ BinanceDataProvider.mapCoinGeckoToBinance ticker = Some ticker)
  /\ (forall symbol,
        BinanceDataProvider.mapCoinGeckoToBinance symbol = None
        <-> In symbol BinanceDataProvider.objectPrototypeNames).
Proof.
  repeat (split; [reflexivity|]).
  assert (Hfix : forall t, noLowerCase t = true ->
                           BinanceDataProvider.mapCoinGeckoToBinance t = Some t).
  { intros t Ht. unfold BinanceDataProvider.mapCoinGeckoToBinance.
    now rewrite (mapping_of_upper_case t Ht), (toUpperCase_fixed t Ht). }
  split.
  - intros symbol ticker.
    unfold BinanceDataProvider.mapCoinGeckoToBinance,
      BinanceDataProvider.mapping at 1.
    repeat match goal with
           | |- context [if String.eqb symbol ?k then _ else _] =>
               destruct (String.eqb symbol k);
               [intros H; injection H as <-; split;
                [reflexivity | apply Hfix; reflexivity]|]
           end.
    destruct (existsb _ _); [discriminate|].
    intros H. injection H as <-.
    split; [apply noLowerCase_toUpperCase|].
    apply Hfix, noLowerCase_toUpperCase.
  - intros symbol.
    unfold BinanceDataProvider.mapCoinGeckoToBinance,
      BinanceDataProvider.mapping.
    split.
    + repeat match goal with
             | |- context [if String.eqb symbol ?k then _ else _] =>
                 destruct (String.eqb symbol k); [discriminate|]
             end.
      destruct (existsb (String.eqb symbol) _) eqn:E; [|discriminate].
      intros _. apply existsb_exists in E as (k & Hk & Hek).
      apply String.eqb_eq in Hek. now subst k.
    + intros Hin.
      assert (E : existsb (String.eqb symbol)
                          BinanceDataProvider.objectPrototypeNames = true)
        by (apply existsb_exists; exists symbol; split;
            [assumption | apply String.eqb_refl]).
      unfold BinanceDataProvider.objectPrototypeNames in Hin.
      cbn [In] in Hin.
      repeat match goal with
             | H : _ \/ _ |- _ => destruct H as [<- | H]
             end; try contradiction; reflexivity.
Qed.

(** X30.  The synthetic range of [calculateTechnicalIndicators] holds the
    closing price: at every index low <= close <= high; for a price that is
    not negative the high is 1.02 times and the low 0.98 times the close,
    and for a price that is not positive both are the close itself. *)
Theorem synthetic_range_holds_the_close :
  forall prices i,
    (i < length prices)%nat ->
    nth i (Gateway.lowPrices prices) 0 <= snd (nth i prices (0, 0))
    /\ snd (nth i prices (0, 0)) <= nth i (Gateway.highPrices prices) 0
    /\ (0 <= snd (nth i prices (0, 0)) ->
        nth i (Gateway.highPrices prices) 0
        = snd (nth i prices (0, 0)) * 1.02
        /\ nth i (Gateway.lowPrices prices) 0
           = snd (nth i prices (0, 0)) * 0.98)
    /\ (snd (nth i prices (0, 0)) <= 0 ->
        nth i (Gateway.highPrices prices) 0 = snd (nth i prices (0, 0))
        /\ nth i (Gateway.lowPrices prices) 0 = snd (nth i prices (0, 0))).
Proof.
  intros prices i Hi. unfold Gateway.lowPrices, Gateway.highPrices.
  rewrite !(nth_map_in _ _ _ (0, 0) 0) by assumption.
  set (c := snd (nth i prices (0, 0))).
  unfold Rmax, Rmin.
  destruct (Rle_dec c (c * 1.02)), (Rle_dec c (c * 0.98));
    repeat split; intros; lra.
Qed.

Lemma synthetic_range_holds_the_close_witness :
  nth 0 (Gateway.lowPrices [(1, 100)]) 0 <= snd (nth 0 [(1, 100)] (0, 0))
  /\ snd (nth 0 [(1, 100)] (0, 0)) <= nth 0 (Gateway.highPrices [(1, 100)]) 0
  /\ (0 <= snd (nth 0 [(1, 100)] (0, 0)) ->
      nth 0 (Gateway.highPrices [(1, 100)]) 0
      = snd (nth 0 [(1, 100)] (0, 0)) * 1.02
      /\ nth 0 (Gateway.lowPrices [(1, 100)]) 0
         = snd (nth 0 [(1, 100)] (0, 0)) * 0.98)
  /\ (snd (nth 0 [(1, 100)] (0, 0)) <= 0 ->
      nth 0 (Gateway.highPrices [(1, 100)]) 0 = snd (nth 0 [(1, 100)] (0, 0))
      /\ nth 0 (Gateway.lowPrices [(1, 100)]) 0
         = snd (nth 0 [(1, 100)] (0, 0))).
Proof.
  apply (synthetic_range_holds_the_close [(1, 100)] 0). cbn. lia.
Defined.
